(** * pad-cogs: the database cog and the monster id view

    A shallow embedding of [dbcog/dbcog.py] (the [DBCog] class: readiness
    event, reload gates, background refresh loop, index check, flag merge)
    and of [padinfo/view/id.py] (the [IdView] rows and the evolution list),
    followed by the properties proved about them.

    Python [int] is [Z], [str] is [string] (UTF-8 bytes), [list] is [list],
    [Optional[T]] is [option T], a [dict] used as a map is a [gmap]. *)

From stdpp Require Import gmap strings list fin_maps pretty.
From Stdlib Require Import ZArith Ascii.

Open Scope Z_scope.

#[local] Set Warnings "-register-all".

(* ===================================================================== *)
(** * Part I: the embedding                                               *)
(* ===================================================================== *)

(** ** Python built-ins used by the sources *)

Module Py.

(** [sep.join(parts)] *)
Fixpoint join (sep : string) (parts : list string) : string :=
  match parts with
  | [] => ""
  | [p] => p
  | p :: rest => p +:+ sep +:+ join sep rest
  end.

(** [len(l)] as a Python integer. *)
Definition len {A} (l : list A) : Z := Z.of_nat (length l).

(** The position a slice bound [i] denotes in a sequence of length [n]:
    a negative bound counts from the end, and both ends are clamped. *)
Definition slice_bound (n i : Z) : nat :=
  Z.to_nat (if i <? 0 then Z.max 0 (n + i) else Z.min i n).

(** [l[:i]] *)
Definition slice_to {A} (l : list A) (i : Z) : list A :=
  take (slice_bound (len l) i) l.

(** [l[i:]] *)
Definition slice_from {A} (l : list A) (i : Z) : list A :=
  drop (slice_bound (len l) i) l.

(** [x in l] for a list of strings. *)
Definition str_in (x : string) (l : list string) : bool :=
  existsb (String.eqb x) l.

(** [c.lower()] on the ASCII range; other bytes are left alone. *)
Definition lower_ascii (c : ascii) : ascii :=
  let n := N_of_ascii c in
  if ((65 <=? n) && (n <=? 90))%N then ascii_of_N (n + 32) else c.

(** [s.lower()] *)
Fixpoint lower (s : string) : string :=
  match s with
  | EmptyString => EmptyString
  | String c rest => String (lower_ascii c) (lower rest)
  end.

(** [str(i)] / ["{}".format(i)] for an integer. *)
Definition str_int (i : Z) : string := pretty i.

(** [needle in haystack] for strings. *)
Fixpoint contains (needle haystack : string) : bool :=
  String.prefix needle haystack ||
  match haystack with
  | EmptyString => false
  | String _ rest => contains needle rest
  end.

(** [next(i for i, x in enumerate(l) if p x)]; [None] is StopIteration. *)
Fixpoint first_index {A} (p : A -> bool) (l : list A) : option nat :=
  match l with
  | [] => None
  | x :: rest => if p x then Some 0%nat else S <$> first_index p rest
  end.

End Py.

(** ** The models read by the view ([dbcog.models])

    Only the attributes the view reads. [awakening_name] is the [name] of
    an awakening; the [me_] and [vs_] fields are [monster], [evolution]
    and [alt_monsters] of their classes. *)

Record AwakeningModel := {
  awoken_skill_id : Z;
  awakening_name : string
}.

Record ActiveSkillModel := {
  turn_max : Z;
  turn_min : Z
}.

Record EvolutionModel := {
  reversible : bool
}.

Record MonsterModel := {
  monster_id : Z;
  monster_no_na : Z;
  is_equip : bool;
  awakenings : list AwakeningModel;
  superawakening_count : Z;
  killers : list string;
  latent_slots : Z;
  active_skill : option ActiveSkillModel
}.

(** [MonsterEvolution] of [view_state_base_id]: a monster of the evolution
    list with the edge that leads to it, if any. *)
Record MonsterEvolution := {
  me_monster : MonsterModel;
  me_evolution : option EvolutionModel
}.

(** The part of [ViewStateBaseId] the evolution list reads. *)
Record ViewStateBaseId := {
  vs_monster : MonsterModel;
  vs_alt_monsters : list MonsterEvolution
}.

(** ** The embed components of [discordmenu] *)

Inductive Component :=
| Str (s : string)                    (* a bare Python string given to a Box *)
| Text (s : string)
| BoldText (s : string)
| Box (items : list (option Component)) (delimiter : option string).

Record LinkedText := {
  link_name : string;
  link_url : string
}.

Record HighlightableLinks := {
  links : list LinkedText;
  highlighted : nat
}.

Record EmbedField := {
  field_name : string;
  field_value : HighlightableLinks
}.

(** [occurs sub c]: the component [sub] is displayed within [c], as [c]
    itself or inside one of its boxes. *)
Inductive occurs (sub : Component) : Component -> Prop :=
| occurs_here : occurs sub sub
| occurs_inside (items : list (option Component)) (delimiter : option string)
    (c : Component) :
    In (Some c) items -> occurs sub c -> occurs sub (Box items delimiter).

(** ** What the view takes from modules that are not part of these sources *)

(** [padinfo.common.emoji_map]. *)
Class EmojiMap := {
  get_awakening_emoji : Z -> option string -> string;
  get_emoji : string -> string
}.

(** [padinfo.common.external_links.puzzledragonx]. *)
Class ExternalLinks := {
  puzzledragonx : MonsterModel -> string
}.

(** [MonsterModel.__eq__], which decides [m == transform_base];
    [m != transform_base] is its negation. *)
Class MonsterEq := {
  monster_eq : MonsterModel -> MonsterModel -> bool
}.

(** ** [padinfo/view/id.py] *)

Definition alt_fmt (monsterevo : MonsterEvolution) (state : ViewStateBaseId) : string :=
  let no := Py.str_int (monster_no_na (me_monster monsterevo)) in
  if is_equip (me_monster monsterevo) then
    "⌈" +:+ no +:+ "⌉"
  else if match me_evolution monsterevo with
          | None => true
          | Some evolution => reversible evolution
          end then
    no
  else
    "⌊" +:+ no +:+ "⌋".

(** The edge into [me] exists and is irreversible. *)
Definition irreversible (me : MonsterEvolution) : Prop :=
  exists evolution, me_evolution me = Some evolution /\ reversible evolution = false.

Section View.
Context `{EmojiMap} `{ExternalLinks} `{MonsterEq}.

Definition _get_awakening_text (awakening : AwakeningModel) : string :=
  get_awakening_emoji (awoken_skill_id awakening) (Some (awakening_name awakening)).

Definition _killer_latent_emoji (latent_name : string) : string :=
  get_emoji ("latent_killer_" +:+ Py.lower latent_name).

(** [Text(e)] for the emoji [e] of an awakening: how a row shows it. *)
Definition shown (a : AwakeningModel) : option Component :=
  Some (Text (_get_awakening_text a)).

(** The [any(...)] tests that fill [legend_parts]. *)
Definition has_irreversible (alts : list MonsterEvolution) : bool :=
  existsb (fun alt_evo => match me_evolution alt_evo with
                          | Some evolution => negb (reversible evolution)
                          | None => false
                          end) alts.

Definition has_equip (alts : list MonsterEvolution) : bool :=
  existsb (fun alt_evo => is_equip (me_monster alt_evo)) alts.

Definition evos_legend_parts (state : ViewStateBaseId) : list string :=
  (if has_irreversible (vs_alt_monsters state) then ["⌊Irreversible⌋"] else [])
  ++ (if has_equip (vs_alt_monsters state) then ["⌈Equip⌉"] else []).

(** [None] is the StopIteration of [next(...)] when the shown monster is
    not among the alternatives. *)
Definition evos_embed_field (state : ViewStateBaseId) : option EmbedField :=
  let field_text := "**Evos**" in
  let legend_parts := evos_legend_parts state in
  let help_text :=
    match legend_parts with
    | [] => ""
    | _ => " – Help: " +:+ Py.join " " legend_parts
    end in
  let links :=
    map (fun me => {| link_name := alt_fmt me state;
                      link_url := puzzledragonx (me_monster me) |})
        (vs_alt_monsters state) in
  match Py.first_index
          (fun me => monster_id (vs_monster state) =? monster_id (me_monster me))
          (vs_alt_monsters state) with
  | None => None
  | Some i =>
      Some {| field_name := field_text +:+ help_text;
              field_value := {| links := links; highlighted := i |} |}
  end.

End View.

Module IdView.
Section Rows.
Context `{EmojiMap} `{MonsterEq}.

Definition normal_awakenings_row (m : MonsterModel) : Component :=
  let normal_awakenings := Py.len (awakenings m) - superawakening_count m in
  let normal_awakenings_emojis :=
    map _get_awakening_text (Py.slice_to (awakenings m) normal_awakenings) in
  Box (map (fun e => Some (Text e)) normal_awakenings_emojis) (Some " ").

(** The outer [option] is Python's [None]. *)
Definition super_awakenings_row (m : MonsterModel) : option Component :=
  let normal_awakenings := Py.len (awakenings m) - superawakening_count m in
  let super_awakenings_emojis :=
    map _get_awakening_text (Py.slice_from (awakenings m) normal_awakenings) in
  if 0 <? Py.len super_awakenings_emojis then
    Some (Box (Some (Text (get_emoji "sa_questionmark"))
                 :: map (fun e => Some (Text e)) super_awakenings_emojis)
              (Some " "))
  else None.

(** The method calls itself on [(transform_base, transform_base)]; the
    depth of the Python recursion is the [fuel], and [None] means the
    fuel ran out (with an [__eq__] that is not reflexive the recursion
    need not stop). *)
Fixpoint all_awakenings_row (fuel : nat) (m transform_base : MonsterModel)
  : option Component :=
  match fuel with
  | O => None
  | S fuel' =>
      if Py.len (awakenings m) =? 0 then
        Some (Box [Some (Text "No Awakenings")] None)
      else
        let first :=
          Box [Some (Str (if negb (monster_eq m transform_base) then "🔺" else ""));
               Some (normal_awakenings_row m)] (Some " ") in
        if negb (monster_eq m transform_base) then
          match all_awakenings_row fuel' transform_base transform_base with
          | None => None
          | Some base_row =>
              Some (Box [Some first;
                         Some (Box [Some (Str "🔻"); Some base_row] (Some " "));
                         super_awakenings_row m] None)
          end
        else
          Some (Box [Some first; None; super_awakenings_row m] None)
  end.

Definition killers_text (killers : list string) : string :=
  if Py.str_in "Any" killers then "Any"
  else Py.join " " (map _killer_latent_emoji killers).

Definition killers_row (m transform_base : MonsterModel) : Component :=
  let killers := if monster_eq m transform_base then killers m
                 else killers transform_base in
  Box [Some (BoldText "Available killers:");
       Some (Text (if negb (monster_eq m transform_base) then "🔻" else ""));
       Some (Text ("[" +:+ Py.str_int (if monster_eq m transform_base
                                       then latent_slots m
                                       else latent_slots transform_base)
                       +:+ " slots]"));
       Some (Text (killers_text killers))] (Some " ").

Definition active_skill_header (m transform_base : MonsterModel) : Component :=
  let active_cd :=
    if monster_eq m transform_base then
      match active_skill m with
      | Some sk => "(" +:+ Py.str_int (turn_max sk) +:+ " -> "
                       +:+ Py.str_int (turn_min sk) +:+ ")"
      | None => "None"
      end
    else
      let base_cd :=
        match active_skill transform_base with
        | Some base_skill =>
            " (🔻 " +:+ Py.str_int (turn_max base_skill) +:+ " -> "
                    +:+ Py.str_int (turn_min base_skill) +:+ ")"
        | None => "None"
        end in
      let active_cd :=
        match active_skill m with
        | Some sk => "(" +:+ Py.str_int (turn_min sk) +:+ " cd)"
        | None => "None"
        end in
      active_cd +:+ base_cd
  in
  Box [Some (BoldText "Active Skill"); Some (BoldText active_cd)] (Some " ").

End Rows.
End IdView.

(** ** The models read by the cog ([dbcog.database_loader], [dbcog.monster_index]) *)

(** An enum member of [tsutils.enums.Server], by its name. *)
Definition Server := string.

(** [DEFAULT_SERVER] and [SERVERS] of [dbcog.models.enum_types]. *)
Class EnumTypes := {
  DEFAULT_SERVER : Server;
  SERVERS : list Server
}.

Record MonsterGraph := {
  graph_issues : list string;
  debug_monster_ids : option (list Z)
}.

Record DgDatabase := {
  graph : MonsterGraph
}.

Record MonsterIndex := {
  index_issues : list string
}.

(** A value of a find-monster flag: the defaults hold a bool and a server,
    the per-user store holds whatever was saved there. *)
Inductive FlagValue :=
| FlagBool (b : bool)
| FlagServer (s : Server)
| FlagInt (i : Z)
| FlagStr (s : string).

(** A [FindMonster] object: the flags it was constructed with. *)
Record FindMonster := {
  finder_flags : gmap string FlagValue
}.

(** The Red [Config] of the cog: the registered globals and the per-user
    [fm_flags], a missing user reading as the registered default [{}]. *)
Record Config := {
  datafile : string;
  indexlog : Z;
  debug_mode : bool;
  debug_mode_monsters : list Z;
  user_fm_flags : gmap Z (gmap string FlagValue)
}.

(** The part of the bot the index check talks to. A channel or a user is
    its id. *)
Record Bot := {
  get_channel : Z -> option Z;
  owner_ids : list Z;
  get_user : Z -> option Z;
  get_valid_prefixes : list string
}.

(** [redbot.core.utils.chat_formatting]. *)
Class ChatFormatting := {
  pagify : string -> list string;
  box : string -> string
}.

(** A Python exception: its class name and whether the class derives from
    [Exception] (what [except Exception] tests). *)
Record PyExc := {
  exc_class : string;
  exc_is_Exception : bool
}.

Definition AttributeError : PyExc :=
  {| exc_class := "AttributeError"; exc_is_Exception := true |}.
Definition IndexError : PyExc :=
  {| exc_class := "IndexError"; exc_is_Exception := true |}.

Inductive Result (A : Type) :=
| Ok (a : A)
| Err (e : PyExc).
Arguments Ok {A} a.
Arguments Err {A} e.

(** ** [dbcog/dbcog.py]: the state of a [DBCog] *)

Record DBCog := {
  _is_ready : bool;                       (* the value of the asyncio.Event *)
  database : option DgDatabase;
  indexes : list (Server * MonsterIndex); (* a dict, in insertion order *)
  fir_lock : bool;                        (* asyncio.Lock.locked() *)
  fir3_lock : bool;
  fm_flags_default : gmap string FlagValue;
  mon_finder : option FindMonster
}.

Definition set_is_ready (b : bool) (self : DBCog) : DBCog :=
  {| _is_ready := b; database := database self; indexes := indexes self;
     fir_lock := fir_lock self; fir3_lock := fir3_lock self;
     fm_flags_default := fm_flags_default self; mon_finder := mon_finder self |}.

Definition set_database (d : option DgDatabase) (self : DBCog) : DBCog :=
  {| _is_ready := _is_ready self; database := d; indexes := indexes self;
     fir_lock := fir_lock self; fir3_lock := fir3_lock self;
     fm_flags_default := fm_flags_default self; mon_finder := mon_finder self |}.

Definition set_indexes (ix : list (Server * MonsterIndex)) (self : DBCog) : DBCog :=
  {| _is_ready := _is_ready self; database := database self; indexes := ix;
     fir_lock := fir_lock self; fir3_lock := fir3_lock self;
     fm_flags_default := fm_flags_default self; mon_finder := mon_finder self |}.

Definition set_fir_lock (b : bool) (self : DBCog) : DBCog :=
  {| _is_ready := _is_ready self; database := database self; indexes := indexes self;
     fir_lock := b; fir3_lock := fir3_lock self;
     fm_flags_default := fm_flags_default self; mon_finder := mon_finder self |}.

Definition set_fir3_lock (b : bool) (self : DBCog) : DBCog :=
  {| _is_ready := _is_ready self; database := database self; indexes := indexes self;
     fir_lock := fir_lock self; fir3_lock := b;
     fm_flags_default := fm_flags_default self; mon_finder := mon_finder self |}.

Definition set_mon_finder (f : option FindMonster) (self : DBCog) : DBCog :=
  {| _is_ready := _is_ready self; database := database self; indexes := indexes self;
     fir_lock := fir_lock self; fir3_lock := fir3_lock self;
     fm_flags_default := fm_flags_default self; mon_finder := f |}.

(** [d[k] = v] on an insertion-ordered dict: an existing key keeps its
    place, a new key goes last. *)
Fixpoint dict_setitem {V} (k : Server) (v : V) (d : list (Server * V)) : list (Server * V) :=
  match d with
  | [] => [(k, v)]
  | (k', v') :: rest =>
      if String.eqb k k' then (k, v) :: rest else (k', v') :: dict_setitem k v rest
  end.

(** [{**a, **b}]: the items of [a], then those of [b] over them. *)
Definition dict_unpack2 {V} (a b : gmap string V) : gmap string V := b ∪ a.

Module DBCog.
Section Methods.
Context `{EnumTypes} `{ChatFormatting}.

(** [__init__]: the fields the methods below read. *)
Definition __init__ : DBCog :=
  {| _is_ready := false;
     database := None;
     indexes := [];
     fir_lock := false;
     fir3_lock := false;
     fm_flags_default :=
       <["na_prio" := FlagBool true]> (<["server" := FlagServer DEFAULT_SERVER]> ∅);
     mon_finder := None |}.

(** [config.register_global(...)], [config.register_user(...)]. *)
Definition registered_config : Config :=
  {| datafile := ""; indexlog := 0; debug_mode := false;
     debug_mode_monsters := [3260]; user_fm_flags := ∅ |}.

(** [await self.config.user_from_id(author_id).fm_flags()] *)
Definition config_fm_flags (config : Config) (author_id : Z) : gmap string FlagValue :=
  default ∅ (user_fm_flags config !! author_id).

Definition get_debug_monsters (config : Config) : option (list Z) :=
  if debug_mode config then Some (debug_mode_monsters config) else None.

Definition get_fm_flags (self : DBCog) (config : Config) (author_id : Z)
  : gmap string FlagValue :=
  dict_unpack2 (fm_flags_default self) (config_fm_flags config author_id).

(** [find_monster] and [find_monsters] build a [FindMonster] from
    [get_fm_flags] and query it; this is the finder they build. *)
Definition find_monster_finder (self : DBCog) (config : Config) (author_id : Z)
  : FindMonster :=
  {| finder_flags := get_fm_flags self config author_id |}.

Definition find_monsters_finder (self : DBCog) (config : Config) (author_id : Z)
  : FindMonster :=
  {| finder_flags := get_fm_flags self config author_id |}.

Definition cog_unload (self : DBCog) : DBCog :=
  set_is_ready false (set_database None self).

(** *** [check_index] *)

(** What [check_index] sends: the recipient (a channel or user id) and
    the text. *)
Definition Sent : Type := Z * string.

(** The issues gathered before [run_tests] is awaited; [self] is the
    cog as the task starts. *)
Definition check_index_issues (self : DBCog) : Result (list string) :=
  match database self with
  | None => Err AttributeError
  | Some db =>
      Ok (graph_issues (graph db)
          ++ concat (map (fun kv => index_issues (snd kv)) (indexes self)))
  end.

Definition report_text (issues : list string) : string :=
  "Load Warnings:" +:+ "
" +:+ Py.join "
" (Py.slice_to issues 100).

Definition setfailurechannel_hint (prefix : string) : string :=
  "Use `" +:+ prefix +:+ "dbcog setfailurechannel <channel>`"
  +:+ " to move these out of your DMs!".

(** [self] is the cog when the task starts, [self'] the cog when
    [run_tests] has returned [tests] (the await lets other tasks run in
    between). The sends made so far are kept when an exception ends the
    task. *)
Definition check_index (self self' : DBCog) (tests : list string)
    (config : Config) (bot : Bot) : list Sent * Result unit :=
  match check_index_issues self with
  | Err e => ([], Err e)
  | Ok collected =>
      let issues := collected ++ tests in
      if Py.len issues =? 0 then ([], Ok tt)       (* [issues and ...] stops here *)
      else
      match database self' with
      | None => ([], Err AttributeError)
      | Some db =>
          if bool_decide (debug_monster_ids (graph db) = None) then
            let page_sends (channels : list Z) : list Sent :=
              concat (map (fun page => map (fun channel => (channel, box page)) channels)
                          (pagify (report_text issues))) in
            match get_channel bot (indexlog config) with
            | Some channel => (page_sends [channel], Ok tt)
            | None =>
                let channels := omap (get_user bot) (owner_ids bot) in
                match channels, get_valid_prefixes bot with
                | [], _ => (page_sends [], Ok tt)
                | _ :: _, [] => ([], Err IndexError)
                | _ :: _, prefix :: _ =>
                    (map (fun channel => (channel, setfailurechannel_hint prefix)) channels
                     ++ page_sends channels, Ok tt)
                end
            end
          else ([], Ok tt)
      end
  end.

End Methods.
End DBCog.

(** ** [dbcog/dbcog.py]: the coroutines, step by step

    A coroutine is a program counter that names the [await] it is
    suspended at. One step resumes it with the [Answer] of that await and
    runs it to its next await; no other task runs in between, as on the
    asyncio loop. *)

(** What an awaited call of a collaborator produced. *)
Inductive Answer :=
| Returned                              (* it returned; the value is not used *)
| ReturnedDatabase (db : DgDatabase)    (* load_database(...) *)
| ReturnedIndex (index : MonsterIndex)  (* await MonsterIndex(graph, server) *)
| Raised (e : PyExc).

Inductive Message :=
| AlreadyReloading   (* "Index is already being reloaded." *)
| StartingReload     (* 'Starting reload...' *)
| ReloadFinished.    (* 'Reload finished in {} seconds.' *)

(** What a step does that others can observe. *)
Inductive Obs :=
| ObsSend (msg : Message)                   (* await ctx.send(msg) is issued *)
| ObsLogInfo (text : string)                (* logger.info *)
| ObsLogException (text : string) (e : PyExc) (* logger.exception *)
| ObsDatabaseLoaded                         (* self.database = load_database(...) *)
| ObsIndexPublished                         (* create_index replaced indexes and mon_finder *)
| ObsCheckIndexTask                         (* asyncio.create_task(self.check_index()) *)
| ObsSetReady                               (* self._is_ready.set() *)
| ObsSleep (seconds : Z).                   (* await asyncio.sleep(seconds) is issued *)

(** Where a piece of a coroutine hands over. *)
Inductive Flow (Pc : Type) :=
| Continue (pc : Pc)
| Finished
| Throw (e : PyExc).
Arguments Continue {Pc} pc.
Arguments Finished {Pc}.
Arguments Throw {Pc} e.

(** Inside [download_and_refresh_nicknames] and [create_index]. *)
Inductive RefreshPc :=
| RFetch                                  (* the data file is copied or downloaded *)
| RLoad                                   (* get_debug_monsters, then load_database *)
| RIndex (server : Server) (rest : list Server). (* await MonsterIndex(graph, server) *)

Inductive BgPc :=
| BgWaitBot                  (* await self.bot.wait_until_ready() *)
| BgStatusEnter              (* try: entering tsutils.StatusManager *)
| BgRefresh (r : RefreshPc)  (* try: await self.download_and_refresh_nicknames() *)
| BgStatusExit (pending : option PyExc) (* try: leaving the StatusManager *)
| BgSleep (wait_time : Z)    (* await asyncio.sleep(wait_time) *)
| BgExited                   (* the while condition was false *)
| BgRaised (e : PyExc).      (* an exception left reload_data_task *)

Inductive CmdPc :=
| CmdEntry                   (* the command body has not run yet *)
| CmdBusyReply               (* await ctx.send("Index is already being reloaded.") *)
| CmdTyping                  (* entering ctx.typing() *)
| CmdAcquire                 (* waiting for the lock *)
| CmdStartReply              (* lock held: await ctx.send('Starting reload...') *)
| CmdWaitReady               (* lock held: suspended in self._is_ready.wait() *)
| CmdWoken                   (* lock held: the event was set, not resumed yet *)
| CmdWork (r : RefreshPc)    (* lock held: refreshing or rebuilding the index *)
| CmdFinishReply             (* lock held: await ctx.send('Reload finished ...') *)
| CmdReturned
| CmdRaised (e : PyExc).

(** A caller of [wait_until_ready]. *)
Inductive WaitPc :=
| WaitEntry
| WaitSuspended
| WaitWoken
| WaitReturned.

Module Coroutines.
Section Steps.
Context `{EnumTypes}.

(** The head of the [for server in SERVERS] loop of [create_index]
    with [todo] still to build, and what follows the loop. *)
Definition create_index_loop (self : DBCog) (todo : list Server)
  : DBCog * list Obs * Flow RefreshPc :=
  match todo with
  | server :: rest =>
      match database self with
      | None => (self, [], Throw AttributeError)   (* self.database.graph *)
      | Some _ => (self, [], Continue (RIndex server rest))
      end
  | [] =>
      (set_mon_finder (Some {| finder_flags := fm_flags_default self |}) self,
       [ObsIndexPublished; ObsCheckIndexTask], Finished)
  end.

Definition create_index (self : DBCog) : DBCog * list Obs * Flow RefreshPc :=
  create_index_loop self SERVERS.

(** [create_index], resumed at the [await MonsterIndex(...)] of [pc]. *)
Definition create_index_resume (self : DBCog) (pc : RefreshPc) (a : Answer)
  : option (DBCog * list Obs * Flow RefreshPc) :=
  match pc, a with
  | RIndex server rest, ReturnedIndex index =>
      Some (create_index_loop (set_indexes (dict_setitem server index (indexes self)) self) rest)
  | RIndex _ _, Raised e => Some (self, [], Throw e)
  | _, _ => None
  end.

(** The end of [download_and_refresh_nicknames], once [create_index] has
    returned. *)
Definition refresh_done (r : DBCog * list Obs * Flow RefreshPc)
  : DBCog * list Obs * Flow RefreshPc :=
  match r with
  | (self, obs, Finished) => (self, obs ++ [ObsLogInfo "Done refreshing dg data"], Finished)
  | _ => r
  end.

(** [download_and_refresh_nicknames], resumed at [pc]. *)
Definition download_and_refresh_nicknames (self : DBCog) (pc : RefreshPc) (a : Answer)
  : option (DBCog * list Obs * Flow RefreshPc) :=
  match pc, a with
  | RFetch, Returned => Some (self, [ObsLogInfo "Loading dg database"], Continue RLoad)
  | RFetch, Raised e => Some (self, [], Throw e)
  | RLoad, ReturnedDatabase db =>
      let '(self', obs, flow) := create_index (set_database (Some db) self) in
      Some (refresh_done
              (self', ObsDatabaseLoaded :: ObsLogInfo "Building dg monster index" :: obs, flow))
  | RLoad, Raised e => Some (self, [], Throw e)
  | RIndex _ _, _ => refresh_done <$> create_index_resume self pc a
  | _, _ => None
  end.

(** [except Exception as ex] of the refresh: the short wait, or the
    exception goes on when its class is not an [Exception]. *)
Definition refresh_failed (self : DBCog) (ex : PyExc) : DBCog * list Obs * BgPc :=
  if exc_is_Exception ex then
    let short_wait := true in
    let wait_time := if short_wait then 60 else 60 * 60 * 4 in
    (self, [ObsLogException "dbcog data download/refresh failed: %s" ex; ObsSleep wait_time],
     BgSleep wait_time)
  else (self, [], BgRaised ex).

(** The [while self == self.bot.get_cog('DBCog')] test; [registered]
    is its value. *)
Definition loop_head (self : DBCog) (registered : bool) : DBCog * list Obs * BgPc :=
  if registered then (self, [], BgStatusEnter) else (self, [], BgExited).

(** [reload_data_task]. The [logger.info] about a stored database before
    the loop has no effect on the cog and is left out. Leaving the status
    manager hands an exception of its body on. *)
Definition reload_data_task (self : DBCog) (registered : bool) (pc : BgPc) (a : Answer)
  : option (DBCog * list Obs * BgPc) :=
  match pc with
  | BgWaitBot =>
      match a with
      | Returned => Some (loop_head self registered)
      | Raised e => Some (self, [], BgRaised e)
      | _ => None
      end
  | BgStatusEnter =>
      match a with
      | Returned => Some (self, [], BgRefresh RFetch)
      | Raised e => Some (refresh_failed self e)
      | _ => None
      end
  | BgRefresh r =>
      match download_and_refresh_nicknames self r a with
      | None => None
      | Some (self', obs, Continue r') => Some (self', obs, BgRefresh r')
      | Some (self', obs, Finished) =>
          Some (self', obs, BgStatusExit None)
      | Some (self', obs, Throw e) => Some (self', obs, BgStatusExit (Some e))
      end
  | BgStatusExit pending =>
      match a, pending with
      | Returned, None =>
          let short_wait := false in
          let wait_time := if short_wait then 60 else 60 * 60 * 4 in
          Some (set_is_ready true self,
                [ObsLogInfo "Done refreshing DBCog, triggering ready"; ObsSetReady;
                 ObsSleep wait_time],
                BgSleep wait_time)
      | Returned, Some e => Some (refresh_failed self e)
      | Raised e, _ => Some (refresh_failed self e)
      | _, _ => None
      end
  | BgSleep _ =>
      match a with
      | Returned => Some (loop_head self registered)
      | Raised e =>
          Some (self,
                if exc_is_Exception e
                then [ObsLogException "dbcog data wait loop failed: %s" e] else [],
                BgRaised e)
      | _ => None
      end
  | BgExited | BgRaised _ => None
  end.

(** [async with ctx.typing(), self.fir_lock:] once the typing is
    entered: the lock is taken when free, waited for otherwise. (asyncio
    hands a released lock to its waiters in order of arrival; here any
    waiter may be the one resumed once the lock is free.) *)
Definition forceindexreload_acquire (self : DBCog) : DBCog * list Obs * CmdPc :=
  if fir_lock self then (self, [], CmdAcquire)
  else (set_fir_lock true self, [ObsSend StartingReload], CmdStartReply).

Definition forceindexreload (self : DBCog) (pc : CmdPc) (a : Answer)
  : option (DBCog * list Obs * CmdPc) :=
  match pc with
  | CmdEntry =>
      if fir_lock self then Some (self, [ObsSend AlreadyReloading], CmdBusyReply)
      else Some (self, [], CmdTyping)
  | CmdBusyReply =>
      match a with
      | Returned => Some (self, [], CmdReturned)
      | Raised e => Some (self, [], CmdRaised e)
      | _ => None
      end
  | CmdTyping =>
      match a with
      | Returned => Some (forceindexreload_acquire self)
      | Raised e => Some (self, [], CmdRaised e)
      | _ => None
      end
  | CmdAcquire =>
      match a with
      | Returned => if fir_lock self then None else Some (forceindexreload_acquire self)
      | _ => None
      end
  | CmdStartReply =>
      match a with
      | Returned =>
          (* await self.wait_until_ready() *)
          if _is_ready self then Some (self, [], CmdWork RFetch)
          else Some (self, [], CmdWaitReady)
      | Raised e => Some (set_fir_lock false self, [], CmdRaised e)
      | _ => None
      end
  | CmdWaitReady => None
  | CmdWoken =>
      match a with
      | Returned => Some (self, [], CmdWork RFetch)
      | _ => None
      end
  | CmdWork r =>
      match download_and_refresh_nicknames self r a with
      | None => None
      | Some (self', obs, Continue r') => Some (self', obs, CmdWork r')
      | Some (self', obs, Finished) =>
          Some (self', obs ++ [ObsSend ReloadFinished], CmdFinishReply)
      | Some (self', obs, Throw e) => Some (set_fir_lock false self', obs, CmdRaised e)
      end
  | CmdFinishReply =>
      match a with
      | Returned => Some (set_fir_lock false self, [], CmdReturned)
      | Raised e => Some (set_fir_lock false self, [], CmdRaised e)
      | _ => None
      end
  | CmdReturned | CmdRaised _ => None
  end.

(** [await self.create_index()] of [forceindexreload3], from its start. *)
Definition forceindexreload3_work (self : DBCog) : DBCog * list Obs * CmdPc :=
  match create_index self with
  | (self', obs, Continue r) => (self', obs, CmdWork r)
  | (self', obs, Finished) => (self', obs ++ [ObsSend ReloadFinished], CmdFinishReply)
  | (self', obs, Throw e) => (set_fir3_lock false self', obs, CmdRaised e)
  end.

Definition forceindexreload3_acquire (self : DBCog) : DBCog * list Obs * CmdPc :=
  if fir3_lock self then (self, [], CmdAcquire)
  else
    let self := set_fir3_lock true self in
    (* await self.wait_until_ready() *)
    if _is_ready self then forceindexreload3_work self
    else (self, [], CmdWaitReady).

Definition forceindexreload3 (self : DBCog) (pc : CmdPc) (a : Answer)
  : option (DBCog * list Obs * CmdPc) :=
  match pc with
  | CmdEntry =>
      if fir3_lock self then Some (self, [ObsSend AlreadyReloading], CmdBusyReply)
      else Some (self, [], CmdTyping)
  | CmdBusyReply =>
      match a with
      | Returned => Some (self, [], CmdReturned)
      | Raised e => Some (self, [], CmdRaised e)
      | _ => None
      end
  | CmdTyping =>
      match a with
      | Returned => Some (forceindexreload3_acquire self)
      | Raised e => Some (self, [], CmdRaised e)
      | _ => None
      end
  | CmdAcquire =>
      match a with
      | Returned => if fir3_lock self then None else Some (forceindexreload3_acquire self)
      | _ => None
      end
  | CmdStartReply => None     (* forceindexreload3 sends no start message *)
  | CmdWaitReady => None
  | CmdWoken =>
      match a with
      | Returned => Some (forceindexreload3_work self)
      | _ => None
      end
  | CmdWork r =>
      match create_index_resume self r a with
      | None => None
      | Some (self', obs, Continue r') => Some (self', obs, CmdWork r')
      | Some (self', obs, Finished) =>
          Some (self', obs ++ [ObsSend ReloadFinished], CmdFinishReply)
      | Some (self', obs, Throw e) => Some (set_fir3_lock false self', obs, CmdRaised e)
      end
  | CmdFinishReply =>
      match a with
      | Returned => Some (set_fir3_lock false self, [], CmdReturned)
      | Raised e => Some (set_fir3_lock false self, [], CmdRaised e)
      | _ => None
      end
  | CmdReturned | CmdRaised _ => None
  end.

(** [wait_until_ready]: [Event.wait] returns at once when the flag is
    set and suspends the caller otherwise. *)
Definition wait_until_ready (self : DBCog) (pc : WaitPc) (a : Answer)
  : option (DBCog * list Obs * WaitPc) :=
  match pc with
  | WaitEntry =>
      if _is_ready self then Some (self, [], WaitReturned)
      else Some (self, [], WaitSuspended)
  | WaitSuspended => None
  | WaitWoken =>
      match a with
      | Returned => Some (self, [], WaitReturned)
      | _ => None
      end
  | WaitReturned => None
  end.

End Steps.
End Coroutines.

(** ** The cog on the event loop

    The tasks that run against one [DBCog]: the background
    [reload_data_task] (task 0), the invocations of the two reload
    commands and the callers of [wait_until_ready]. *)

Inductive Task :=
| TBackground (pc : BgPc)
| TFir (pc : CmdPc)          (* forceindexreload *)
| TFir3 (pc : CmdPc)         (* forceindexreload3 *)
| TWaiter (pc : WaitPc).     (* wait_until_ready *)

Record World := {
  cog : DBCog;
  registered : bool;         (* self == self.bot.get_cog('DBCog') *)
  tasks : list Task
}.

Inductive Event :=
| Resume (tid : nat) (a : Answer)   (* the loop resumes task [tid]; its await gave [a] *)
| Invoke_forceindexreload
| Invoke_forceindexreload3
| Call_wait_until_ready
| Unload                            (* cog_unload() *)
| Unregister.                       (* the bot no longer maps 'DBCog' to this cog *)

(** [Event.set] resolves the future of every suspended waiter. *)
Definition wake (t : Task) : Task :=
  match t with
  | TFir CmdWaitReady => TFir CmdWoken
  | TFir3 CmdWaitReady => TFir3 CmdWoken
  | TWaiter WaitSuspended => TWaiter WaitWoken
  | _ => t
  end.

Definition calls_set (obs : list Obs) : bool :=
  existsb (fun o => match o with ObsSetReady => true | _ => false end) obs.

Module Loop.
Section Run.
Context `{EnumTypes}.

Definition task_step (self : DBCog) (registered : bool) (t : Task) (a : Answer)
  : option (DBCog * list Obs * Task) :=
  match t with
  | TBackground pc =>
      '(self', obs, pc') ← Coroutines.reload_data_task self registered pc a;
      Some (self', obs, TBackground pc')
  | TFir pc =>
      '(self', obs, pc') ← Coroutines.forceindexreload self pc a;
      Some (self', obs, TFir pc')
  | TFir3 pc =>
      '(self', obs, pc') ← Coroutines.forceindexreload3 self pc a;
      Some (self', obs, TFir3 pc')
  | TWaiter pc =>
      '(self', obs, pc') ← Coroutines.wait_until_ready self pc a;
      Some (self', obs, TWaiter pc')
  end.

(** One event; [None] when the event cannot happen in [w] (no such
    task, a task that is suspended on the event or the lock, an answer
    of the wrong kind). The observations carry the task that made them. *)
Definition step (w : World) (ev : Event) : option (World * list (nat * Obs)) :=
  match ev with
  | Resume tid a =>
      t ← tasks w !! tid;
      '(self', obs, t') ← task_step (cog w) (registered w) t a;
      let tasks' := <[tid := t']> (tasks w) in
      let tasks'' :=
        if calls_set obs && negb (_is_ready (cog w)) then wake <$> tasks' else tasks' in
      Some ({| cog := self'; registered := registered w; tasks := tasks'' |},
            map (pair tid) obs)
  | Invoke_forceindexreload =>
      Some ({| cog := cog w; registered := registered w;
               tasks := tasks w ++ [TFir CmdEntry] |}, [])
  | Invoke_forceindexreload3 =>
      Some ({| cog := cog w; registered := registered w;
               tasks := tasks w ++ [TFir3 CmdEntry] |}, [])
  | Call_wait_until_ready =>
      Some ({| cog := cog w; registered := registered w;
               tasks := tasks w ++ [TWaiter WaitEntry] |}, [])
  | Unload =>
      Some ({| cog := DBCog.cog_unload (cog w); registered := registered w;
               tasks := tasks w |}, [])
  | Unregister =>
      Some ({| cog := cog w; registered := false; tasks := tasks w |}, [])
  end.

(** A run of events, with everything observed along it, oldest first. *)
Fixpoint exec (w : World) (evs : list Event) : option (World * list (nat * Obs)) :=
  match evs with
  | [] => Some (w, [])
  | ev :: rest =>
      '(w', obs) ← step w ev;
      '(w'', obs') ← exec w' rest;
      Some (w'', obs ++ obs')
  end.

(** The cog as loaded: a fresh [DBCog], registered with the bot, and
    the background task about to start. *)
Definition boot : World :=
  {| cog := DBCog.__init__; registered := true; tasks := [TBackground BgWaitBot] |}.

End Run.
End Loop.

(** The flag merge over a history of calls: users save flags, the index is
    rebuilt, monsters are looked up. *)
Inductive FlagsAction :=
| SaveUserFlags (user_id : Z) (flags : gmap string FlagValue)
| RebuildIndex                                    (* create_index *)
| FindMonsterCall (query : string) (author_id : Z)   (* find_monster *)
| FindMonstersCall (query : string) (author_id : Z). (* find_monsters *)

Module Flags.
Section Run.
Context `{EnumTypes}.

Definition save_user_flags (config : Config) (user_id : Z)
    (flags : gmap string FlagValue) : Config :=
  {| datafile := datafile config; indexlog := indexlog config;
     debug_mode := debug_mode config;
     debug_mode_monsters := debug_mode_monsters config;
     user_fm_flags := <[user_id := flags]> (user_fm_flags config) |}.

(** The finders the lookups of the history construct, in call order. *)
Fixpoint finders (self : DBCog) (config : Config) (acts : list FlagsAction)
  : list FindMonster :=
  match acts with
  | [] => []
  | SaveUserFlags user_id flags :: rest =>
      finders self (save_user_flags config user_id flags) rest
  | RebuildIndex :: rest =>
      finders (set_mon_finder (Some {| finder_flags := fm_flags_default self |}) self)
              config rest
  | FindMonsterCall _ author_id :: rest =>
      DBCog.find_monster_finder self config author_id :: finders self config rest
  | FindMonstersCall _ author_id :: rest =>
      DBCog.find_monsters_finder self config author_id :: finders self config rest
  end.

(** The configuration and the cog a history leaves behind. *)
Fixpoint config_after (config : Config) (acts : list FlagsAction) : Config :=
  match acts with
  | [] => config
  | SaveUserFlags user_id flags :: rest =>
      config_after (save_user_flags config user_id flags) rest
  | _ :: rest => config_after config rest
  end.

Fixpoint cog_after (self : DBCog) (acts : list FlagsAction) : DBCog :=
  match acts with
  | [] => self
  | RebuildIndex :: rest =>
      cog_after (set_mon_finder (Some {| finder_flags := fm_flags_default self |}) self)
                rest
  | _ :: rest => cog_after self rest
  end.

(** The flags a user has stored after a history, read off the history
    alone: the last save of that user, else what was stored before. *)
Fixpoint stored_flags (before : gmap string FlagValue) (user_id : Z)
    (acts : list FlagsAction) : gmap string FlagValue :=
  match acts with
  | [] => before
  | SaveUserFlags u flags :: rest =>
      stored_flags (if bool_decide (u = user_id) then flags else before) user_id rest
  | _ :: rest => stored_flags before user_id rest
  end.

End Run.
End Flags.

(** ** Vocabulary for the properties *)

(** The program counters at which a command holds its lock: from the
    [async with] taking it to the block being left. *)
Definition holds_gate (pc : CmdPc) : bool :=
  match pc with
  | CmdStartReply | CmdWaitReady | CmdWoken | CmdWork _ | CmdFinishReply => true
  | _ => false
  end.

(** The program counters after [await self.wait_until_ready()] returned. *)
Definition past_wait (pc : CmdPc) : bool :=
  match pc with
  | CmdWoken | CmdWork _ | CmdFinishReply => true
  | _ => false
  end.

(** The program counters of a command that found its lock taken. *)
Definition turned_away (pc : CmdPc) : bool :=
  match pc with
  | CmdBusyReply | CmdReturned | CmdRaised _ => true
  | _ => false
  end.

(** The program counters inside the [try] of the refresh. *)
Definition in_try (pc : BgPc) : bool :=
  match pc with
  | BgStatusEnter | BgRefresh _ | BgStatusExit _ => true
  | _ => false
  end.

(** Reload work: a database or an index put in place. *)
Definition is_work (o : Obs) : bool :=
  match o with
  | ObsDatabaseLoaded | ObsIndexPublished => true
  | _ => false
  end.

Definition fir_holder (t : Task) : bool :=
  match t with
  | TFir pc => holds_gate pc
  | _ => false
  end.

Definition fir3_holder (t : Task) : bool :=
  match t with
  | TFir3 pc => holds_gate pc
  | _ => false
  end.

(** How one step of a command may move its lock: a holder keeps it or
    gives it back, and a task that does not hold it leaves it alone or
    takes it when it is free. *)
Definition gate_step (held held' : bool) (lock lock' : bool) : Prop :=
  if held
  then (held' = true /\ lock' = lock) \/ (held' = false /\ lock' = false)
  else (held' = false /\ lock' = lock) \/ (held' = true /\ lock = false /\ lock' = true).

Definition turned_away_task (t : Task) : bool :=
  match t with
  | TFir pc | TFir3 pc => turned_away pc
  | _ => false
  end.

Definition past_wait_task (t : Task) : bool :=
  match t with
  | TFir pc | TFir3 pc => past_wait pc
  | _ => false
  end.

(** How many of the tasks satisfy [held]. *)
Fixpoint holders (held : Task -> bool) (l : list Task) : nat :=
  match l with
  | [] => 0
  | t :: rest => (if held t then 1 else 0) + holders held rest
  end.

(** Each lock is locked exactly when one command is inside its
    [async with] block, and then only one is. *)
Definition gates_consistent (w : World) : Prop :=
  holders fir_holder (tasks w) = (if fir_lock (cog w) then 1 else 0)%nat
  /\ holders fir3_holder (tasks w) = (if fir3_lock (cog w) then 1 else 0)%nat.

(** What a run has seen, read against where its tasks stand: task 0, and
    only task 0, is the background task; the event is set, and a command
    is past its wait, only after task 0 set the event; task 0 set the
    event, or is about to, only after it published an index itself; and
    every piece of reload work of another task comes after both. *)
Definition refresh_history (w : World) (tr : list (nat * Obs)) : Prop :=
  (exists pc, tasks w !! 0%nat = Some (TBackground pc))
  /\ (forall tid pc, tasks w !! tid = Some (TBackground pc) -> tid = 0%nat)
  /\ (_is_ready (cog w) = true -> In (0%nat, ObsSetReady) tr)
  /\ (forall tid t, tasks w !! tid = Some t -> past_wait_task t = true ->
                    In (0%nat, ObsSetReady) tr)
  /\ (In (0%nat, ObsSetReady) tr -> In (0%nat, ObsIndexPublished) tr)
  /\ (tasks w !! 0%nat = Some (TBackground (BgStatusExit None)) ->
      In (0%nat, ObsIndexPublished) tr)
  /\ (forall tr1 tid o tr2,
        tr = tr1 ++ (tid, o) :: tr2 -> tid <> 0%nat -> is_work o = true ->
        In (0%nat, ObsSetReady) tr1 /\ In (0%nat, ObsIndexPublished) tr1).

Definition is_unload (ev : Event) : bool :=
  match ev with
  | Unload => true
  | _ => false
  end.

(** ** Sample data *)

Module Sample.

Definition emoji : EmojiMap :=
  {| get_awakening_emoji := fun i _ => ":awk" +:+ pretty i +:+ ":";
     get_emoji := fun name => ":" +:+ name +:+ ":" |}.

Definition external_links : ExternalLinks :=
  {| puzzledragonx := fun m => "http://www.puzzledragonx.com/en/monster.asp?n="
                               +:+ pretty (monster_no_na m) |}.

(** Monsters compared by id. *)
Definition by_id : MonsterEq :=
  {| monster_eq := fun a b => monster_id a =? monster_id b |}.

Definition enum_types : EnumTypes :=
  {| DEFAULT_SERVER := "COMBINED"; SERVERS := ["COMBINED"; "NA"] |}.

Definition chat_formatting : ChatFormatting :=
  {| pagify := fun text => [text];
     box := fun text => "```" +:+ text +:+ "```" |}.

Definition awk (i : Z) : AwakeningModel :=
  {| awoken_skill_id := i; awakening_name := "awakening" |}.

(** A transform base with three awakenings, the last one super. *)
Definition base_form : MonsterModel :=
  {| monster_id := 500; monster_no_na := 500; is_equip := false;
     awakenings := [awk 21; awk 27; awk 43]; superawakening_count := 1;
     killers := ["God"; "Dragon"]; latent_slots := 8;
     active_skill := Some {| turn_max := 20; turn_min := 10 |} |}.

(** Its transformed state. *)
Definition transformed : MonsterModel :=
  {| monster_id := 501; monster_no_na := 501; is_equip := false;
     awakenings := [awk 10; awk 52]; superawakening_count := 0;
     killers := ["Devil"]; latent_slots := 6;
     active_skill := Some {| turn_max := 5; turn_min := 5 |} |}.

(** A transformed state that has no awakenings of its own. *)
Definition bare_transformed : MonsterModel :=
  {| monster_id := 502; monster_no_na := 502; is_equip := false;
     awakenings := []; superawakening_count := 0;
     killers := []; latent_slots := 6;
     active_skill := None |}.

Definition equip_form : MonsterModel :=
  {| monster_id := 503; monster_no_na := 503; is_equip := true;
     awakenings := [awk 49]; superawakening_count := 0;
     killers := []; latent_slots := 6; active_skill := None |}.

Definition evo_state : ViewStateBaseId :=
  {| vs_monster := transformed;
     vs_alt_monsters :=
       [ {| me_monster := base_form; me_evolution := None |};
         {| me_monster := transformed;
            me_evolution := Some {| reversible := false |} |};
         {| me_monster := equip_form;
            me_evolution := Some {| reversible := false |} |} ] |}.

Definition full_graph : MonsterGraph :=
  {| graph_issues := ["graph issue"]; debug_monster_ids := None |}.

Definition debug_graph : MonsterGraph :=
  {| graph_issues := ["graph issue"]; debug_monster_ids := Some [3260] |}.

Definition index_na : MonsterIndex := {| index_issues := ["na issue"] |}.
Definition index_combined : MonsterIndex := {| index_issues := ["combined issue"] |}.

Definition bot : Bot :=
  {| get_channel := fun id => if id =? 77 then Some 77 else None;
     owner_ids := [1; 2];
     get_user := fun id => if id =? 1 then Some 1 else None;
     get_valid_prefixes := ["^"] |}.

Definition config : Config :=
  {| datafile := ""; indexlog := 77; debug_mode := false;
     debug_mode_monsters := [3260]; user_fm_flags := ∅ |}.

Definition cog_with (g : MonsterGraph) : DBCog :=
  set_indexes [("COMBINED", index_combined); ("NA", index_na)]
    (set_database (Some {| graph := g |}) (@DBCog.__init__ enum_types)).

Definition OSError : PyExc := {| exc_class := "OSError"; exc_is_Exception := true |}.

(** The background task refreshes once with success. *)
Definition first_refresh : list Event :=
  [ Resume 0 Returned;                                  (* the bot is ready *)
    Resume 0 Returned;                                  (* status entered *)
    Resume 0 Returned;                                  (* file downloaded *)
    Resume 0 (ReturnedDatabase {| graph := full_graph |});
    Resume 0 (ReturnedIndex index_combined);
    Resume 0 (ReturnedIndex index_na);
    Resume 0 Returned ].                                (* status left *)

(** The next refresh: the download fails. *)
Definition failed_refresh : list Event :=
  [ Resume 0 Returned;                                  (* the sleep is over *)
    Resume 0 Returned;                                  (* status entered *)
    Resume 0 (Raised OSError);                          (* the download fails *)
    Resume 0 Returned ].                                (* status left *)

(** [forceindexreload] is invoked before anything was refreshed and runs
    up to its wait for the event. *)
Definition early_reload : list Event :=
  [ Invoke_forceindexreload;
    Resume 1 Returned;                                  (* the lock is free *)
    Resume 1 Returned;                                  (* typing entered, lock taken *)
    Resume 1 Returned ].                                (* start message sent *)

(** The reload that follows once the event is set. *)
Definition late_reload : list Event :=
  [ Resume 1 Returned;                                  (* woken *)
    Resume 1 Returned;                                  (* file downloaded *)
    Resume 1 (ReturnedDatabase {| graph := full_graph |});
    Resume 1 (ReturnedIndex index_combined);
    Resume 1 (ReturnedIndex index_na);
    Resume 1 Returned ].                                (* finish message sent *)

End Sample.

(** ** [dbcog/dbcog.py]: the settings commands *)

Module PyList.

(** [x in l] for a list of integers. *)
Definition int_in (x : Z) (l : list Z) : bool := existsb (Z.eqb x) l.

(** [l.remove(x)] for an [x] that is in [l]: the first occurrence goes. *)
Fixpoint remove (x : Z) (l : list Z) : list Z :=
  match l with
  | [] => []
  | y :: rest => if x =? y then rest else y :: remove x rest
  end.

(** How often [x] occurs in [l]. *)
Fixpoint count (x : Z) (l : list Z) : nat :=
  match l with
  | [] => 0
  | y :: rest => ((if (x =? y)%Z then 1 else 0) + count x rest)%nat
  end.

(** [d.get(k)] on an insertion-ordered dict. *)
Fixpoint dict_get {V} (k : Server) (d : list (Server * V)) : option V :=
  match d with
  | [] => None
  | (k', v) :: rest => if String.eqb k k' then Some v else dict_get k rest
  end.

(** [list(d.keys())] *)
Definition dict_keys {V} (d : list (Server * V)) : list Server := map fst d.

End PyList.

Definition set_datafile (data_file : string) (config : Config) : Config :=
  {| datafile := data_file; indexlog := indexlog config; debug_mode := debug_mode config;
     debug_mode_monsters := debug_mode_monsters config;
     user_fm_flags := user_fm_flags config |}.

Definition set_indexlog (channel_id : Z) (config : Config) : Config :=
  {| datafile := datafile config; indexlog := channel_id; debug_mode := debug_mode config;
     debug_mode_monsters := debug_mode_monsters config;
     user_fm_flags := user_fm_flags config |}.

Definition set_debug_mode (enabled : bool) (config : Config) : Config :=
  {| datafile := datafile config; indexlog := indexlog config; debug_mode := enabled;
     debug_mode_monsters := debug_mode_monsters config;
     user_fm_flags := user_fm_flags config |}.

Definition set_debug_mode_monsters (monsters : list Z) (config : Config) : Config :=
  {| datafile := datafile config; indexlog := indexlog config;
     debug_mode := debug_mode config; debug_mode_monsters := monsters;
     user_fm_flags := user_fm_flags config |}.

(** What a settings command does besides changing the configuration. *)
Inductive CommandEffect :=
| Tick                             (* await ctx.tick() *)
| Confirmation (enabled : bool)    (* send_confirmation_message: the text of the mode *)
| ForceIndexReload.                (* await self.forceindexreload(ctx) *)

Module Settings.

Definition setdatafile (config : Config) (data_file : string)
  : Config * list CommandEffect :=
  (set_datafile data_file config, [Tick]).

(** [channel_id] is [channel.id]. *)
Definition setfailurechannel (config : Config) (channel_id : Z)
  : Config * list CommandEffect :=
  (set_indexlog channel_id config, [Tick]).

Definition debug_enable (config : Config) (enabled : bool)
  : Config * list CommandEffect :=
  (set_debug_mode enabled config, [Confirmation enabled; ForceIndexReload]).

(** The [for monster in monsters] loop of [debug_monsters_add] over the
    list opened from the configuration. *)
Fixpoint add_monsters (ts_monsters : list Z) (monsters : list Z) : list Z :=
  match monsters with
  | [] => ts_monsters
  | monster :: rest =>
      add_monsters (if negb (PyList.int_in monster ts_monsters)
                    then ts_monsters ++ [monster] else ts_monsters) rest
  end.

(** The loop of [debug_monsters_rm]. *)
Fixpoint remove_monsters (ts_monsters : list Z) (monsters : list Z) : list Z :=
  match monsters with
  | [] => ts_monsters
  | monster :: rest =>
      remove_monsters (if PyList.int_in monster ts_monsters
                       then PyList.remove monster ts_monsters else ts_monsters) rest
  end.

Definition debug_monsters_add (config : Config) (monsters : list Z)
  : Config * list CommandEffect :=
  let config := set_debug_mode_monsters
                  (add_monsters (debug_mode_monsters config) monsters) config in
  (config, (if debug_mode config then [ForceIndexReload] else []) ++ [Tick]).

Definition debug_monsters_rm (config : Config) (monsters : list Z)
  : Config * list CommandEffect :=
  let config := set_debug_mode_monsters
                  (remove_monsters (debug_mode_monsters config) monsters) config in
  (config, (if debug_mode config then [ForceIndexReload] else []) ++ [Tick]).

End Settings.

(** ** [dbcog/dbcog.py]: a refresh run without interruption

    [download_and_refresh_nicknames] fed the answers of its awaits one
    after the other, no other task touching the cog in between. The run
    stops when the coroutine returns or raises; answers left over, or an
    answer of the wrong kind, make it [None]. *)

Module Refresh.
Section Run.
Context `{EnumTypes}.

Fixpoint run (self : DBCog) (pc : RefreshPc) (answers : list Answer)
  : option (DBCog * list Obs * Flow RefreshPc) :=
  match answers with
  | [] => Some (self, [], Continue pc)
  | a :: rest =>
      match Coroutines.download_and_refresh_nicknames self pc a with
      | None => None
      | Some (self', obs, Continue pc') =>
          match run self' pc' rest with
          | None => None
          | Some (self'', obs', flow) => Some (self'', obs ++ obs', flow)
          end
      | Some (self', obs, flow) =>
          match rest with
          | [] => Some (self', obs, flow)
          | _ :: _ => None
          end
      end
  end.

(** The [indexes] dict after [self.indexes[server] = index] for each
    pair, in order. *)
Fixpoint store_indexes (indexes : list (Server * MonsterIndex))
    (built : list (Server * MonsterIndex)) : list (Server * MonsterIndex) :=
  match built with
  | [] => indexes
  | (server, index) :: rest => store_indexes (dict_setitem server index indexes) rest
  end.

End Run.
End Refresh.

(** ** [dbcog/dbcog.py]: [wait_until_ready_verbose] *)

Inductive VerbosePc :=
| VEntry
| VNotice              (* await ctx.send("Index is still loading. Please wait...") *)
| VSuspended           (* suspended in self._is_ready.wait() *)
| VWoken               (* the event was set, not resumed yet *)
| VDelete              (* await msg.delete() *)
| VReturned
| VRaised (e : PyExc).

Inductive VerboseObs :=
| SendNotice           (* ctx.send("Index is still loading. Please wait...") is issued *)
| DeleteNotice.        (* msg.delete() is issued *)

(** What happens to a caller of [wait_until_ready_verbose]: it is resumed
    with the answer of its await, or the event it is suspended on is set. *)
Inductive VerboseEvent :=
| VResume (a : Answer)
| VSet.

Module Verbose.

(** [except discord.Forbidden]. *)
Definition is_Forbidden (e : PyExc) : bool := String.eqb (exc_class e) "Forbidden".

Definition wait_until_ready_verbose (self : DBCog) (pc : VerbosePc) (a : Answer)
  : option (list VerboseObs * VerbosePc) :=
  match pc with
  | VEntry =>
      if _is_ready self then Some ([], VReturned)
      else Some ([SendNotice], VNotice)
  | VNotice =>
      match a with
      | Returned =>
          if _is_ready self then Some ([DeleteNotice], VDelete)
          else Some ([], VSuspended)
      | Raised e => Some ([], VRaised e)
      | _ => None
      end
  | VSuspended => None
  | VWoken =>
      match a with
      | Returned => Some ([DeleteNotice], VDelete)
      | _ => None
      end
  | VDelete =>
      match a with
      | Returned => Some ([], VReturned)
      | Raised e => if is_Forbidden e then Some ([], VReturned) else Some ([], VRaised e)
      | _ => None
      end
  | VReturned | VRaised _ => None
  end.

(** One event for the caller; [self] is the cog at that moment. *)
Definition step (self : DBCog) (pc : VerbosePc) (ev : VerboseEvent)
  : option (list VerboseObs * VerbosePc) :=
  match ev with
  | VResume a => wait_until_ready_verbose self pc a
  | VSet =>
      match pc with
      | VSuspended => Some ([], VWoken)
      | _ => Some ([], pc)
      end
  end.

(** A run of the caller: each event comes with the cog as it is when the
    event happens. *)
Fixpoint run (pc : VerbosePc) (evs : list (DBCog * VerboseEvent))
  : option (list VerboseObs * VerbosePc) :=
  match evs with
  | [] => Some ([], pc)
  | (self, ev) :: rest =>
      match step self pc ev with
      | None => None
      | Some (obs, pc') =>
          match run pc' rest with
          | None => None
          | Some (obs', pc'') => Some (obs ++ obs', pc'')
          end
      end
  end.

End Verbose.

(** [discord.Forbidden]. *)
Definition Forbidden : PyExc := {| exc_class := "Forbidden"; exc_is_Exception := true |}.

(** What a caller of [wait_until_ready_verbose] that stands at [pc] has
    done so far. *)
Definition verbose_so_far (pc : VerbosePc) (obs : list VerboseObs) : Prop :=
  match pc with
  | VEntry => obs = []
  | VNotice | VSuspended | VWoken => obs = [SendNotice]
  | VDelete => obs = [SendNotice; DeleteNotice]
  | VReturned => obs = [] \/ obs = [SendNotice; DeleteNotice]
  | VRaised e =>
      obs = [SendNotice]
      \/ (obs = [SendNotice; DeleteNotice] /\ Verbose.is_Forbidden e = false)
  end.

(** ** [padinfo/view/id.py]: [IdViewState]

    [on_na] and [on_jp] are attributes of [MonsterModel] that only the
    state reads; [invalid_monster_text] is of [padinfo.view.common]. *)

Class MonsterServers := {
  on_na : MonsterModel -> bool;
  on_jp : MonsterModel -> bool
}.

Class ViewCommon := {
  invalid_monster_text : string -> MonsterModel -> string -> bool -> string
}.

(** What [get_na_diff_invalid_message] reads of an [IdViewState]. *)
Record IdViewState := {
  state_base : ViewStateBaseId;
  query : string;
  is_jp_buffed : bool
}.

(** A value of the [ims] dict of a menu. *)
Inductive ImsValue :=
| ImsNone
| ImsBool (b : bool)
| ImsInt (i : Z)
| ImsStr (s : string).

Module IdViewState.
Section Messages.
Context `{MonsterServers} `{ViewCommon}.

Definition nadiff_na_only_text : string := ", which is only in NA".
Definition nadiff_jp_only_text : string := ", which is only in JP".
Definition nadiff_identical_text : string := ", which is the same in NA & JP".

Definition get_na_diff_invalid_message (self : IdViewState) : option string :=
  let monster := vs_monster (state_base self) in
  if on_na monster && negb (on_jp monster) then
    Some (invalid_monster_text (query self) monster nadiff_na_only_text true)
  else if on_jp monster && negb (on_na monster) then
    Some (invalid_monster_text (query self) monster nadiff_jp_only_text true)
  else if negb (is_jp_buffed self) then
    Some (invalid_monster_text (query self) monster nadiff_identical_text true)
  else None.

(** The dict [ims] is changed in place: the first component is [ims]
    after the call. *)
Definition set_na_diff_invalid_message (self : IdViewState) (ims : gmap string ImsValue)
  : gmap string ImsValue * bool :=
  let message := get_na_diff_invalid_message self in
  match message with
  | Some message => (<["message" := ImsStr message]> ims, true)
  | None => (ims, false)
  end.

End Messages.
End IdViewState.

(* ===================================================================== *)
(** * Part II: properties                                                 *)
(* ===================================================================== *)

(** ** Python built-ins *)

Lemma string_length_app (s t : string) :
  String.length (s +:+ t) = (String.length s + String.length t)%nat.
Proof. induction s as [|c s IH]; simpl; [reflexivity | now rewrite IH]. Qed.

Lemma slice_bound_within (n i : Z) :
  0 <= i <= n -> Py.slice_bound n i = Z.to_nat i.
Proof.
  intros [Hlo Hhi]. unfold Py.slice_bound.
  destruct (Z.ltb_spec i 0) as [Hneg | _]; [lia |].
  now rewrite Z.min_l.
Qed.

Lemma slice_bound_beyond (n i : Z) :
  0 <= n <= i -> Py.slice_bound n i = Z.to_nat n.
Proof.
  intros [Hlo Hhi]. unfold Py.slice_bound.
  destruct (Z.ltb_spec i 0) as [Hneg | _]; [lia |].
  now rewrite Z.min_r.
Qed.

(** For a bound that is not negative, slicing is [take] and [drop] at that
    bound: past the end they take everything and drop everything. *)
Lemma slice_to_take {A} (l : list A) (i : Z) :
  0 <= i -> Py.slice_to l i = take (Z.to_nat i) l.
Proof.
  intros Hi. unfold Py.slice_to, Py.len.
  destruct (Z.le_gt_cases i (Z.of_nat (length l))) as [Hle | Hgt].
  - now rewrite slice_bound_within by lia.
  - rewrite slice_bound_beyond by lia.
    rewrite Nat2Z.id, !take_ge by lia. reflexivity.
Qed.

Lemma slice_from_drop {A} (l : list A) (i : Z) :
  0 <= i -> Py.slice_from l i = drop (Z.to_nat i) l.
Proof.
  intros Hi. unfold Py.slice_from, Py.len.
  destruct (Z.le_gt_cases i (Z.of_nat (length l))) as [Hle | Hgt].
  - now rewrite slice_bound_within by lia.
  - rewrite slice_bound_beyond by lia.
    rewrite Nat2Z.id, !drop_ge by lia. reflexivity.
Qed.

(** ** The awakening rows *)

Section AwakeningRows.
Context `{EmojiMap}.

(** C6. For a monster whose super-awakening count does not exceed the
    length of its awakening list, the normal row renders exactly the
    first [len(awakenings) - superawakening_count] awakenings, in order;
    the super row renders exactly the rest after the question-mark
    emoji, and is [None] when the rest is empty. The two parts make up
    the whole list. *)
Theorem awakening_rows_split (m : MonsterModel) :
  superawakening_count m <= Py.len (awakenings m) ->
  let normal := Z.to_nat (Py.len (awakenings m) - superawakening_count m) in
  IdView.normal_awakenings_row m
    = Box (map shown (take normal (awakenings m))) (Some " ")
  /\ IdView.super_awakenings_row m
     = match drop normal (awakenings m) with
       | [] => None
       | supers =>
           Some (Box (Some (Text (get_emoji "sa_questionmark")) :: map shown supers)
                     (Some " "))
       end
  /\ take normal (awakenings m) ++ drop normal (awakenings m) = awakenings m
  /\ (0 <= superawakening_count m ->
      Py.len (take normal (awakenings m))
        = Py.len (awakenings m) - superawakening_count m
      /\ Py.len (drop normal (awakenings m)) = superawakening_count m).
Proof.
  intros Hcount normal.
  assert (Hpos : 0 <= Py.len (awakenings m) - superawakening_count m) by lia.
  repeat split.
  - unfold IdView.normal_awakenings_row.
    rewrite slice_to_take by exact Hpos.
    now rewrite map_map.
  - unfold IdView.super_awakenings_row.
    rewrite slice_from_drop by exact Hpos.
    fold normal. destruct (drop normal (awakenings m)) as [|a rest] eqn:Hrest.
    + reflexivity.
    + rewrite map_map.
      replace (0 <? Py.len (map _get_awakening_text (a :: rest))) with true
        by (symmetry; apply Z.ltb_lt; unfold Py.len; simpl; lia).
      reflexivity.
  - apply take_drop.
  - unfold Py.len in *. rewrite length_take. subst normal. lia.
  - unfold Py.len in *. rewrite length_drop. subst normal. lia.
Qed.

End AwakeningRows.

Lemma awakening_rows_split_witness :
  superawakening_count Sample.base_form <= Py.len (awakenings Sample.base_form)
  /\ @IdView.normal_awakenings_row Sample.emoji Sample.base_form
     = Box [Some (Text ":awk21:"); Some (Text ":awk27:")] (Some " ")
  /\ @IdView.super_awakenings_row Sample.emoji Sample.base_form
     = Some (Box [Some (Text ":sa_questionmark:"); Some (Text ":awk43:")] (Some " ")).
Proof.
  assert (Hc : superawakening_count Sample.base_form
               <= Py.len (awakenings Sample.base_form)) by (vm_compute; discriminate).
  split; [exact Hc |].
  destruct (@awakening_rows_split Sample.emoji Sample.base_form Hc) as (Hn & Hs & _).
  split; [rewrite Hn | rewrite Hs]; reflexivity.
Defined.

(** Outside that range the slices follow Python: with three awakenings and
    a count of five, [awakenings[:-2]] is one awakening and
    [awakenings[-2:]] two. *)
Example rows_when_count_exceeds_length :
  let m := {| monster_id := 1; monster_no_na := 1; is_equip := false;
              awakenings := [Sample.awk 1; Sample.awk 2; Sample.awk 3];
              superawakening_count := 5; killers := []; latent_slots := 0;
              active_skill := None |} in
  @IdView.normal_awakenings_row Sample.emoji m = Box [Some (Text ":awk1:")] (Some " ")
  /\ @IdView.super_awakenings_row Sample.emoji m
     = Some (Box [Some (Text ":sa_questionmark:"); Some (Text ":awk2:");
                  Some (Text ":awk3:")] (Some " ")).
Proof. split; reflexivity. Qed.

(** ** The evolution list *)

Lemma floor_brackets_not_plain (s : string) : "⌊" +:+ s +:+ "⌋" <> s.
Proof.
  intros Heq. apply (f_equal String.length) in Heq.
  rewrite !string_length_app in Heq. simpl in Heq. lia.
Qed.

Lemma floor_brackets_not_ceiling (s : string) : "⌊" +:+ s +:+ "⌋" <> "⌈" +:+ s +:+ "⌉".
Proof. simpl. intros Heq. discriminate Heq. Qed.

Lemma has_irreversible_spec (alts : list MonsterEvolution) :
  has_irreversible alts = true <-> exists me, In me alts /\ irreversible me.
Proof.
  unfold has_irreversible. rewrite existsb_exists. split.
  - intros (me & Hin & Hme). exists me. split; [exact Hin |].
    destruct (me_evolution me) as [evolution|] eqn:Hevo; [| discriminate].
    exists evolution. split; [exact Hevo | now apply negb_true_iff].
  - intros (me & Hin & evolution & Hevo & Hrev). exists me. split; [exact Hin |].
    now rewrite Hevo, Hrev.
Qed.

Section EvolutionList.
Context `{ExternalLinks}.

(** C7. A label of the evolution list is [⌊id⌋] exactly when the monster
    is not an equip and the edge into it exists and is irreversible; an
    equip is [⌈id⌉] whatever its edge; every other monster is the plain
    id. The legend holds the Irreversible entry, and the field name
    shows it, exactly when some listed alternative has an irreversible
    edge. The labels of the field are these labels, and the field exists
    as soon as the shown monster is among the alternatives. *)
Theorem evolution_labels_and_legend (state : ViewStateBaseId) :
  (forall me,
      let no := Py.str_int (monster_no_na (me_monster me)) in
      (alt_fmt me state = "⌊" +:+ no +:+ "⌋"
       <-> is_equip (me_monster me) = false /\ irreversible me)
      /\ (is_equip (me_monster me) = true -> alt_fmt me state = "⌈" +:+ no +:+ "⌉")
      /\ (is_equip (me_monster me) = false -> ~ irreversible me -> alt_fmt me state = no))
  /\ (In "⌊Irreversible⌋" (evos_legend_parts state)
      <-> exists me, In me (vs_alt_monsters state) /\ irreversible me)
  /\ (forall field, evos_embed_field state = Some field ->
        (Py.contains "⌊Irreversible⌋" (field_name field) = true
         <-> exists me, In me (vs_alt_monsters state) /\ irreversible me)
        /\ map link_name (links (field_value field))
           = map (fun me => alt_fmt me state) (vs_alt_monsters state))
  /\ ((exists me, In me (vs_alt_monsters state)
                  /\ monster_id (me_monster me) = monster_id (vs_monster state))
      -> exists field, evos_embed_field state = Some field).
Proof.
  split; [| split; [| split]].
  - intros me no. unfold alt_fmt, irreversible. fold no.
    destruct (is_equip (me_monster me)) eqn:Hequip.
    + split; [| split]; [| reflexivity | discriminate].
      split.
      * intros Heq. symmetry in Heq. now apply floor_brackets_not_ceiling in Heq.
      * intros [Hno _]. discriminate Hno.
    + destruct (me_evolution me) as [evolution|] eqn:Hevo.
      * destruct (reversible evolution) eqn:Hrev.
        -- split; [| split]; [| discriminate | reflexivity].
           split.
           ++ intros Heq. symmetry in Heq. now apply floor_brackets_not_plain in Heq.
           ++ intros (_ & e & He & Hfalse). congruence.
        -- split; [| split]; [| discriminate |].
           ++ split; [| reflexivity]. intros _. split; [reflexivity |]. now exists evolution.
           ++ intros _ Hnot. exfalso. apply Hnot. now exists evolution.
      * split; [| split]; [| discriminate | reflexivity].
        split.
        -- intros Heq. symmetry in Heq. now apply floor_brackets_not_plain in Heq.
        -- intros (_ & e & He & _). discriminate He.
  - rewrite <- has_irreversible_spec. unfold evos_legend_parts.
    destruct (has_irreversible (vs_alt_monsters state)),
             (has_equip (vs_alt_monsters state)); simpl; split; intros Hin;
      try reflexivity; try discriminate Hin; try (now left);
      repeat (destruct Hin as [Hin | Hin]; try discriminate Hin); try contradiction.
  - intros field Hfield. rewrite <- has_irreversible_spec.
    unfold evos_embed_field in Hfield.
    destruct (Py.first_index _ _) as [i|]; [| discriminate].
    injection Hfield as <-. cbn [field_name field_value links].
    split.
    + unfold evos_legend_parts.
      destruct (has_irreversible (vs_alt_monsters state)),
               (has_equip (vs_alt_monsters state)); vm_compute; split; congruence.
    + now rewrite map_map.
  - intros (me & Hin & Hid). unfold evos_embed_field.
    assert (Hfound : exists i,
               Py.first_index
                 (fun me => monster_id (vs_monster state) =? monster_id (me_monster me))
                 (vs_alt_monsters state) = Some i).
    { induction (vs_alt_monsters state) as [|x rest IH]; [contradiction |].
      simpl. destruct (monster_id (vs_monster state) =? monster_id (me_monster x)) eqn:Hx.
      - now exists 0%nat.
      - destruct Hin as [-> | Hin]; [rewrite Hid, Z.eqb_refl in Hx; discriminate |].
        destruct (IH Hin) as [i Hi]. rewrite Hi. now exists (S i). }
    destruct Hfound as [i Hi]. rewrite Hi. eauto.
Qed.

End EvolutionList.

Example evolution_list_of_sample :
  @evos_embed_field Sample.external_links Sample.evo_state
  = Some {| field_name := "**Evos** – Help: ⌊Irreversible⌋ ⌈Equip⌉";
            field_value :=
              {| links :=
                   [ {| link_name := "500";
                        link_url := "http://www.puzzledragonx.com/en/monster.asp?n=500" |};
                     {| link_name := "⌊501⌋";
                        link_url := "http://www.puzzledragonx.com/en/monster.asp?n=501" |};
                     {| link_name := "⌈503⌉";
                        link_url := "http://www.puzzledragonx.com/en/monster.asp?n=503" |} ];
                 highlighted := 1 |} |}.
Proof. reflexivity. Qed.

(** ** The rows of a transformed monster *)

Section TransformBase.
Context `{EmojiMap} `{MonsterEq}.

(** The awakenings row of a transform base shown for itself. *)
Lemma all_awakenings_row_of_base (transform_base : MonsterModel) (fuel : nat) :
  monster_eq transform_base transform_base = true ->
  IdView.all_awakenings_row (S fuel) transform_base transform_base
  = Some (if Py.len (awakenings transform_base) =? 0
          then Box [Some (Text "No Awakenings")] None
          else Box [Some (Box [Some (Str "");
                               Some (IdView.normal_awakenings_row transform_base)]
                              (Some " "));
                    None;
                    IdView.super_awakenings_row transform_base] None).
Proof.
  intros Hrefl. simpl. rewrite Hrefl. simpl.
  now destruct (Py.len (awakenings transform_base) =? 0).
Qed.

(** C5, as the code has it. For a monster that is not its own transform
    base: the killers row shows the killers and the latent slots of the
    transform base and nothing of the monster's own; the active-skill
    header shows the monster's own cooldown followed by the cooldown
    range of the base's skill; and, when the monster has at least one
    awakening, its awakenings row holds its own normal and super rows
    together with the whole awakenings row of the transform base. *)
Theorem transformed_rows_use_base (m transform_base : MonsterModel) (fuel : nat) :
  monster_eq m transform_base = false ->
  monster_eq transform_base transform_base = true ->
  IdView.killers_row m transform_base
  = Box [Some (BoldText "Available killers:");
         Some (Text "🔻");
         Some (Text ("[" +:+ Py.str_int (latent_slots transform_base) +:+ " slots]"));
         Some (Text (IdView.killers_text (killers transform_base)))] (Some " ")
  /\ IdView.active_skill_header m transform_base
     = Box [Some (BoldText "Active Skill");
            Some (BoldText
                    ((match active_skill m with
                      | Some own => "(" +:+ Py.str_int (turn_min own) +:+ " cd)"
                      | None => "None"
                      end)
                     +:+
                     (match active_skill transform_base with
                      | Some base_skill =>
                          " (🔻 " +:+ Py.str_int (turn_max base_skill) +:+ " -> "
                                  +:+ Py.str_int (turn_min base_skill) +:+ ")"
                      | None => "None"
                      end)))] (Some " ")
  /\ (awakenings m <> [] ->
      exists row base_row,
        IdView.all_awakenings_row (S (S fuel)) m transform_base = Some row
        /\ IdView.all_awakenings_row (S fuel) transform_base transform_base = Some base_row
        /\ row = Box [Some (Box [Some (Str "🔺"); Some (IdView.normal_awakenings_row m)]
                                (Some " "));
                      Some (Box [Some (Str "🔻"); Some base_row] (Some " "));
                      IdView.super_awakenings_row m] None
        /\ occurs base_row row).
Proof.
  intros Hne Hrefl. split; [| split].
  - unfold IdView.killers_row. now rewrite Hne.
  - unfold IdView.active_skill_header. now rewrite Hne.
  - intros Hown.
    assert (Hlen : (Py.len (awakenings m) =? 0) = false).
    { apply Z.eqb_neq. unfold Py.len. destruct (awakenings m); [congruence | simpl; lia]. }
    pose proof (all_awakenings_row_of_base transform_base fuel Hrefl) as Hbase.
    eexists. eexists. split; [| split; [exact Hbase | split; [reflexivity |]]].
    + change (IdView.all_awakenings_row (S (S fuel)) m transform_base)
        with (if Py.len (awakenings m) =? 0
              then Some (Box [Some (Text "No Awakenings")] None)
              else
                if negb (monster_eq m transform_base)
                then
                  match IdView.all_awakenings_row (S fuel) transform_base transform_base with
                  | None => None
                  | Some base_row =>
                      Some (Box [Some (Box [Some (Str (if negb (monster_eq m transform_base)
                                                       then "🔺" else ""));
                                            Some (IdView.normal_awakenings_row m)]
                                           (Some " "));
                                 Some (Box [Some (Str "🔻"); Some base_row] (Some " "));
                                 IdView.super_awakenings_row m] None)
                  end
                else
                  Some (Box [Some (Box [Some (Str (if negb (monster_eq m transform_base)
                                                   then "🔺" else ""));
                                        Some (IdView.normal_awakenings_row m)]
                                       (Some " "));
                             None; IdView.super_awakenings_row m] None)).
      rewrite Hlen, Hne, Hbase. reflexivity.
    + eapply occurs_inside.
      * right. left. reflexivity.
      * eapply occurs_inside; [right; left; reflexivity | apply occurs_here].
Qed.

End TransformBase.

Lemma transformed_rows_use_base_witness :
  @IdView.killers_row Sample.emoji Sample.by_id Sample.transformed Sample.base_form
  = Box [Some (BoldText "Available killers:"); Some (Text "🔻");
         Some (Text "[8 slots]");
         Some (Text ":latent_killer_god: :latent_killer_dragon:")] (Some " ")
  /\ @IdView.active_skill_header Sample.by_id Sample.transformed Sample.base_form
     = Box [Some (BoldText "Active Skill");
            Some (BoldText "(5 cd) (🔻 20 -> 10)")] (Some " ").
Proof.
  assert (Hne : @monster_eq Sample.by_id Sample.transformed Sample.base_form = false)
    by reflexivity.
  assert (Hrefl : @monster_eq Sample.by_id Sample.base_form Sample.base_form = true)
    by reflexivity.
  destruct (@transformed_rows_use_base Sample.emoji Sample.by_id
              Sample.transformed Sample.base_form 0 Hne Hrefl) as (Hk & Ha & _).
  split; [rewrite Hk | rewrite Ha]; reflexivity.
Defined.

(** C5 as stated fails: a transformed monster without awakenings of its
    own shows "No Awakenings" only, and the awakenings of its transform
    base do not occur in its row. *)
Lemma transformed_without_awakenings_hides_base :
  ~ (forall (E : EmojiMap) (Q : MonsterEq) (m transform_base : MonsterModel),
        monster_eq m transform_base = false ->
        monster_eq transform_base transform_base = true ->
        exists row base_row,
          IdView.all_awakenings_row 2 m transform_base = Some row
          /\ IdView.all_awakenings_row 1 transform_base transform_base = Some base_row
          /\ occurs base_row row).
Proof.
  intros Hclaim.
  destruct (Hclaim Sample.emoji Sample.by_id Sample.bare_transformed Sample.base_form
              eq_refl eq_refl) as (row & base_row & Hrow & Hbase & Hocc).
  vm_compute in Hrow, Hbase.
  injection Hrow as <-. injection Hbase as <-.
  inversion Hocc as [| items delimiter c Hin Hc]; subst.
  destruct Hin as [Hin | []]. injection Hin as <-.
  inversion Hc.
Qed.

(** ** The index check *)

Lemma concat_map_singleton {A B} (f : A -> B) (l : list A) :
  concat (map (fun x => [f x]) l) = map f l.
Proof. induction l as [|x l IH]; simpl; [reflexivity | now rewrite IH]. Qed.

Section IndexCheck.
Context `{ChatFormatting}.

(** C8. The issues of a check are those of the graph, then those of
    every index in the order of the [indexes] dict, then the results of
    the self-tests. The report is the header line followed by the first
    100 of them at most, one per line: what comes after the 100th has no
    part in it. In an unrestricted build with an issue and a configured
    channel, the check sends that channel the boxed pages of this report
    and nothing else; whatever the channels, every message sent is a
    boxed page of this report or the hint to set a failure channel. *)
Theorem check_index_report (self self' : DBCog) (tests : list string)
    (config : Config) (bot : Bot) (db db' : DgDatabase) :
  database self = Some db ->
  database self' = Some db' ->
  let issues :=
    graph_issues (graph db)
    ++ concat (map (fun kv => index_issues (snd kv)) (indexes self))
    ++ tests in
  DBCog.report_text issues
    = "Load Warnings:" +:+ "
" +:+ Py.join "
" (take 100 issues)
  /\ Py.len (take 100 issues) <= 100
  /\ DBCog.report_text issues = DBCog.report_text (take 100 issues)
  /\ (forall channel,
        issues <> [] ->
        debug_monster_ids (graph db') = None ->
        get_channel bot (indexlog config) = Some channel ->
        DBCog.check_index self self' tests config bot
        = (map (fun page => (channel, box page)) (pagify (DBCog.report_text issues)),
           Ok tt))
  /\ (forall recipient text,
        In (recipient, text) (fst (DBCog.check_index self self' tests config bot)) ->
        (exists page, In page (pagify (DBCog.report_text issues)) /\ text = box page)
        \/ (exists prefix, text = DBCog.setfailurechannel_hint prefix)).
Proof.
  intros Hdb Hdb' issues.
  assert (Htext : forall l : list string,
             DBCog.report_text l = "Load Warnings:" +:+ "
" +:+ Py.join "
" (take 100 l)).
  { intros l. unfold DBCog.report_text. now rewrite slice_to_take by lia. }
  assert (Hpages : forall channels recipient text,
             In (recipient, text)
                (concat (map (fun page => map (fun channel : Z => (channel, box page)) channels)
                             (pagify (DBCog.report_text issues)))) ->
             exists page, In page (pagify (DBCog.report_text issues)) /\ text = box page).
  { intros channels recipient text Hin. apply in_concat in Hin.
    destruct Hin as (sends & Hsends & Hin). apply in_map_iff in Hsends.
    destruct Hsends as (page & <- & Hpage). apply in_map_iff in Hin.
    destruct Hin as (channel & Heq & _). injection Heq as _ <-. eauto. }
  split; [apply Htext |]. split.
  { unfold Py.len. rewrite length_take. lia. }
  split.
  { rewrite !Htext. now rewrite take_take. }
  assert (Hrun : DBCog.check_index self self' tests config bot
                 = if negb (Py.len issues =? 0)
                      && bool_decide (debug_monster_ids (graph db') = None)
                   then
                     let page_sends (channels : list Z) :=
                       concat (map (fun page => map (fun channel => (channel, box page)) channels)
                                   (pagify (DBCog.report_text issues))) in
                     match get_channel bot (indexlog config) with
                     | Some channel => (page_sends [channel], Ok tt)
                     | None =>
                         let channels := omap (get_user bot) (owner_ids bot) in
                         match channels, get_valid_prefixes bot with
                         | [], _ => (page_sends [], Ok tt)
                         | _ :: _, [] => ([], Err IndexError)
                         | _ :: _, prefix :: _ =>
                             (map (fun channel => (channel, DBCog.setfailurechannel_hint prefix))
                                  channels ++ page_sends channels, Ok tt)
                         end
                     end
                   else ([], Ok tt)).
  { unfold DBCog.check_index, DBCog.check_index_issues. rewrite Hdb, Hdb'.
    subst issues. rewrite <- app_assoc.
    now destruct (Py.len _ =? 0). }
  split.
  - intros channel Hissues Hfull Hchannel. rewrite Hrun, Hfull, Hchannel.
    replace (Py.len issues =? 0) with false.
    2:{ symmetry. apply Z.eqb_neq. unfold Py.len.
        destruct issues; [congruence | simpl; lia]. }
    cbn [negb andb]. rewrite bool_decide_eq_true_2 by reflexivity. cbn zeta.
    f_equal. apply (concat_map_singleton (fun page => (channel, box page))).
  - intros recipient text. rewrite Hrun.
    destruct (negb (Py.len issues =? 0)
              && bool_decide (debug_monster_ids (graph db') = None));
      [| intros []].
    cbn zeta. destruct (get_channel bot (indexlog config)) as [channel|].
    + intros Hin. left. eapply Hpages, Hin.
    + destruct (omap (get_user bot) (owner_ids bot)) as [|owner owners].
      * intros Hin. left. eapply Hpages, Hin.
      * destruct (get_valid_prefixes bot) as [|prefix prefixes]; [intros [] |].
        cbn [fst]. intros Hin. apply in_app_or in Hin. destruct Hin as [Hin | Hin].
        -- right. apply in_map_iff in Hin. destruct Hin as (c & Heq & _).
           injection Heq as _ <-. eauto.
        -- left. eapply Hpages, Hin.
Qed.

(** C9. When the graph of the current database was built from a list of
    debug monsters, the check sends nothing, whatever issues it has
    gathered; a check that sends anything runs on a graph built without
    such a list. *)
Theorem restricted_build_sends_nothing (self self' : DBCog) (tests : list string)
    (config : Config) (bot : Bot) :
  (forall db' ids,
      database self' = Some db' ->
      debug_monster_ids (graph db') = Some ids ->
      fst (DBCog.check_index self self' tests config bot) = [])
  /\ (fst (DBCog.check_index self self' tests config bot) <> [] ->
      exists db', database self' = Some db'
                  /\ debug_monster_ids (graph db') = None).
Proof.
  unfold DBCog.check_index. split.
  - intros db' ids Hdb' Hdebug.
    destruct (DBCog.check_index_issues self) as [collected | e]; [| reflexivity].
    destruct (Py.len (collected ++ tests) =? 0); [reflexivity |].
    rewrite Hdb', Hdebug. now rewrite bool_decide_eq_false_2 by discriminate.
  - destruct (DBCog.check_index_issues self) as [collected | e]; [| intros []; reflexivity].
    destruct (Py.len (collected ++ tests) =? 0); [intros []; reflexivity |].
    destruct (database self') as [db'|]; [| intros []; reflexivity].
    destruct (debug_monster_ids (graph db')) as [ids|] eqn:Hdebug.
    + rewrite bool_decide_eq_false_2 by discriminate. intros []; reflexivity.
    + intros _. now exists db'.
Qed.

End IndexCheck.

(** Without a configured channel the owners that can be found are told
    how to set one, then get the report. *)
Example check_index_falls_back_to_owners :
  @DBCog.check_index Sample.chat_formatting
     (Sample.cog_with Sample.full_graph) (Sample.cog_with Sample.full_graph)
     [] (@DBCog.registered_config) Sample.bot
  = ([(1, "Use `^dbcog setfailurechannel <channel>` to move these out of your DMs!");
      (1, "```Load Warnings:
graph issue
combined issue
na issue```")], Ok tt).
Proof. reflexivity. Qed.

Lemma check_index_report_witness :
  @DBCog.check_index Sample.chat_formatting
     (Sample.cog_with Sample.full_graph) (Sample.cog_with Sample.full_graph)
     ["test failed"] Sample.config Sample.bot
  = ([(77, "```Load Warnings:
graph issue
combined issue
na issue
test failed```")], Ok tt).
Proof.
  destruct (@check_index_report Sample.chat_formatting
              (Sample.cog_with Sample.full_graph) (Sample.cog_with Sample.full_graph)
              ["test failed"] Sample.config Sample.bot
              {| graph := Sample.full_graph |} {| graph := Sample.full_graph |}
              eq_refl eq_refl) as (_ & _ & _ & Hsend & _).
  rewrite (Hsend 77); [reflexivity | discriminate | reflexivity | reflexivity].
Defined.

Lemma restricted_build_sends_nothing_witness :
  fst (@DBCog.check_index Sample.chat_formatting
         (Sample.cog_with Sample.debug_graph) (Sample.cog_with Sample.debug_graph)
         ["test failed"] Sample.config Sample.bot) = [].
Proof.
  apply (proj1 (@restricted_build_sends_nothing Sample.chat_formatting
                  (Sample.cog_with Sample.debug_graph) (Sample.cog_with Sample.debug_graph)
                  ["test failed"] Sample.config Sample.bot)
               {| graph := Sample.debug_graph |} [3260]); reflexivity.
Defined.

(** ** The find-monster flags *)

Section FlagMerge.
Context `{EnumTypes}.

Lemma dict_unpack2_lookup {V} (a b : gmap string V) (key : string) :
  dict_unpack2 a b !! key
  = match b !! key with
    | Some v => Some v
    | None => a !! key
    end.
Proof.
  unfold dict_unpack2. rewrite lookup_union.
  destruct (b !! key), (a !! key); reflexivity.
Qed.

Lemma finders_app (self : DBCog) (config : Config) (pre rest : list FlagsAction) :
  Flags.finders self config (pre ++ rest)
  = Flags.finders self config pre
    ++ Flags.finders (Flags.cog_after self pre) (Flags.config_after config pre) rest.
Proof.
  revert self config.
  induction pre as [|act pre IH]; intros self config; [reflexivity |].
  destruct act; simpl; rewrite IH; reflexivity.
Qed.

Lemma cog_after_defaults (self : DBCog) (acts : list FlagsAction) :
  fm_flags_default (Flags.cog_after self acts) = fm_flags_default self.
Proof.
  revert self. induction acts as [|act acts IH]; intros self; [reflexivity |].
  destruct act; simpl; rewrite IH; reflexivity.
Qed.

Lemma config_after_stored (config : Config) (user_id : Z) (acts : list FlagsAction) :
  DBCog.config_fm_flags (Flags.config_after config acts) user_id
  = Flags.stored_flags (DBCog.config_fm_flags config user_id) user_id acts.
Proof.
  revert config. induction acts as [|act acts IH]; intros config; [reflexivity |].
  destruct act as [u flags | | |]; simpl; rewrite IH; try reflexivity.
  f_equal. unfold DBCog.config_fm_flags, Flags.save_user_flags. cbn [user_fm_flags].
  case_bool_decide as Hu.
  - subst u. now rewrite lookup_insert_eq.
  - now rewrite lookup_insert_ne.
Qed.

(** C4. In any history of flag saves, index rebuilds and lookups that
    starts from a fresh cog, the finder built by a [find_monster] or
    [find_monsters] call carries, under every key, the value the
    calling user has stored at that moment when there is one, and else
    the instance default: [na_prio] true and [server] the default
    server. The flags follow the store as it is at the call; nothing
    from earlier calls is kept. *)
Theorem fm_flags_merged_per_call (config : Config) (pre rest : list FlagsAction)
    (call : FlagsAction) (query : string) (author_id : Z) :
  call = FindMonsterCall query author_id \/ call = FindMonstersCall query author_id ->
  exists finder,
    Flags.finders DBCog.__init__ config (pre ++ call :: rest)
    = Flags.finders DBCog.__init__ config pre
      ++ finder :: Flags.finders (Flags.cog_after DBCog.__init__ pre)
                                 (Flags.config_after config pre) rest
    /\ (forall key,
          finder_flags finder !! key
          = match Flags.stored_flags (DBCog.config_fm_flags config author_id)
                                     author_id pre !! key with
            | Some v => Some v
            | None =>
                (<["na_prio" := FlagBool true]>
                   (<["server" := FlagServer DEFAULT_SERVER]> ∅)
                 : gmap string FlagValue) !! key
            end).
Proof.
  intros Hcall.
  exists {| finder_flags :=
              DBCog.get_fm_flags (Flags.cog_after DBCog.__init__ pre)
                                 (Flags.config_after config pre) author_id |}.
  split.
  - rewrite finders_app. destruct Hcall as [-> | ->]; reflexivity.
  - intros key. cbn [finder_flags]. unfold DBCog.get_fm_flags.
    rewrite dict_unpack2_lookup, cog_after_defaults, config_after_stored.
    reflexivity.
Qed.

End FlagMerge.

(** A user who has stored an override of [server]: the lookup sees it,
    and the default [na_prio] next to it. *)
Lemma fm_flags_merged_per_call_witness :
  exists finder,
    Flags.finders (@DBCog.__init__ Sample.enum_types) Sample.config
      [SaveUserFlags 7 {["server" := FlagServer "NA"]}; FindMonsterCall "tsubaki" 7]
    = [finder]
    /\ finder_flags finder !! "server" = Some (FlagServer "NA")
    /\ finder_flags finder !! "na_prio" = Some (FlagBool true).
Proof.
  destruct (@fm_flags_merged_per_call Sample.enum_types Sample.config
              [SaveUserFlags 7 {["server" := FlagServer "NA"]}] []
              (FindMonsterCall "tsubaki" 7) "tsubaki" 7 (or_introl eq_refl))
    as (finder & Hrun & Hflags).
  exists finder. split; [exact Hrun |].
  split; rewrite Hflags; vm_compute; reflexivity.
Defined.

(** ** The refresh loop *)

(** [H : In x [a; b; ...]] with every element a different constructor. *)
Ltac absurd_in H :=
  cbn in H; repeat (destruct H as [H | H]; [discriminate H |]); try contradiction.

(** Conjunctions of frame facts about an explicit step result. *)
Ltac frame_goal :=
  cbn;
  repeat match goal with
         | |- _ /\ _ => split
         | |- _ <-> _ => split
         end;
  try reflexivity;
  try discriminate;
  try (intros; let Hin := fresh "Hin" in intros Hin; absurd_in Hin; fail);
  try (let Hin := fresh "Hin" in intros Hin; absurd_in Hin; fail);
  try (intros; now left);
  try (intros; cbn; tauto);
  try (intros; match goal with
               | He : Throw _ = Throw _ |- _ => injection He as <-; auto
               end; fail).

Section RefreshLoop.
Context `{EnumTypes}.

(** The three ways the loop of [create_index] goes on. *)
Lemma create_index_loop_cases (self : DBCog) (todo : list Server) :
  (database self = None /\ todo <> []
   /\ Coroutines.create_index_loop self todo = (self, [], Throw AttributeError))
  \/ (exists server rest,
        todo = server :: rest
        /\ Coroutines.create_index_loop self todo = (self, [], Continue (RIndex server rest)))
  \/ (todo = []
      /\ Coroutines.create_index_loop self todo
         = (set_mon_finder (Some {| finder_flags := fm_flags_default self |}) self,
            [ObsIndexPublished; ObsCheckIndexTask], Finished)).
Proof.
  destruct todo as [|server rest]; simpl.
  - right. right. split; reflexivity.
  - destruct (database self).
    + right. left. exists server, rest. split; reflexivity.
    + left. repeat split. discriminate.
Qed.

(** [create_index] neither sleeps nor touches the event or the locks, and
    what it raises itself is an [Exception]. *)
Lemma create_index_resume_frame (self : DBCog) (r : RefreshPc) (a : Answer)
    (self' : DBCog) (obs : list Obs) (flow : Flow RefreshPc) :
  Coroutines.create_index_resume self r a = Some (self', obs, flow) ->
  _is_ready self' = _is_ready self
  /\ fir_lock self' = fir_lock self
  /\ fir3_lock self' = fir3_lock self
  /\ fm_flags_default self' = fm_flags_default self
  /\ calls_set obs = false
  /\ (forall n, ~ In (ObsSleep n) obs)
  /\ (forall text e, ~ In (ObsLogException text e) obs)
  /\ (flow = Finished <-> In ObsIndexPublished obs)
  /\ (forall e, flow = Throw e -> a = Raised e \/ exc_is_Exception e = true).
Proof.
  intros Hstep. unfold Coroutines.create_index_resume in Hstep.
  destruct r as [| | server rest], a as [| db | index | e]; try discriminate Hstep;
    try (injection Hstep as <- <- <-; frame_goal; fail).
  destruct (create_index_loop_cases
              (set_indexes (dict_setitem server index (indexes self)) self) rest)
    as [(_ & _ & Hloop) | [(server' & rest' & _ & Hloop) | (_ & Hloop)]];
    rewrite Hloop in Hstep; injection Hstep as <- <- <-; frame_goal.
Qed.

(** The same of the whole refresh. *)
Lemma refresh_step_frame (self : DBCog) (r : RefreshPc) (a : Answer)
    (self' : DBCog) (obs : list Obs) (flow : Flow RefreshPc) :
  Coroutines.download_and_refresh_nicknames self r a = Some (self', obs, flow) ->
  _is_ready self' = _is_ready self
  /\ fir_lock self' = fir_lock self
  /\ fir3_lock self' = fir3_lock self
  /\ fm_flags_default self' = fm_flags_default self
  /\ calls_set obs = false
  /\ (forall n, ~ In (ObsSleep n) obs)
  /\ (forall text e, ~ In (ObsLogException text e) obs)
  /\ (flow = Finished <-> In ObsIndexPublished obs)
  /\ (forall e, flow = Throw e -> a = Raised e \/ exc_is_Exception e = true).
Proof.
  intros Hstep. unfold Coroutines.download_and_refresh_nicknames in Hstep.
  destruct r as [| | server rest].
  - destruct a as [| db | index | e]; try discriminate Hstep;
      injection Hstep as <- <- <-; frame_goal.
  - destruct a as [| db | index | e]; try discriminate Hstep;
      [| injection Hstep as <- <- <-; frame_goal].
    unfold Coroutines.create_index in Hstep.
    destruct (create_index_loop_cases (set_database (Some db) self) SERVERS)
      as [(Hnone & _) | [(server & rest & _ & Hloop) | (_ & Hloop)]];
      [discriminate Hnone | |];
      rewrite Hloop in Hstep; injection Hstep as <- <- <-; frame_goal.
  - destruct (Coroutines.create_index_resume self (RIndex server rest) a)
      as [[[self1 obs1] flow1] |] eqn:Hresume; [| discriminate Hstep].
    apply create_index_resume_frame in Hresume.
    destruct Hresume as (Hready & Hfir & Hfir3 & Hflags & Hset & Hsleep & Hlog & Hfin & Hexc).
    destruct flow1 as [r' | | ex]; cbn in Hstep; injection Hstep as <- <- <-.
    + repeat split; try assumption; try discriminate; try (now apply Hfin).
    + unfold calls_set in *. rewrite existsb_app, Hset.
      repeat split; try assumption; try reflexivity; try discriminate.
      * intros n Hin. apply in_app_or in Hin.
        destruct Hin as [Hin | Hin]; [now apply Hsleep in Hin | absurd_in Hin].
      * intros text e Hin. apply in_app_or in Hin.
        destruct Hin as [Hin | Hin]; [now apply Hlog in Hin | absurd_in Hin].
      * intros _. apply in_or_app. left. now apply Hfin.
    + repeat split; try assumption; try discriminate; try (now apply Hfin).
Qed.

(** C3. A failure (an [Exception]) raised by the fetch, the load or the
    index build, or on entering or leaving the status manager around them,
    does not leave the iteration: it is logged and the loop sleeps 60
    seconds. After a refresh that succeeded the loop sets the event and
    sleeps 4 hours. When the sleep returns the next attempt starts. No
    step taken inside the [try] ends the task with an [Exception], and
    every sleep the task starts is one of these two. *)
Theorem refresh_failure_caught_then_short_wait (self : DBCog) (registered : bool)
    (e : PyExc) :
  exc_is_Exception e = true ->
  let failed := ObsLogException "dbcog data download/refresh failed: %s" in
  (forall r,
      Coroutines.reload_data_task self registered (BgRefresh r) (Raised e)
      = Some (self, [], BgStatusExit (Some e)))
  /\ Coroutines.reload_data_task self registered (BgStatusExit (Some e)) Returned
     = Some (self, [failed e; ObsSleep 60], BgSleep 60)
  /\ Coroutines.reload_data_task self registered BgStatusEnter (Raised e)
     = Some (self, [failed e; ObsSleep 60], BgSleep 60)
  /\ (forall pending,
        Coroutines.reload_data_task self registered (BgStatusExit pending) (Raised e)
        = Some (self, [failed e; ObsSleep 60], BgSleep 60))
  /\ Coroutines.reload_data_task self registered (BgStatusExit None) Returned
     = Some (set_is_ready true self,
             [ObsLogInfo "Done refreshing DBCog, triggering ready"; ObsSetReady;
              ObsSleep (4 * (60 * 60))],
             BgSleep (4 * (60 * 60)))
  /\ (forall wait_time,
        Coroutines.reload_data_task self true (BgSleep wait_time) Returned
        = Some (self, [], BgStatusEnter))
  /\ (forall pc a self' obs e',
        in_try pc = true ->
        Coroutines.reload_data_task self registered pc a = Some (self', obs, BgRaised e') ->
        exc_is_Exception e' = false)
  /\ (forall pc a self' obs pc' seconds,
        Coroutines.reload_data_task self registered pc a = Some (self', obs, pc') ->
        In (ObsSleep seconds) obs ->
        pc' = BgSleep seconds
        /\ ((seconds = 4 * (60 * 60) /\ In ObsSetReady obs
             /\ forall e', ~ In (failed e') obs)
            \/ (seconds = 60 /\ ~ In ObsSetReady obs
                /\ exists e', In (failed e') obs))).
Proof.
  intros He failed. unfold Coroutines.reload_data_task.
  split; [| split; [| split; [| split; [| split; [| split; [| split]]]]]].
  - intros r. now destruct r.
  - unfold Coroutines.refresh_failed. now rewrite He.
  - unfold Coroutines.refresh_failed. now rewrite He.
  - intros pending. unfold Coroutines.refresh_failed. rewrite He. now destruct pending.
  - reflexivity.
  - reflexivity.
  - intros pc a self' obs e' Htry Hstep. unfold Coroutines.refresh_failed in Hstep.
    destruct pc as [| | r | pending | wait_time | | raised]; try discriminate Htry.
    + destruct a as [| db | index | ex]; try discriminate Hstep.
      destruct (exc_is_Exception ex) eqn:Hex; [discriminate Hstep |].
      now injection Hstep as _ _ <-.
    + destruct (Coroutines.download_and_refresh_nicknames self r a)
        as [[[self1 obs1] [r' | | ex]] |]; discriminate Hstep.
    + destruct a as [| db | index | ex], pending as [ex0|]; try discriminate Hstep.
      * destruct (exc_is_Exception ex0) eqn:Hex; [discriminate Hstep |].
        now injection Hstep as _ _ <-.
      * destruct (exc_is_Exception ex) eqn:Hex; [discriminate Hstep |].
        now injection Hstep as _ _ <-.
      * destruct (exc_is_Exception ex) eqn:Hex; [discriminate Hstep |].
        now injection Hstep as _ _ <-.
  - intros pc a self' obs pc' seconds Hstep Hin.
    unfold Coroutines.refresh_failed, Coroutines.loop_head in Hstep.
    assert (Hshort : forall ex,
               (if exc_is_Exception ex
                then (self, [failed ex; ObsSleep 60], BgSleep 60)
                else (self, [], BgRaised ex)) = (self', obs, pc') ->
               pc' = BgSleep seconds
               /\ ((seconds = 4 * (60 * 60) /\ In ObsSetReady obs
                    /\ forall e', ~ In (failed e') obs)
                   \/ (seconds = 60 /\ ~ In ObsSetReady obs
                       /\ exists e', In (failed e') obs))).
    { intros ex Hex. destruct (exc_is_Exception ex); injection Hex as <- <- <-;
        [| contradiction].
      destruct Hin as [Hin | [Hin | []]]; [discriminate Hin |]. injection Hin as <-.
      split; [reflexivity |]. right. split; [reflexivity |]. split.
      - intros Hset. absurd_in Hset.
      - exists ex. now left. }
    destruct pc as [| | r | pending | wait_time | | raised]; try discriminate Hstep.
    + destruct a as [| db | index | ex]; try discriminate Hstep;
        [destruct registered |]; injection Hstep as <- <- <-; contradiction.
    + destruct a as [| db | index | ex]; try discriminate Hstep.
      * injection Hstep as <- <- <-. contradiction.
      * injection Hstep as Hstep. now apply (Hshort ex).
    + destruct (Coroutines.download_and_refresh_nicknames self r a)
        as [[[self1 obs1] flow] |] eqn:Hrefresh; [| discriminate Hstep].
      apply refresh_step_frame in Hrefresh.
      destruct Hrefresh as (_ & _ & _ & _ & _ & Hnosleep & _).
      destruct flow as [r' | | ex]; injection Hstep as <- <- <-;
        now apply Hnosleep in Hin.
    + destruct a as [| db | index | ex], pending as [ex0|]; try discriminate Hstep.
      * injection Hstep as Hstep. now apply (Hshort ex0).
      * injection Hstep as <- <- <-.
        destruct Hin as [Hin | [Hin | [Hin | []]]]; try discriminate Hin.
        injection Hin as <-. split; [reflexivity |]. left. split; [reflexivity |].
        split; [right; now left |]. intros e' Hfail. absurd_in Hfail.
      * injection Hstep as Hstep. now apply (Hshort ex).
      * injection Hstep as Hstep. now apply (Hshort ex).
    + destruct a as [| db | index | ex]; try discriminate Hstep.
      * destruct registered; injection Hstep as <- <- <-; contradiction.
      * injection Hstep as <- <- <-. destruct (exc_is_Exception ex); absurd_in Hin.
Qed.

(** What a step of the background task may change. *)
Lemma reload_data_task_frame (self : DBCog) (registered : bool) (pc : BgPc) (a : Answer)
    (self' : DBCog) (obs : list Obs) (pc' : BgPc) :
  Coroutines.reload_data_task self registered pc a = Some (self', obs, pc') ->
  fir_lock self' = fir_lock self
  /\ fir3_lock self' = fir3_lock self
  /\ _is_ready self' = _is_ready self || calls_set obs
  /\ (calls_set obs = true <-> pc = BgStatusExit None /\ a = Returned)
  /\ (pc' = BgStatusExit None -> In ObsIndexPublished obs).
Proof.
  intros Hstep. unfold Coroutines.reload_data_task in Hstep.
  unfold Coroutines.refresh_failed, Coroutines.loop_head in Hstep.
  destruct pc as [| | r | pending | wait_time | | raised]; try discriminate Hstep.
  - destruct a as [| db | index | ex]; try discriminate Hstep;
      [destruct registered |]; injection Hstep as <- <- <-;
      rewrite orb_false_r; repeat split; try discriminate; intros [Hpc _]; discriminate Hpc.
  - destruct a as [| db | index | ex]; try discriminate Hstep;
      [| destruct (exc_is_Exception ex)]; injection Hstep as <- <- <-;
      rewrite orb_false_r; repeat split; try discriminate; intros [Hpc _]; discriminate Hpc.
  - destruct (Coroutines.download_and_refresh_nicknames self r a)
      as [[[self1 obs1] flow] |] eqn:Hrefresh; [| discriminate Hstep].
    apply refresh_step_frame in Hrefresh.
    destruct Hrefresh as (Hready & Hfir & Hfir3 & _ & Hset & _ & _ & Hfin & _).
    destruct flow as [r' | | ex]; injection Hstep as <- <- <-;
      rewrite ?Hset, orb_false_r; repeat split; try assumption; try discriminate;
      try (intros [Hpc _]; discriminate Hpc).
    intros _. now apply Hfin.
  - destruct a as [| db | index | ex], pending as [ex0|]; try discriminate Hstep;
      try destruct (exc_is_Exception ex0); try destruct (exc_is_Exception ex);
      injection Hstep as <- <- <-; cbn; rewrite ?orb_false_r, ?orb_true_r;
      repeat split; try discriminate; try (intros [Hpc _]; discriminate Hpc);
      try (intros [_ Ha]; discriminate Ha).
  - destruct a as [| db | index | ex]; try discriminate Hstep;
      [destruct registered | destruct (exc_is_Exception ex)]; injection Hstep as <- <- <-;
      rewrite orb_false_r; repeat split; try discriminate; intros [Hpc _]; discriminate Hpc.
Qed.

Ltac command_frame :=
  cbn;
  repeat match goal with
         | |- _ /\ _ => split
         end;
  try reflexivity; try discriminate; try assumption;
  try (now left); try (now right);
  try (right; repeat split; reflexivity);
  try (intros; repeat split; reflexivity);
  try (intros; repeat split; congruence).

(** What a step of a reload command may change: never the event; its own
    lock only by taking it when free or by giving it back; reload work only
    once the wait for the event is behind it. *)
Lemma forceindexreload_frame (self : DBCog) (pc : CmdPc) (a : Answer)
    (self' : DBCog) (obs : list Obs) (pc' : CmdPc) :
  Coroutines.forceindexreload self pc a = Some (self', obs, pc') ->
  _is_ready self' = _is_ready self
  /\ fir3_lock self' = fir3_lock self
  /\ calls_set obs = false
  /\ gate_step (holds_gate pc) (holds_gate pc') (fir_lock self) (fir_lock self')
  /\ (existsb is_work obs = true -> past_wait pc = true)
  /\ (past_wait pc' = true -> past_wait pc = true \/ _is_ready self = true)
  /\ (turned_away pc = true -> turned_away pc' = true /\ obs = [] /\ self' = self)
  /\ (pc' = CmdWaitReady -> _is_ready self = false /\ pc = CmdStartReply).
Proof.
  intros Hstep. unfold Coroutines.forceindexreload in Hstep.
  unfold Coroutines.forceindexreload_acquire in Hstep. unfold gate_step.
  destruct pc as [| | | | | | | r | | | raised]; try discriminate Hstep.
  - destruct (fir_lock self) eqn:Hlock; injection Hstep as <- <- <-; command_frame.
  - destruct a; try discriminate Hstep; injection Hstep as <- <- <-; command_frame.
  - destruct a; try discriminate Hstep; [destruct (fir_lock self) eqn:Hlock |];
      injection Hstep as <- <- <-; command_frame.
  - destruct a; try discriminate Hstep. destruct (fir_lock self) eqn:Hlock;
      [discriminate Hstep |]. injection Hstep as <- <- <-. command_frame.
  - destruct a; try discriminate Hstep; [destruct (_is_ready self) eqn:Hready |];
      injection Hstep as <- <- <-; command_frame.
  - destruct a; try discriminate Hstep. injection Hstep as <- <- <-. command_frame.
  - destruct (Coroutines.download_and_refresh_nicknames self r a)
      as [[[self1 obs1] flow] |] eqn:Hrefresh; [| discriminate Hstep].
    apply refresh_step_frame in Hrefresh.
    destruct Hrefresh as (Hready & Hfir & Hfir3 & _ & Hset & _).
    assert (Hset' : calls_set (obs1 ++ [ObsSend ReloadFinished]) = false).
    { unfold calls_set in *. rewrite existsb_app, Hset. reflexivity. }
    destruct flow as [r' | | ex]; injection Hstep as <- <- <-; command_frame.
  - destruct a; try discriminate Hstep; injection Hstep as <- <- <-; command_frame.
Qed.

Lemma forceindexreload3_frame (self : DBCog) (pc : CmdPc) (a : Answer)
    (self' : DBCog) (obs : list Obs) (pc' : CmdPc) :
  Coroutines.forceindexreload3 self pc a = Some (self', obs, pc') ->
  _is_ready self' = _is_ready self
  /\ fir_lock self' = fir_lock self
  /\ calls_set obs = false
  /\ gate_step (holds_gate pc) (holds_gate pc') (fir3_lock self) (fir3_lock self')
  /\ (existsb is_work obs = true -> past_wait pc = true \/ _is_ready self = true)
  /\ (past_wait pc' = true -> past_wait pc = true \/ _is_ready self = true)
  /\ (turned_away pc = true -> turned_away pc' = true /\ obs = [] /\ self' = self)
  /\ (pc' = CmdWaitReady -> _is_ready self = false /\ fir3_lock self' = true).
Proof.
  intros Hstep. unfold Coroutines.forceindexreload3 in Hstep.
  unfold Coroutines.forceindexreload3_acquire, Coroutines.forceindexreload3_work,
    Coroutines.create_index in Hstep.
  unfold gate_step.
  destruct pc as [| | | | | | | r | | | raised]; try discriminate Hstep.
  - destruct (fir3_lock self) eqn:Hlock; injection Hstep as <- <- <-; command_frame.
  - destruct a; try discriminate Hstep; injection Hstep as <- <- <-; command_frame.
  - destruct a; try discriminate Hstep.
    + destruct (fir3_lock self) eqn:Hlock; [injection Hstep as <- <- <-; command_frame |].
      cbn [_is_ready set_fir3_lock] in Hstep.
      destruct (_is_ready self) eqn:Hready; [| injection Hstep as <- <- <-; command_frame].
      destruct (create_index_loop_cases (set_fir3_lock true self) SERVERS)
        as [(_ & _ & Hloop) | [(server & rest & _ & Hloop) | (_ & Hloop)]];
        rewrite Hloop in Hstep; injection Hstep as <- <- <-; command_frame.
    + injection Hstep as <- <- <-; command_frame.
  - destruct a; try discriminate Hstep.
    destruct (fir3_lock self) eqn:Hlock; [discriminate Hstep |].
    cbn [_is_ready set_fir3_lock] in Hstep.
    destruct (_is_ready self) eqn:Hready; [| injection Hstep as <- <- <-; command_frame].
    destruct (create_index_loop_cases (set_fir3_lock true self) SERVERS)
      as [(_ & _ & Hloop) | [(server & rest & _ & Hloop) | (_ & Hloop)]];
      rewrite Hloop in Hstep; injection Hstep as <- <- <-; command_frame.
  - destruct a; try discriminate Hstep.
    destruct (create_index_loop_cases self SERVERS)
      as [(_ & _ & Hloop) | [(server & rest & _ & Hloop) | (_ & Hloop)]];
      rewrite Hloop in Hstep; injection Hstep as <- <- <-; command_frame.
  - destruct (Coroutines.create_index_resume self r a)
      as [[[self1 obs1] flow] |] eqn:Hresume; [| discriminate Hstep].
    apply create_index_resume_frame in Hresume.
    destruct Hresume as (Hready & Hfir & Hfir3 & _ & Hset & _).
    assert (Hset' : calls_set (obs1 ++ [ObsSend ReloadFinished]) = false).
    { unfold calls_set in *. rewrite existsb_app, Hset. reflexivity. }
    destruct flow as [r' | | ex]; injection Hstep as <- <- <-; command_frame.
  - destruct a; try discriminate Hstep; injection Hstep as <- <- <-; command_frame.
Qed.

Lemma wait_until_ready_frame (self : DBCog) (pc : WaitPc) (a : Answer)
    (self' : DBCog) (obs : list Obs) (pc' : WaitPc) :
  Coroutines.wait_until_ready self pc a = Some (self', obs, pc') ->
  self' = self /\ obs = [].
Proof.
  intros Hstep. unfold Coroutines.wait_until_ready in Hstep.
  destruct pc; try discriminate Hstep.
  - destruct (_is_ready self); injection Hstep as <- <- <-; split; reflexivity.
  - destruct a; try discriminate Hstep. injection Hstep as <- <- <-; split; reflexivity.
Qed.

End RefreshLoop.

(** ** The cog on the event loop *)

Lemma holders_insert (held : Task -> bool) (l : list Task) (i : nat) (t t' : Task) :
  l !! i = Some t ->
  (holders held (<[i := t']> l) + (if held t then 1 else 0)
   = holders held l + (if held t' then 1 else 0))%nat.
Proof.
  revert i. induction l as [|x l IH]; intros i Hi; [discriminate Hi |].
  destruct i as [|i]; simpl in *.
  - injection Hi as ->. lia.
  - specialize (IH i Hi). lia.
Qed.

Lemma holders_wake (held : Task -> bool) (l : list Task) :
  (forall t, held (wake t) = held t) ->
  holders held (wake <$> l) = holders held l.
Proof.
  intros Hwake. induction l as [|x l IH]; [reflexivity |].
  rewrite fmap_cons. cbn [holders]. now rewrite Hwake, IH.
Qed.

Lemma holders_app (held : Task -> bool) (l k : list Task) :
  holders held (l ++ k) = (holders held l + holders held k)%nat.
Proof. induction l as [|x l IH]; simpl; [reflexivity | rewrite IH; lia]. Qed.

Lemma holders_lookup (held : Task -> bool) (l : list Task) (i : nat) (t : Task) :
  l !! i = Some t -> held t = true -> (1 <= holders held l)%nat.
Proof.
  revert i. induction l as [|x l IH]; intros i Hi Hheld; [discriminate Hi |].
  destruct i as [|i]; simpl in *.
  - injection Hi as ->. rewrite Hheld. lia.
  - specialize (IH i Hi Hheld). lia.
Qed.

Lemma fir_holder_wake (t : Task) : fir_holder (wake t) = fir_holder t.
Proof. destruct t as [pc | pc | pc | pc]; try reflexivity; now destruct pc. Qed.

Lemma fir3_holder_wake (t : Task) : fir3_holder (wake t) = fir3_holder t.
Proof. destruct t as [pc | pc | pc | pc]; try reflexivity; now destruct pc. Qed.

Section EventLoop.
Context `{EnumTypes}.

(** What resuming a task amounts to. *)
Lemma step_resume (w : World) (tid : nat) (a : Answer) (w' : World)
    (obs : list (nat * Obs)) :
  Loop.step w (Resume tid a) = Some (w', obs) ->
  exists t self' tobs t',
    tasks w !! tid = Some t
    /\ Loop.task_step (cog w) (registered w) t a = Some (self', tobs, t')
    /\ cog w' = self'
    /\ registered w' = registered w
    /\ obs = map (pair tid) tobs
    /\ tasks w' = (if calls_set tobs && negb (_is_ready (cog w))
                   then wake <$> <[tid := t']> (tasks w)
                   else <[tid := t']> (tasks w)).
Proof.
  unfold Loop.step. intros Hstep.
  destruct (tasks w !! tid) as [t|] eqn:Ht; [| discriminate Hstep].
  cbn in Hstep.
  destruct (Loop.task_step (cog w) (registered w) t a) as [[[self' tobs] t'] |] eqn:Htask;
    [| discriminate Hstep].
  cbn in Hstep. injection Hstep as <- <-.
  exists t, self', tobs, t'. repeat split; try reflexivity; assumption.
Qed.

(** A step of any task, seen from outside. *)
Lemma task_step_frame (self : DBCog) (registered : bool) (t : Task) (a : Answer)
    (self' : DBCog) (obs : list Obs) (t' : Task) :
  Loop.task_step self registered t a = Some (self', obs, t') ->
  _is_ready self' = _is_ready self || calls_set obs
  /\ (calls_set obs = true <-> t = TBackground (BgStatusExit None) /\ a = Returned)
  /\ gate_step (fir_holder t) (fir_holder t') (fir_lock self) (fir_lock self')
  /\ gate_step (fir3_holder t) (fir3_holder t') (fir3_lock self) (fir3_lock self')
  /\ (existsb is_work obs = true ->
      (exists pc, t = TBackground pc) \/ past_wait_task t = true \/ _is_ready self = true)
  /\ (past_wait_task t' = true -> past_wait_task t = true \/ _is_ready self = true)
  /\ (turned_away_task t = true -> turned_away_task t' = true /\ obs = [] /\ self' = self)
  /\ ((exists pc, t = TBackground pc) <-> (exists pc', t' = TBackground pc'))
  /\ (t' = TBackground (BgStatusExit None) -> In ObsIndexPublished obs).
Proof.
  intros Hstep. unfold Loop.task_step in Hstep.
  destruct t as [pc | pc | pc | pc]; cbn in Hstep.
  - destruct (Coroutines.reload_data_task self registered pc a)
      as [[[self1 obs1] pc1] |] eqn:Hco; [| discriminate Hstep].
    cbn in Hstep. injection Hstep as <- <- <-.
    apply reload_data_task_frame in Hco.
    destruct Hco as (Hfir & Hfir3 & Hready & Hset & Hexit).
    split; [exact Hready |]. split.
    { rewrite Hset. split; intros [Hpc Ha]; (split; [congruence | exact Ha]). }
    cbn. repeat split; try (now left); try discriminate; eauto.
    intros Heq. injection Heq as ->. now apply Hexit.
  - destruct (Coroutines.forceindexreload self pc a)
      as [[[self1 obs1] pc1] |] eqn:Hco; [| discriminate Hstep].
    cbn in Hstep. injection Hstep as <- <- <-.
    apply forceindexreload_frame in Hco.
    destruct Hco as (Hready & Hfir3 & Hset & Hgate & Hwork & Hpast & Haway & _).
    rewrite Hset, orb_false_r. cbn.
    repeat split; try assumption; try discriminate; try (now left);
      try (intros [_ Ha]; discriminate); try (intros [pc0 Hpc0]; discriminate Hpc0).
    + intros [Hpc _]. discriminate Hpc.
    + auto.
    + now apply Haway.
    + now apply Haway.
    + now apply Haway.
  - destruct (Coroutines.forceindexreload3 self pc a)
      as [[[self1 obs1] pc1] |] eqn:Hco; [| discriminate Hstep].
    cbn in Hstep. injection Hstep as <- <- <-.
    apply forceindexreload3_frame in Hco.
    destruct Hco as (Hready & Hfir & Hset & Hgate & Hwork & Hpast & Haway & _).
    rewrite Hset, orb_false_r. cbn.
    repeat split; try assumption; try discriminate; try (now left);
      try (intros [_ Ha]; discriminate); try (intros [pc0 Hpc0]; discriminate Hpc0).
    + intros [Hpc _]. discriminate Hpc.
    + intros Hw. right. now apply Hwork.
    + now apply Haway.
    + now apply Haway.
    + now apply Haway.
  - destruct (Coroutines.wait_until_ready self pc a)
      as [[[self1 obs1] pc1] |] eqn:Hco; [| discriminate Hstep].
    cbn in Hstep. injection Hstep as <- <- <-.
    apply wait_until_ready_frame in Hco. destruct Hco as [-> ->].
    cbn. rewrite orb_false_r.
    repeat split; try discriminate; try (now left);
      try (intros [Hpc _]; discriminate Hpc); try (intros [pc0 Hpc0]; discriminate Hpc0).
Qed.

Lemma calls_set_In (obs : list Obs) : calls_set obs = true <-> In ObsSetReady obs.
Proof.
  unfold calls_set. rewrite existsb_exists. split.
  - intros (o & Hin & Ho). now destruct o.
  - intros Hin. now exists ObsSetReady.
Qed.

(** The tasks after a resume hold, at every index, the old task woken or
    not, except at the resumed index. *)
Lemma resumed_tasks_lookup (l : list Task) (tid : nat) (t' : Task) (b : bool) (i : nat) :
  i <> tid ->
  (if b then wake <$> <[tid := t']> l else <[tid := t']> l) !! i
  = (if b then wake else id) <$> (l !! i).
Proof.
  intros Hi. destruct b.
  - rewrite list_lookup_fmap, list_lookup_insert_ne by congruence. reflexivity.
  - rewrite list_lookup_insert_ne by congruence. now destruct (l !! i).
Qed.

Lemma resumed_tasks_holders (held : Task -> bool) (l : list Task) (tid : nat)
    (t' : Task) (b : bool) :
  (forall t, held (wake t) = held t) ->
  holders held (if b then wake <$> <[tid := t']> l else <[tid := t']> l)
  = holders held (<[tid := t']> l).
Proof. intros Hwake. destruct b; [now apply holders_wake | reflexivity]. Qed.

Lemma exec_cons (w : World) (ev : Event) (evs : list Event) (w' : World)
    (tr : list (nat * Obs)) :
  Loop.exec w (ev :: evs) = Some (w', tr) ->
  exists w1 obs1 obs2,
    Loop.step w ev = Some (w1, obs1)
    /\ Loop.exec w1 evs = Some (w', obs2)
    /\ tr = obs1 ++ obs2.
Proof.
  intros Hexec. cbn [Loop.exec] in Hexec.
  destruct (Loop.step w ev) as [[w1 obs1] |]; [| discriminate Hexec].
  cbn in Hexec.
  destruct (Loop.exec w1 evs) as [[w2 obs2] |] eqn:Hrest; [| discriminate Hexec].
  cbn in Hexec. injection Hexec as <- <-.
  exists w1, obs1, obs2. repeat split; try reflexivity. exact Hrest.
Qed.

(** Running events keeps whatever every single event keeps. *)
Lemma exec_invariant (P : Event -> Prop) (Inv : World -> list (nat * Obs) -> Prop) :
  (forall w tr ev w' obs,
      P ev -> Inv w tr -> Loop.step w ev = Some (w', obs) -> Inv w' (tr ++ obs)) ->
  forall evs w tr w' obs,
    Forall P evs -> Inv w tr -> Loop.exec w evs = Some (w', obs) -> Inv w' (tr ++ obs).
Proof.
  intros Hstep. induction evs as [|ev evs IH]; intros w tr w' obs Hevs Hinv Hexec.
  - injection Hexec as <- <-. now rewrite app_nil_r.
  - cbn in Hexec.
    destruct (Loop.step w ev) as [[w1 obs1] |] eqn:Hev; [| discriminate Hexec].
    cbn in Hexec.
    destruct (Loop.exec w1 evs) as [[w2 obs2] |] eqn:Hrest; [| discriminate Hexec].
    cbn in Hexec. injection Hexec as <- <-.
    inversion Hevs as [| ? ? Hhead Htail]; subst.
    rewrite app_assoc. eapply IH; [exact Htail | | exact Hrest].
    eapply Hstep; eauto.
Qed.

(** The locks stay consistent with the tasks that hold them. *)
Lemma step_keeps_gates (w : World) (ev : Event) (w' : World) (obs : list (nat * Obs)) :
  Loop.step w ev = Some (w', obs) -> gates_consistent w -> gates_consistent w'.
Proof.
  intros Hstep [Hfir Hfir3]. unfold gates_consistent.
  destruct ev as [tid a | | | | |].
  - apply step_resume in Hstep.
    destruct Hstep as (t & self' & tobs & t' & Ht & Htask & Hcog & _ & _ & Htasks).
    apply task_step_frame in Htask.
    destruct Htask as (_ & _ & Hgate & Hgate3 & _).
    rewrite Htasks, Hcog.
    rewrite !resumed_tasks_holders by (apply fir_holder_wake || apply fir3_holder_wake).
    pose proof (holders_insert fir_holder (tasks w) tid t t' Ht) as Hcount.
    pose proof (holders_insert fir3_holder (tasks w) tid t t' Ht) as Hcount3.
    pose proof (holders_lookup fir_holder (tasks w) tid t Ht) as Hpos.
    pose proof (holders_lookup fir3_holder (tasks w) tid t Ht) as Hpos3.
    unfold gate_step in Hgate, Hgate3.
    split.
    + destruct (fir_holder t), (fir_holder t'), (fir_lock (cog w)), (fir_lock self');
        try specialize (Hpos eq_refl); intuition (try discriminate; lia).
    + destruct (fir3_holder t), (fir3_holder t'), (fir3_lock (cog w)), (fir3_lock self');
        try specialize (Hpos3 eq_refl); intuition (try discriminate; lia).
  - cbn in Hstep. injection Hstep as <- <-. cbn [tasks cog].
    rewrite !holders_app. cbn. split; lia.
  - cbn in Hstep. injection Hstep as <- <-. cbn [tasks cog].
    rewrite !holders_app. cbn. split; lia.
  - cbn in Hstep. injection Hstep as <- <-. cbn [tasks cog].
    rewrite !holders_app. cbn. split; lia.
  - cbn in Hstep. injection Hstep as <- <-. cbn. split; assumption.
  - cbn in Hstep. injection Hstep as <- <-. cbn. split; assumption.
Qed.

(** How an event moves the readiness flag. *)
Lemma step_ready (w : World) (ev : Event) (w' : World) (obs : list (nat * Obs)) :
  Loop.step w ev = Some (w', obs) ->
  (is_unload ev = false -> _is_ready (cog w) = true -> _is_ready (cog w') = true)
  /\ (_is_ready (cog w) = false -> _is_ready (cog w') = true ->
      exists tid,
        ev = Resume tid Returned
        /\ tasks w !! tid = Some (TBackground (BgStatusExit None))
        /\ In (tid, ObsSetReady) obs
        /\ forall i, tasks w !! i = Some (TWaiter WaitSuspended) ->
                     tasks w' !! i = Some (TWaiter WaitWoken)).
Proof.
  intros Hstep. destruct ev as [tid a | | | | |].
  - apply step_resume in Hstep.
    destruct Hstep as (t & self' & tobs & t' & Ht & Htask & Hcog & _ & Hobs & Htasks).
    apply task_step_frame in Htask.
    destruct Htask as (Hready & Hset & _).
    rewrite Hcog, Hready. split.
    + intros _ ->. reflexivity.
    + intros Hunset Hnow. rewrite Hunset in Hnow. cbn in Hnow.
      destruct (proj1 Hset Hnow) as [-> ->].
      exists tid. repeat split; try assumption.
      * rewrite Hobs. apply in_map. now apply calls_set_In.
      * intros i Hi. rewrite Htasks, resumed_tasks_lookup by congruence.
        rewrite Hi, Hnow, Hunset. reflexivity.
  - cbn in Hstep. injection Hstep as <- <-. cbn. split; [auto | congruence].
  - cbn in Hstep. injection Hstep as <- <-. cbn. split; [auto | congruence].
  - cbn in Hstep. injection Hstep as <- <-. cbn. split; [auto | congruence].
  - cbn in Hstep. injection Hstep as <- <-. cbn. split; [discriminate | discriminate].
  - cbn in Hstep. injection Hstep as <- <-. cbn. split; [auto | congruence].
Qed.

(** Without an unload in between, a cog that is ready stays ready. *)
Lemma exec_keeps_ready (evs : list Event) (w w' : World) (tr : list (nat * Obs)) :
  Loop.exec w evs = Some (w', tr) ->
  Forall (fun ev => is_unload ev = false) evs ->
  _is_ready (cog w) = true ->
  _is_ready (cog w') = true.
Proof.
  intros Hexec Hevs Hready.
  apply (exec_invariant (fun ev => is_unload ev = false)
           (fun w _ => _is_ready (cog w) = true)
           (fun w0 tr0 ev w1 obs Hev Hr Hstep => proj1 (step_ready w0 ev w1 obs Hstep) Hev Hr)
           evs w [] w' tr Hevs Hready Hexec).
Qed.

(** C1, as the code has it. The flag turns from unset to set only in the
    step in which the background task leaves a refresh that succeeded, a
    step that is always possible and that also wakes every caller
    suspended in [wait_until_ready]; no event other than [cog_unload]
    unsets it, so that a refresh that fails later leaves it set, over any
    run without an unload; [cog_unload] does unset it. A caller of
    [wait_until_ready] returns at once when the flag is set, and otherwise
    is suspended and cannot be resumed until it has been woken. *)
Theorem readiness_set_by_refresh_unset_by_unload :
  (forall w ev w' obs,
      Loop.step w ev = Some (w', obs) ->
      _is_ready (cog w) = false -> _is_ready (cog w') = true ->
      exists tid,
        ev = Resume tid Returned
        /\ tasks w !! tid = Some (TBackground (BgStatusExit None))
        /\ In (tid, ObsSetReady) obs
        /\ forall i, tasks w !! i = Some (TWaiter WaitSuspended) ->
                     tasks w' !! i = Some (TWaiter WaitWoken))
  /\ (forall w tid,
        tasks w !! tid = Some (TBackground (BgStatusExit None)) ->
        exists w' obs,
          Loop.step w (Resume tid Returned) = Some (w', obs)
          /\ _is_ready (cog w') = true)
  /\ (forall w ev w' obs,
        Loop.step w ev = Some (w', obs) ->
        is_unload ev = false ->
        _is_ready (cog w) = true -> _is_ready (cog w') = true)
  /\ (forall evs w w' tr,
        Loop.exec w evs = Some (w', tr) ->
        Forall (fun ev => is_unload ev = false) evs ->
        _is_ready (cog w) = true -> _is_ready (cog w') = true)
  /\ (forall w, exists w',
        Loop.step w Unload = Some (w', []) /\ _is_ready (cog w') = false)
  /\ (forall self a,
        Coroutines.wait_until_ready self WaitEntry a
        = Some (self, [], if _is_ready self then WaitReturned else WaitSuspended))
  /\ (forall self a, Coroutines.wait_until_ready self WaitSuspended a = None)
  /\ (forall self,
        Coroutines.wait_until_ready self WaitWoken Returned = Some (self, [], WaitReturned)).
Proof.
  split; [| split; [| split; [| split; [| split; [| split; [| split]]]]]].
  - intros w ev w' obs Hstep. apply (step_ready w ev w' obs Hstep).
  - intros w tid Ht. unfold Loop.step. rewrite Ht. cbn. eauto.
  - intros w ev w' obs Hstep. apply (step_ready w ev w' obs Hstep).
  - intros evs w w' tr. apply exec_keeps_ready.
  - intros w. eexists. split; reflexivity.
  - intros self a. cbn. now destruct (_is_ready self).
  - reflexivity.
  - reflexivity.
Qed.

Lemma wake_turned_away (t : Task) : turned_away_task t = true -> wake t = t.
Proof. destruct t as [pc | pc | pc | pc]; try discriminate; now destruct pc. Qed.

(** A command that was turned away stays so, says nothing more and
    changes nothing. *)
Lemma step_keeps_turned_away (w : World) (ev : Event) (w' : World)
    (obs : list (nat * Obs)) (tid : nat) (t : Task) :
  Loop.step w ev = Some (w', obs) ->
  tasks w !! tid = Some t ->
  turned_away_task t = true ->
  (exists t', tasks w' !! tid = Some t' /\ turned_away_task t' = true)
  /\ (forall o, ~ In (tid, o) obs)
  /\ (forall a, ev = Resume tid a -> cog w' = cog w).
Proof.
  intros Hstep Ht Haway. destruct ev as [tid0 a | | | | |].
  - apply step_resume in Hstep.
    destruct Hstep as (t0 & self' & tobs & t' & Ht0 & Htask & Hcog & _ & Hobs & Htasks).
    apply task_step_frame in Htask.
    destruct Htask as (_ & _ & _ & _ & _ & _ & Hkeep & _).
    destruct (decide (tid0 = tid)) as [-> | Hne].
    + rewrite Ht in Ht0. injection Ht0 as <-.
      destruct (Hkeep Haway) as (Haway' & -> & ->).
      split; [| split].
      * exists t'. split; [| exact Haway']. rewrite Htasks. cbn.
        apply list_lookup_insert_eq. now apply lookup_lt_Some in Ht.
      * rewrite Hobs. intros o [].
      * intros _ _. exact Hcog.
    + split; [| split].
      * exists t. split; [| exact Haway].
        rewrite Htasks, resumed_tasks_lookup by congruence. rewrite Ht.
        destruct (calls_set tobs && negb (_is_ready (cog w))); cbn;
          [now rewrite wake_turned_away | reflexivity].
      * rewrite Hobs. intros o Hin. apply in_map_iff in Hin.
        destruct Hin as (o' & Heq & _). congruence.
      * intros a0 Heq. congruence.
  - cbn in Hstep. injection Hstep as <- <-. cbn [tasks cog]. split; [| split].
    + exists t. split; [now apply lookup_app_l_Some | exact Haway].
    + intros o [].
    + discriminate.
  - cbn in Hstep. injection Hstep as <- <-. cbn [tasks cog]. split; [| split].
    + exists t. split; [now apply lookup_app_l_Some | exact Haway].
    + intros o [].
    + discriminate.
  - cbn in Hstep. injection Hstep as <- <-. cbn [tasks cog]. split; [| split].
    + exists t. split; [now apply lookup_app_l_Some | exact Haway].
    + intros o [].
    + discriminate.
  - cbn in Hstep. injection Hstep as <- <-. cbn [tasks cog]. split; [| split].
    + now exists t.
    + intros o [].
    + discriminate.
  - cbn in Hstep. injection Hstep as <- <-. cbn [tasks cog]. split; [| split].
    + now exists t.
    + intros o [].
    + discriminate.
Qed.

Lemma exec_keeps_turned_away (evs : list Event) (w w' : World) (tr : list (nat * Obs))
    (tid : nat) (t : Task) :
  Loop.exec w evs = Some (w', tr) ->
  tasks w !! tid = Some t ->
  turned_away_task t = true ->
  (exists t', tasks w' !! tid = Some t' /\ turned_away_task t' = true)
  /\ (forall o, ~ In (tid, o) tr).
Proof.
  intros Hexec Ht Haway.
  apply (exec_invariant (fun _ => True)
           (fun w tr => (exists t', tasks w !! tid = Some t' /\ turned_away_task t' = true)
                        /\ (forall o, ~ In (tid, o) tr)))
    with (evs := evs) (w := w) (tr := []) (w' := w') (obs := tr).
  - intros w0 tr0 ev w1 obs _ [(t0 & Ht0 & Haway0) Hquiet] Hstep.
    destruct (step_keeps_turned_away w0 ev w1 obs tid t0 Hstep Ht0 Haway0)
      as (Hkeep & Hobs & _).
    split; [exact Hkeep |]. intros o Hin. apply in_app_or in Hin.
    destruct Hin as [Hin | Hin]; [now apply Hquiet in Hin | now apply Hobs in Hin].
  - now apply Forall_forall.
  - split; [now exists t | intros o []].
  - exact Hexec.
Qed.

(** C2. A reload command that finds its lock taken answers that the index
    is already being reloaded and changes nothing; from then on, over any
    run, the task is finished or about to finish: it never waits for the
    lock, never performs reload work and says nothing else. Each command
    tests its own lock only: with its lock free it goes on and takes it,
    whether or not the other lock is taken, and leaves the other lock as
    it is. *)
Theorem held_gate_turns_reload_away :
  (forall self a,
      fir_lock self = true ->
      Coroutines.forceindexreload self CmdEntry a
      = Some (self, [ObsSend AlreadyReloading], CmdBusyReply))
  /\ (forall self a,
        fir3_lock self = true ->
        Coroutines.forceindexreload3 self CmdEntry a
        = Some (self, [ObsSend AlreadyReloading], CmdBusyReply))
  /\ (forall w tid a evs w' tr t,
        tasks w !! tid = Some t ->
        (t = TFir CmdEntry /\ fir_lock (cog w) = true)
        \/ (t = TFir3 CmdEntry /\ fir3_lock (cog w) = true) ->
        Loop.exec w (Resume tid a :: evs) = Some (w', tr) ->
        (exists t', tasks w' !! tid = Some t' /\ turned_away_task t' = true)
        /\ In (tid, ObsSend AlreadyReloading) tr
        /\ (forall o, In (tid, o) tr -> o = ObsSend AlreadyReloading))
  /\ (forall self a,
        fir_lock self = false ->
        Coroutines.forceindexreload self CmdEntry a = Some (self, [], CmdTyping)
        /\ Coroutines.forceindexreload self CmdTyping Returned
           = Some (set_fir_lock true self, [ObsSend StartingReload], CmdStartReply)
        /\ fir3_lock (set_fir_lock true self) = fir3_lock self)
  /\ (forall self a,
        fir3_lock self = false ->
        Coroutines.forceindexreload3 self CmdEntry a = Some (self, [], CmdTyping)
        /\ exists self' obs pc',
             Coroutines.forceindexreload3 self CmdTyping Returned = Some (self', obs, pc')
             /\ pc' <> CmdAcquire
             /\ (holds_gate pc' = true -> fir3_lock self' = true)
             /\ fir_lock self' = fir_lock self).
Proof.
  split; [| split; [| split; [| split]]].
  - intros self a Hlock. cbn. now rewrite Hlock.
  - intros self a Hlock. cbn. now rewrite Hlock.
  - intros w tid a evs w2 tr t Ht Hheld Hexec.
    apply exec_cons in Hexec.
    destruct Hexec as (w1 & obs1 & obs2 & Hfirst & Hrest & ->).
    assert (Hnow : tasks w1 !! tid = Some (match t with
                                           | TFir3 _ => TFir3 CmdBusyReply
                                           | _ => TFir CmdBusyReply
                                           end)
                   /\ obs1 = [(tid, ObsSend AlreadyReloading)]).
    { unfold Loop.step in Hfirst. rewrite Ht in Hfirst.
      pose proof (lookup_lt_Some _ _ _ Ht) as Hlt.
      destruct Hheld as [[-> Hlock] | [-> Hlock]]; cbn in Hfirst;
        rewrite Hlock in Hfirst; cbn in Hfirst; injection Hfirst as <- <-;
        cbn [tasks]; (split; [now apply list_lookup_insert_eq | reflexivity]). }
    destruct Hnow as [Hnow ->].
    destruct (exec_keeps_turned_away evs w1 w2 obs2 tid _ Hrest Hnow) as [Hkeep Hquiet].
    { destruct Hheld as [[-> _] | [-> _]]; reflexivity. }
    split; [exact Hkeep |]. split; [now left |].
    intros o [Heq | Hin]; [congruence | now apply Hquiet in Hin].
  - intros self a Hlock. cbn. unfold Coroutines.forceindexreload_acquire.
    rewrite Hlock. repeat split.
  - intros self a Hlock. cbn. rewrite Hlock. split; [reflexivity |].
    unfold Coroutines.forceindexreload3_acquire, Coroutines.forceindexreload3_work,
      Coroutines.create_index.
    rewrite Hlock. cbn [_is_ready set_fir3_lock].
    destruct (_is_ready self).
    + destruct (create_index_loop_cases (set_fir3_lock true self) SERVERS)
        as [(_ & _ & Hloop) | [(server & rest & _ & Hloop) | (_ & Hloop)]];
        rewrite Hloop; eexists; eexists; eexists; (split; [reflexivity |]);
        repeat split; try discriminate; reflexivity.
    + eexists; eexists; eexists; (split; [reflexivity |]);
        repeat split; try discriminate; reflexivity.
Qed.

Lemma app_split_elem {A} (tr obs tr1 tr2 : list A) (x : A) :
  tr ++ obs = tr1 ++ x :: tr2 ->
  (exists rest, tr = tr1 ++ x :: rest) \/ (exists pre, tr1 = tr ++ pre /\ In x obs).
Proof.
  revert tr1. induction tr as [|a tr IH]; intros tr1 Heq.
  - right. exists tr1. split; [reflexivity |]. cbn in Heq. rewrite Heq.
    apply in_elt.
  - destruct tr1 as [|b tr1]; cbn in Heq; injection Heq as -> Heq.
    + left. now exists tr.
    + destruct (IH tr1 Heq) as [(rest & ->) | (pre & -> & Hin)].
      * left. now exists rest.
      * right. exists pre. split; [reflexivity | exact Hin].
Qed.

Lemma wake_background (t : Task) (pc : BgPc) :
  wake t = TBackground pc <-> t = TBackground pc.
Proof.
  split; [| now intros ->].
  destruct t as [pc0 | pc0 | pc0 | pc0]; cbn; try (intros Heq; exact Heq);
    destruct pc0; discriminate.
Qed.

Lemma wake_past_wait (t : Task) :
  past_wait_task (wake t) = true ->
  past_wait_task t = true \/ wake t <> t.
Proof.
  destruct t as [pc | pc | pc | pc]; cbn; try discriminate;
    destruct pc; cbn; try discriminate; try (now left); intros _; right; discriminate.
Qed.

Lemma lookup_snoc (l : list Task) (x y : Task) (i : nat) :
  (l ++ [x]) !! i = Some y -> l !! i = Some y \/ y = x.
Proof.
  intros Hi. apply lookup_app_Some in Hi.
  destruct Hi as [Hi | [_ Hi]]; [now left | right].
  destruct (i - length l)%nat; [now injection Hi | discriminate Hi].
Qed.

(** A new task that is neither the background task nor past a wait. *)
Lemma history_spawn (w : World) (tr : list (nat * Obs)) (x : Task) :
  refresh_history w tr ->
  (forall pc, x <> TBackground pc) ->
  past_wait_task x = false ->
  refresh_history {| cog := cog w; registered := registered w; tasks := tasks w ++ [x] |} tr.
Proof.
  intros (Hzero & Honly & Hready & Hpast & Hpub & Hexit & Horder) Hx Hnew.
  unfold refresh_history. cbn [tasks cog].
  split; [| split; [| split; [| split; [| split; [| split]]]]]; try assumption.
  - destruct Hzero as [pc Hpc]. exists pc. now apply lookup_app_l_Some.
  - intros tid pc Htid. apply lookup_snoc in Htid.
    destruct Htid as [Htid | Heq]; [now apply (Honly tid pc) |].
    symmetry in Heq. now apply Hx in Heq.
  - intros tid t Htid Ht. apply lookup_snoc in Htid.
    destruct Htid as [Htid | ->]; [now apply (Hpast tid t) | congruence].
  - intros Htid. apply lookup_snoc in Htid.
    destruct Htid as [Htid | Heq]; [now apply Hexit |].
    symmetry in Heq. now apply Hx in Heq.
Qed.

(** A change of the cog that does not set the event. *)
Lemma history_cog (w : World) (tr : list (nat * Obs)) (c : DBCog) (r : bool) :
  refresh_history w tr ->
  (_is_ready c = true -> _is_ready (cog w) = true) ->
  refresh_history {| cog := c; registered := r; tasks := tasks w |} tr.
Proof.
  intros (Hzero & Honly & Hready & Hrest) Hc.
  unfold refresh_history. cbn [tasks cog].
  split; [exact Hzero |]. split; [exact Honly |]. split; [| exact Hrest].
  intros Hnow. apply Hready, Hc, Hnow.
Qed.

(** The history stays true over every event. *)
Lemma step_keeps_history (w : World) (tr : list (nat * Obs)) (ev : Event) (w' : World)
    (obs : list (nat * Obs)) :
  refresh_history w tr ->
  Loop.step w ev = Some (w', obs) ->
  refresh_history w' (tr ++ obs).
Proof.
  intros Hinv Hstep.
  pose proof Hinv as (Hzero & Honly & Hready & Hpast & Hpub & Hexit & Horder).
  destruct ev as [tid a | | | | |].
  - apply step_resume in Hstep.
    destruct Hstep as (t & self' & tobs & t' & Ht & Htask & Hcog & _ & Hobs & Htasks).
    apply task_step_frame in Htask.
    destruct Htask as (Hr & Hset & _ & _ & Hwork & Hpast' & _ & Hbg & Hexit').
    pose proof (lookup_lt_Some _ _ _ Ht) as Hlt.
    set (b := calls_set tobs && negb (_is_ready (cog w))) in *.
    assert (Hsetobs : calls_set tobs = true -> In (0%nat, ObsSetReady) (tr ++ obs)).
    { intros Hcalls. destruct (proj1 Hset Hcalls) as [-> _].
      rewrite (Honly tid _ Ht) in *. apply in_or_app. right. rewrite Hobs.
      apply in_map. now apply calls_set_In. }
    assert (Hsame : forall i x, tasks w' !! i = Some x ->
               exists x0, x = (if b then wake x0 else x0)
                          /\ ((i = tid /\ x0 = t') \/ (i <> tid /\ tasks w !! i = Some x0))).
    { intros i x Hi. rewrite Htasks in Hi. destruct (decide (i = tid)) as [-> | Hne].
      - exists t'. split; [| now left].
        destruct b; [rewrite list_lookup_fmap, list_lookup_insert_eq in Hi by exact Hlt
                    | rewrite list_lookup_insert_eq in Hi by exact Hlt];
          cbn in Hi; congruence.
      - rewrite resumed_tasks_lookup in Hi by exact Hne.
        destruct (tasks w !! i) as [x0|]; [| discriminate Hi].
        exists x0. split; [destruct b; cbn in Hi; congruence | now right]. }
    assert (Hbgsame : forall i pc, tasks w' !! i = Some (TBackground pc) ->
               (i = tid /\ t' = TBackground pc)
               \/ (i <> tid /\ tasks w !! i = Some (TBackground pc))).
    { intros i pc Hi. destruct (Hsame i _ Hi) as (x0 & Hx & Hwhere).
      assert (x0 = TBackground pc) as ->.
      { destruct b; [now apply wake_background | congruence]. }
      destruct Hwhere as [[Hi1 Hi2] | Hold]; [left; split; congruence | now right]. }
    split; [| split; [| split; [| split; [| split; [| split]]]]].
    + destruct Hzero as [pc0 Hpc0]. destruct (decide (tid = 0%nat)) as [-> | Hne].
      * rewrite Ht in Hpc0. injection Hpc0 as ->.
        destruct (proj1 Hbg (ex_intro _ pc0 eq_refl)) as [pc1 ->].
        exists pc1. rewrite Htasks.
        destruct b; [rewrite list_lookup_fmap |]; now rewrite list_lookup_insert_eq.
      * exists pc0. rewrite Htasks, resumed_tasks_lookup by congruence.
        rewrite Hpc0. now destruct b.
    + intros i pc Hi. destruct (Hbgsame i pc Hi) as [[-> Heq] | [_ Hold]].
      * destruct (proj2 Hbg (ex_intro _ pc Heq)) as [pc0 ->]. now apply (Honly tid pc0).
      * now apply (Honly i pc).
    + rewrite Hcog, Hr. intros Hnow. apply orb_true_iff in Hnow.
      destruct Hnow as [Hold | Hcalls]; [| now apply Hsetobs].
      apply in_or_app. left. now apply Hready.
    + intros i x Hi Hx. destruct (Hsame i x Hi) as (x0 & -> & Hwhere).
      assert (Hx0 : past_wait_task x0 = true \/ calls_set tobs = true).
      { destruct b eqn:Hb; [| now left].
        apply wake_past_wait in Hx. destruct Hx as [Hx | _]; [now left |].
        right. unfold b in Hb. now apply andb_true_iff in Hb. }
      destruct Hx0 as [Hx0 | Hcalls]; [| now apply Hsetobs].
      apply in_or_app. left.
      destruct Hwhere as [[-> ->] | [_ Hold]]; [| now apply (Hpast i x0)].
      destruct (Hpast' Hx0) as [Hbefore | Hnow];
        [now apply (Hpast tid t) | now apply Hready].
    + intros Hin. apply in_app_or in Hin. destruct Hin as [Hin | Hin].
      * apply in_or_app. left. now apply Hpub.
      * apply in_or_app. left. rewrite Hobs in Hin. apply in_map_iff in Hin.
        destruct Hin as (o & Heq & Hin). injection Heq as Htid ->.
        apply calls_set_In in Hin. destruct (proj1 Hset Hin) as [Hexiting _].
        apply Hexit. congruence.
    + intros Hi. destruct (Hbgsame _ _ Hi) as [[<- Heq] | [_ Hold]].
      * apply in_or_app. right. rewrite Hobs. apply in_map. now apply Hexit'.
      * apply in_or_app. left. now apply Hexit.
    + intros tr1 tid0 o tr2 Heq Hne Ho.
      destruct (app_split_elem _ _ _ _ _ Heq) as [(rest & ->) | (pre & -> & Hin)].
      * now apply (Horder tr1 tid0 o rest).
      * rewrite Hobs in Hin. apply in_map_iff in Hin.
        destruct Hin as (o' & Hpair & Hin). injection Hpair as <- <-.
        assert (Hw : existsb is_work tobs = true).
        { apply existsb_exists. now exists o'. }
        assert (Hbefore : In (0%nat, ObsSetReady) tr).
        { destruct (Hwork Hw) as [[pc ->] | [Hbefore | Hnow]].
          - now rewrite (Honly tid pc Ht) in Hne.
          - now apply (Hpast tid t).
          - now apply Hready. }
        split; apply in_or_app; left; [exact Hbefore | now apply Hpub].
  - cbn in Hstep. injection Hstep as <- <-. rewrite app_nil_r.
    apply history_spawn; [exact Hinv | discriminate | reflexivity].
  - cbn in Hstep. injection Hstep as <- <-. rewrite app_nil_r.
    apply history_spawn; [exact Hinv | discriminate | reflexivity].
  - cbn in Hstep. injection Hstep as <- <-. rewrite app_nil_r.
    apply history_spawn; [exact Hinv | discriminate | reflexivity].
  - cbn in Hstep. injection Hstep as <- <-. rewrite app_nil_r.
    apply history_cog; [exact Hinv | discriminate].
  - cbn in Hstep. injection Hstep as <- <-. rewrite app_nil_r.
    apply history_cog; [exact Hinv | auto].
Qed.

(** The history of every run from the boot. *)
Lemma boot_history (evs : list Event) (w : World) (tr : list (nat * Obs)) :
  Loop.exec Loop.boot evs = Some (w, tr) -> refresh_history w tr.
Proof.
  intros Hexec.
  apply (exec_invariant (fun _ => True) refresh_history)
    with (evs := evs) (w := Loop.boot) (tr := []) (w' := w) (obs := tr).
  - intros w0 tr0 ev w1 obs _. apply step_keeps_history.
  - now apply Forall_forall.
  - unfold refresh_history. cbn. split; [eauto |].
    split; [| repeat split; try discriminate; try contradiction].
    + intros [|tid] pc Htid; [reflexivity | discriminate Htid].
    + intros [|tid] t Htid Hpast; [injection Htid as <-; discriminate Hpast
                                  | discriminate Htid].
    + destruct tr1; discriminate.
    + destruct tr1; discriminate.
  - exact Hexec.
Qed.

Lemma boot_gates (evs : list Event) (w : World) (tr : list (nat * Obs)) :
  Loop.exec Loop.boot evs = Some (w, tr) -> gates_consistent w.
Proof.
  intros Hexec.
  apply (exec_invariant (fun _ => True) (fun w _ => gates_consistent w))
    with (evs := evs) (w := Loop.boot) (tr := []) (w' := w) (obs := tr).
  - intros w0 tr0 ev w1 obs _ Hgates Hstep. eapply step_keeps_gates; eauto.
  - now apply Forall_forall.
  - split; reflexivity.
  - exact Hexec.
Qed.

(** C10. Each reload command takes its lock first and then waits for the
    event: [forceindexreload] goes from its start message to the refresh
    when the event is set and is suspended otherwise, and
    [forceindexreload3] is suspended right after taking the lock; a
    suspended command cannot be resumed; neither command loads a database
    or publishes an index in a step that starts before its wait is over.
    Over every run from the boot: a command inside its [async with] block,
    suspended ones included, has its lock locked; a command is past its
    wait only after the background task (task 0, the only background task)
    has set the event; and whenever a task other than task 0 loads a
    database or publishes an index, task 0 has before that published an
    index and set the event. *)
Theorem forced_reload_waits_for_first_refresh :
  (forall self,
      Coroutines.forceindexreload self CmdStartReply Returned
      = Some (self, [], if _is_ready self then CmdWork RFetch else CmdWaitReady))
  /\ (forall self,
        fir3_lock self = false -> _is_ready self = false ->
        Coroutines.forceindexreload3 self CmdTyping Returned
        = Some (set_fir3_lock true self, [], CmdWaitReady))
  /\ (forall self a,
        Coroutines.forceindexreload self CmdWaitReady a = None
        /\ Coroutines.forceindexreload3 self CmdWaitReady a = None)
  /\ (forall self pc a self' obs pc',
        Coroutines.forceindexreload self pc a = Some (self', obs, pc')
        \/ Coroutines.forceindexreload3 self pc a = Some (self', obs, pc') ->
        existsb is_work obs = true ->
        past_wait pc = true \/ _is_ready self = true)
  /\ (forall evs w tr,
        Loop.exec Loop.boot evs = Some (w, tr) ->
        (exists pc, tasks w !! 0%nat = Some (TBackground pc))
        /\ (forall tid pc, tasks w !! tid = Some (TBackground pc) -> tid = 0%nat)
        /\ (forall tid pc,
              tasks w !! tid = Some (TFir pc) -> holds_gate pc = true ->
              fir_lock (cog w) = true)
        /\ (forall tid pc,
              tasks w !! tid = Some (TFir3 pc) -> holds_gate pc = true ->
              fir3_lock (cog w) = true)
        /\ (forall tid t,
              tasks w !! tid = Some t -> past_wait_task t = true ->
              In (0%nat, ObsSetReady) tr)
        /\ (forall tr1 tid o tr2,
              tr = tr1 ++ (tid, o) :: tr2 -> tid <> 0%nat -> is_work o = true ->
              In (0%nat, ObsSetReady) tr1 /\ In (0%nat, ObsIndexPublished) tr1)).
Proof.
  split; [| split; [| split; [| split]]].
  - intros self. cbn. now destruct (_is_ready self).
  - intros self Hlock Hready. cbn. unfold Coroutines.forceindexreload3_acquire.
    rewrite Hlock. cbn [_is_ready set_fir3_lock]. now rewrite Hready.
  - intros self a. split; reflexivity.
  - intros self pc a self' obs pc' [Hstep | Hstep] Hwork.
    + apply forceindexreload_frame in Hstep.
      destruct Hstep as (_ & _ & _ & _ & Hw & _). left. now apply Hw.
    + apply forceindexreload3_frame in Hstep.
      destruct Hstep as (_ & _ & _ & _ & Hw & _). now apply Hw.
  - intros evs w tr Hexec.
    pose proof (boot_history evs w tr Hexec)
      as (Hzero & Honly & _ & Hpast & _ & _ & Horder).
    pose proof (boot_gates evs w tr Hexec) as [Hfir Hfir3].
    repeat split; try assumption.
    + intros tid pc Htid Hheld.
      pose proof (holders_lookup fir_holder (tasks w) tid (TFir pc) Htid Hheld) as Hpos.
      rewrite Hfir in Hpos. destruct (fir_lock (cog w)); [reflexivity | lia].
    + intros tid pc Htid Hheld.
      pose proof (holders_lookup fir3_holder (tasks w) tid (TFir3 pc) Htid Hheld) as Hpos.
      rewrite Hfir3 in Hpos. destruct (fir3_lock (cog w)); [reflexivity | lia].
    + now apply (Horder tr1 tid o tr2).
    + now apply (Horder tr1 tid o tr2).
Qed.

End EventLoop.

(** A refresh fails after the first one succeeded: the loop goes for the
    short wait and the cog is still ready. *)
Lemma readiness_set_by_refresh_unset_by_unload_witness :
  match @Loop.exec Sample.enum_types (@Loop.boot Sample.enum_types) Sample.first_refresh with
  | Some (w, _) =>
      _is_ready (cog w) = true
      /\ match @Loop.exec Sample.enum_types w Sample.failed_refresh with
         | Some (w', tr) => In (0%nat, ObsSleep 60) tr /\ _is_ready (cog w') = true
         | None => False
         end
  | None => False
  end.
Proof.
  destruct (@Loop.exec Sample.enum_types (@Loop.boot Sample.enum_types) Sample.first_refresh)
    as [[w tr] |] eqn:Hfirst; [| vm_compute in Hfirst; discriminate Hfirst].
  assert (Hready : _is_ready (cog w) = true).
  { vm_compute in Hfirst. injection Hfirst as <- _. reflexivity. }
  split; [exact Hready |].
  destruct (@Loop.exec Sample.enum_types w Sample.failed_refresh)
    as [[w' tr'] |] eqn:Hnext.
  - split.
    + vm_compute in Hfirst. injection Hfirst as <- _.
      vm_compute in Hnext. injection Hnext as _ <-. cbn. tauto.
    + destruct (@readiness_set_by_refresh_unset_by_unload Sample.enum_types)
        as (_ & _ & _ & Hkeep & _).
      apply (Hkeep Sample.failed_refresh w w' tr' Hnext); [| exact Hready].
      repeat constructor.
  - vm_compute in Hfirst. injection Hfirst as <- _.
    vm_compute in Hnext. discriminate Hnext.
Defined.

(** C1 as stated fails: the first refresh succeeds, the flag is set, the
    cog is unloaded, and the flag is no longer set. *)
Lemma readiness_cleared_by_unload :
  ~ (forall (E : EnumTypes) (evs : list Event) (w : World) (tr : list (nat * Obs)),
        Loop.exec Loop.boot evs = Some (w, tr) ->
        In (0%nat, ObsSetReady) tr ->
        _is_ready (cog w) = true).
Proof.
  intros Hclaim.
  destruct (@Loop.exec Sample.enum_types (@Loop.boot Sample.enum_types)
              (Sample.first_refresh ++ [Unload])) as [[w tr] |] eqn:Hrun;
    [| vm_compute in Hrun; discriminate Hrun].
  pose proof (Hclaim Sample.enum_types _ w tr Hrun) as Hready.
  vm_compute in Hrun. injection Hrun as <- <-.
  cbn in Hready. discriminate Hready. cbn. tauto.
Qed.

Lemma refresh_failure_caught_then_short_wait_witness :
  @Coroutines.reload_data_task Sample.enum_types (@DBCog.__init__ Sample.enum_types) true
    (BgRefresh RFetch) (Raised Sample.OSError)
  = Some (@DBCog.__init__ Sample.enum_types, [], BgStatusExit (Some Sample.OSError))
  /\ @Coroutines.reload_data_task Sample.enum_types (@DBCog.__init__ Sample.enum_types) true
       (BgStatusExit (Some Sample.OSError)) Returned
     = Some (@DBCog.__init__ Sample.enum_types,
             [ObsLogException "dbcog data download/refresh failed: %s" Sample.OSError;
              ObsSleep 60],
             BgSleep 60).
Proof.
  destruct (@refresh_failure_caught_then_short_wait Sample.enum_types
              (@DBCog.__init__ Sample.enum_types) true Sample.OSError eq_refl)
    as (Hraise & Hcatch & _).
  split; [apply Hraise | exact Hcatch].
Defined.

(** A second [forceindexreload] while the first holds the lock. *)
Lemma held_gate_turns_reload_away_witness :
  match @Loop.exec Sample.enum_types (@Loop.boot Sample.enum_types)
          (Sample.early_reload ++ [Invoke_forceindexreload]) with
  | Some (w, _) =>
      tasks w !! 2%nat = Some (TFir CmdEntry)
      /\ fir_lock (cog w) = true
      /\ match @Loop.exec Sample.enum_types w [Resume 2 Returned; Resume 2 Returned] with
         | Some (w', tr) =>
             In (2%nat, ObsSend AlreadyReloading) tr
             /\ exists t', tasks w' !! 2%nat = Some t' /\ turned_away_task t' = true
         | None => False
         end
  | None => False
  end.
Proof.
  destruct (@Loop.exec Sample.enum_types (@Loop.boot Sample.enum_types)
              (Sample.early_reload ++ [Invoke_forceindexreload]))
    as [[w tr] |] eqn:Hrun; [| vm_compute in Hrun; discriminate Hrun].
  assert (Hentry : tasks w !! 2%nat = Some (TFir CmdEntry) /\ fir_lock (cog w) = true).
  { vm_compute in Hrun. injection Hrun as <- _. split; reflexivity. }
  destruct Hentry as [Hentry Hlock].
  split; [exact Hentry |]. split; [exact Hlock |].
  destruct (@Loop.exec Sample.enum_types w [Resume 2 Returned; Resume 2 Returned])
    as [[w' tr'] |] eqn:Hnext.
  - destruct (@held_gate_turns_reload_away Sample.enum_types) as (_ & _ & Haway & _).
    destruct (Haway w 2%nat Returned [Resume 2 Returned] w' tr' (TFir CmdEntry)
                Hentry (or_introl (conj eq_refl Hlock)) Hnext) as (Ht' & Hsent & _).
    split; [exact Hsent | exact Ht'].
  - vm_compute in Hrun. injection Hrun as <- _.
    vm_compute in Hnext. discriminate Hnext.
Defined.

(** A [forceindexreload] invoked before the first refresh is suspended
    with its lock held; after the first refresh it reloads, and its work
    comes after the publish of the background task. *)
Lemma forced_reload_waits_for_first_refresh_witness :
  match @Loop.exec Sample.enum_types (@Loop.boot Sample.enum_types) Sample.early_reload with
  | Some (w, _) =>
      tasks w !! 1%nat = Some (TFir CmdWaitReady)
      /\ fir_lock (cog w) = true
      /\ @Loop.step Sample.enum_types w (Resume 1 Returned) = None
  | None => False
  end
  /\ match @Loop.exec Sample.enum_types (@Loop.boot Sample.enum_types)
             (Sample.early_reload ++ Sample.first_refresh ++ Sample.late_reload) with
     | Some (w, tr) =>
         tasks w !! 1%nat = Some (TFir CmdReturned)
         /\ In (1%nat, ObsIndexPublished) tr
         /\ In (0%nat, ObsSetReady) tr
     | None => False
     end.
Proof.
  destruct (@forced_reload_waits_for_first_refresh Sample.enum_types)
    as (_ & _ & _ & _ & Hruns).
  split.
  - destruct (@Loop.exec Sample.enum_types (@Loop.boot Sample.enum_types)
                Sample.early_reload) as [[w tr] |] eqn:Hrun;
      [| vm_compute in Hrun; discriminate Hrun].
    destruct (Hruns _ w tr Hrun) as (_ & _ & Hheld & _).
    assert (Hwait : tasks w !! 1%nat = Some (TFir CmdWaitReady)).
    { vm_compute in Hrun. injection Hrun as <- _. reflexivity. }
    split; [exact Hwait |]. split; [exact (Hheld 1%nat CmdWaitReady Hwait eq_refl) |].
    unfold Loop.step. rewrite Hwait. reflexivity.
  - destruct (@Loop.exec Sample.enum_types (@Loop.boot Sample.enum_types)
                (Sample.early_reload ++ Sample.first_refresh ++ Sample.late_reload))
      as [[w tr] |] eqn:Hrun; [| vm_compute in Hrun; discriminate Hrun].
    destruct (Hruns _ w tr Hrun) as (_ & _ & _ & _ & _ & Horder).
    assert (Hend : tasks w !! 1%nat = Some (TFir CmdReturned)
                   /\ exists tr1 tr2, tr = tr1 ++ (1%nat, ObsIndexPublished) :: tr2).
    { vm_compute in Hrun. injection Hrun as <- <-. split; [reflexivity |].
      apply in_split. cbn. tauto. }
    destruct Hend as (Hend & tr1 & tr2 & Htr).
    split; [exact Hend |]. split.
    + rewrite Htr. apply in_elt.
    + destruct (Horder tr1 1%nat ObsIndexPublished tr2 Htr) as [Hset _];
        [discriminate | reflexivity |].
      rewrite Htr. apply in_or_app. now left.
Defined.

(** Two invocations that both find the lock free: the test of the lock
    and its taking are separated by the entering of [ctx.typing()], so
    the second one ends up waiting for the lock. *)
Example reload_behind_another :
  match @Loop.exec Sample.enum_types (@Loop.boot Sample.enum_types)
          [ Invoke_forceindexreload; Invoke_forceindexreload;
            Resume 1 Returned; Resume 2 Returned;   (* both pass the test *)
            Resume 1 Returned; Resume 2 Returned ]  (* both leave the typing *)
  with
  | Some (w, _) =>
      tasks w !! 1%nat = Some (TFir CmdStartReply)
      /\ tasks w !! 2%nat = Some (TFir CmdAcquire)
  | None => False
  end.
Proof. vm_compute. split; reflexivity. Qed.

(* ===================================================================== *)
(** * Part III: the rest of the cog and of the view                       *)
(* ===================================================================== *)

(** ** The debug monsters *)

Lemma int_in_spec (x : Z) (l : list Z) : PyList.int_in x l = true <-> In x l.
Proof.
  unfold PyList.int_in. rewrite existsb_exists. split.
  - intros (y & Hin & Heq). apply Z.eqb_eq in Heq. now subst.
  - intros Hin. exists x. split; [exact Hin | apply Z.eqb_refl].
Qed.

Lemma int_in_false (x : Z) (l : list Z) : PyList.int_in x l = false <-> ~ In x l.
Proof.
  rewrite <- int_in_spec. destruct (PyList.int_in x l); split; congruence.
Qed.


Lemma add_monsters_appends (ts_monsters monsters : list Z) :
  exists new,
    Settings.add_monsters ts_monsters monsters = ts_monsters ++ new
    /\ List.NoDup new
    /\ (forall x, In x new <-> In x monsters /\ ~ In x ts_monsters).
Proof.
  revert ts_monsters. induction monsters as [|m rest IH]; intros ts_monsters.
  - exists []. rewrite app_nil_r. repeat split; try constructor; tauto.
  - cbn. destruct (PyList.int_in m ts_monsters) eqn:Hm; cbn.
    + apply int_in_spec in Hm.
      destruct (IH ts_monsters) as (new & Heq & Hnodup & Hnew).
      exists new. split; [exact Heq |]. split; [exact Hnodup |].
      intros x. rewrite Hnew. split.
      * intros [Hx Hnot]. split; [now right | exact Hnot].
      * intros [[<- | Hx] Hnot]; [contradiction | tauto].
    + apply int_in_false in Hm.
      destruct (IH (ts_monsters ++ [m])) as (new & Heq & Hnodup & Hnew).
      exists (m :: new). split; [now rewrite Heq, <- app_assoc |]. split.
      * constructor; [| exact Hnodup]. intros Hin. apply Hnew in Hin.
        destruct Hin as [_ Hnot]. apply Hnot, in_or_app. right. now left.
      * intros x. split.
        -- intros [<- | Hin]; [split; [now left | exact Hm] |].
           apply Hnew in Hin. destruct Hin as [Hrest Hnot].
           split; [now right |]. intros Hts. apply Hnot, in_or_app. now left.
        -- intros [[<- | Hrest] Hnot]; [now left |].
           destruct (Z.eq_dec m x) as [-> | Hne]; [now left | right].
           apply Hnew. split; [exact Hrest |]. intros Hin. apply in_app_or in Hin.
           destruct Hin as [Hin | [Heq' | []]]; [contradiction | congruence].
Qed.


Lemma count_remove (x y : Z) (l : list Z) :
  PyList.count x (PyList.remove y l)
  = if x =? y then Nat.pred (PyList.count x l) else PyList.count x l.
Proof.
  induction l as [|z l IH]; cbn; [now destruct (x =? y) |].
  destruct (y =? z) eqn:Hyz.
  - apply Z.eqb_eq in Hyz. subst z. destruct (x =? y); [reflexivity | reflexivity].
  - cbn. rewrite IH. destruct (x =? y) eqn:Hxy; [| reflexivity].
    apply Z.eqb_eq in Hxy. subst y. rewrite Hyz. reflexivity.
Qed.

Lemma count_absent (x : Z) (l : list Z) :
  PyList.int_in x l = false -> PyList.count x l = 0%nat.
Proof.
  induction l as [|z l IH]; cbn; [reflexivity |].
  destruct (x =? z); cbn; [discriminate | exact IH].
Qed.

Lemma remove_monsters_count (ts_monsters monsters : list Z) (x : Z) :
  PyList.count x (Settings.remove_monsters ts_monsters monsters)
  = (PyList.count x ts_monsters - PyList.count x monsters)%nat.
Proof.
  revert ts_monsters. induction monsters as [|m rest IH]; intros ts_monsters; cbn.
  - lia.
  - rewrite IH. destruct (PyList.int_in m ts_monsters) eqn:Hm.
    + rewrite count_remove. destruct (x =? m); lia.
    + destruct (x =? m) eqn:Hxm; [| lia].
      apply Z.eqb_eq in Hxm. subst m. rewrite (count_absent _ _ Hm). lia.
Qed.

Lemma count_In (x : Z) (l : list Z) : (0 < PyList.count x l)%nat <-> In x l.
Proof.
  induction l as [|z l IH]; cbn; [split; [lia | tauto] |].
  destruct (x =? z) eqn:Hxz.
  - apply Z.eqb_eq in Hxz. subst z. split; [now left | lia].
  - apply Z.eqb_neq in Hxz. rewrite IH. split; [now right | intros [Heq | Hin]; congruence].
Qed.

Lemma remove_filter (y : Z) (l : list Z) :
  List.NoDup l ->
  (if PyList.int_in y l then PyList.remove y l else l)
  = List.filter (fun x => negb (x =? y)) l.
Proof.
  intros Hnodup. induction Hnodup as [|z l Hz Hnodup IH]; [reflexivity |].
  unfold PyList.int_in in *. cbn. rewrite (Z.eqb_sym z y).
  destruct (y =? z) eqn:Hyz; cbn.
  - apply Z.eqb_eq in Hyz. subst z.
    assert (Hnot : existsb (Z.eqb y) l = false) by now apply int_in_false.
    rewrite Hnot in IH. exact IH.
  - destruct (existsb (Z.eqb y) l); now rewrite <- IH.
Qed.

Lemma remove_monsters_filter (ts_monsters monsters : list Z) :
  List.NoDup ts_monsters ->
  Settings.remove_monsters ts_monsters monsters
  = List.filter (fun x => negb (PyList.int_in x monsters)) ts_monsters.
Proof.
  revert ts_monsters. induction monsters as [|m rest IH]; intros ts_monsters Hnodup; cbn.
  - symmetry. apply forallb_filter_id. now apply forallb_forall.
  - rewrite (remove_filter m ts_monsters Hnodup).
    rewrite IH by now apply List.NoDup_filter.
    clear. induction ts_monsters as [|z l IHl]; [reflexivity |]. cbn.
    destruct (z =? m); cbn; [exact IHl |].
    destruct (existsb (Z.eqb z) rest) eqn:Hz; unfold PyList.int_in at 1;
      rewrite Hz; cbn; [exact IHl | now f_equal].
Qed.

(** X2. [debug_monsters_rm] takes one occurrence of a monster out of the
    configured list for each time the monster is given, as long as there
    is one: each monster is left with as many occurrences as it had, less
    the times it was given (never below none). On a list without
    repetitions, what stays is exactly the monsters that were not given,
    in their order. The index is reloaded exactly when debug mode is on. *)
Theorem debug_monsters_rm_takes_given (config : Config) (monsters : list Z) :
  let after := fst (Settings.debug_monsters_rm config monsters) in
  (forall x,
      PyList.count x (debug_mode_monsters after)
      = (PyList.count x (debug_mode_monsters config) - PyList.count x monsters)%nat)
  /\ (forall x, In x (debug_mode_monsters after) -> In x (debug_mode_monsters config))
  /\ (List.NoDup (debug_mode_monsters config) ->
      debug_mode_monsters after
      = List.filter (fun x => negb (PyList.int_in x monsters)) (debug_mode_monsters config))
  /\ snd (Settings.debug_monsters_rm config monsters)
     = (if debug_mode config then [ForceIndexReload; Tick] else [Tick]).
Proof.
  cbn. split; [| split; [| split]].
  - intros x. apply remove_monsters_count.
  - intros x Hx. apply count_In in Hx. rewrite remove_monsters_count in Hx.
    apply count_In. lia.
  - apply remove_monsters_filter.
  - now destruct (debug_mode config).
Qed.

Lemma filter_none {A} (f : A -> bool) (l : list A) :
  (forall x, In x l -> f x = false) -> List.filter f l = [].
Proof.
  induction l as [|z l IH]; intros Hall; [reflexivity |]. cbn.
  rewrite (Hall z) by now left. apply IH. intros x Hx. apply Hall. now right.
Qed.

(** X3. Adding monsters that are not configured yet and removing the same
    monsters again gives back the configured list, when that list has no
    repetitions. *)
Theorem debug_monsters_add_then_rm (config : Config) (monsters : list Z) :
  List.NoDup (debug_mode_monsters config) ->
  (forall x, In x monsters -> ~ In x (debug_mode_monsters config)) ->
  debug_mode_monsters
    (fst (Settings.debug_monsters_rm
            (fst (Settings.debug_monsters_add config monsters)) monsters))
  = debug_mode_monsters config.
Proof.
  intros Hnodup Hfresh. cbn.
  destruct (add_monsters_appends (debug_mode_monsters config) monsters)
    as (new & Heq & Hnew_nodup & Hnew).
  rewrite Heq. rewrite remove_monsters_filter.
  - rewrite List.filter_app.
    replace (List.filter (fun x => negb (PyList.int_in x monsters)) new) with (@nil Z).
    + rewrite app_nil_r. apply forallb_filter_id, forallb_forall.
      intros x Hx. apply negb_true_iff, int_in_false. intros Hin.
      now apply (Hfresh x).
    + symmetry. apply filter_none. intros x Hx.
      apply negb_false_iff, int_in_spec. now apply Hnew.
  - apply NoDup_ListNoDup, NoDup_app.
    split; [now apply NoDup_ListNoDup |]. split; [| now apply NoDup_ListNoDup].
    intros x Hx Hx'. apply list_elem_of_In in Hx, Hx'. apply Hnew in Hx'. tauto.
Qed.

(** ** The locks and the background task over every run *)

Lemma holders_unique (held : Task -> bool) (l : list Task) (i j : nat) (t t' : Task) :
  (holders held l <= 1)%nat ->
  l !! i = Some t -> l !! j = Some t' ->
  held t = true -> held t' = true ->
  i = j.
Proof.
  revert i j. induction l as [|x l IH]; intros i j Hle Hi Hj Ht Ht'; [discriminate Hi |].
  destruct i as [|i], j as [|j]; cbn in *.
  - reflexivity.
  - injection Hi as ->. rewrite Ht in Hle.
    pose proof (holders_lookup held l j t' Hj Ht'). lia.
  - injection Hj as ->. rewrite Ht' in Hle.
    pose proof (holders_lookup held l i t Hi Ht). lia.
  - f_equal. apply IH; try assumption. destruct (held x); lia.
Qed.

Lemma holders_exists (held : Task -> bool) (l : list Task) :
  (1 <= holders held l)%nat ->
  exists i t, l !! i = Some t /\ held t = true.
Proof.
  induction l as [|x l IH]; cbn; intros Hpos; [lia |].
  destruct (held x) eqn:Hx.
  - exists 0%nat, x. split; [reflexivity | exact Hx].
  - destruct IH as (i & t & Hi & Ht); [lia |]. exists (S i), t. split; assumption.
Qed.

Section EveryRun.
Context `{EnumTypes}.

(** X4. Over every run from the boot, at most one [forceindexreload] is
    inside its [async with] block at a time, and at most one
    [forceindexreload3]; and a lock that is locked belongs to a command
    that is inside its block: however a command ends, by returning or by
    an exception, it leaves its lock free. *)
Theorem reload_blocks_exclusive (evs : list Event) (w : World) (tr : list (nat * Obs)) :
  Loop.exec Loop.boot evs = Some (w, tr) ->
  (forall i j pc pc',
      tasks w !! i = Some (TFir pc) -> tasks w !! j = Some (TFir pc') ->
      holds_gate pc = true -> holds_gate pc' = true -> i = j)
  /\ (forall i j pc pc',
        tasks w !! i = Some (TFir3 pc) -> tasks w !! j = Some (TFir3 pc') ->
        holds_gate pc = true -> holds_gate pc' = true -> i = j)
  /\ (fir_lock (cog w) = true ->
      exists i pc, tasks w !! i = Some (TFir pc) /\ holds_gate pc = true)
  /\ (fir3_lock (cog w) = true ->
      exists i pc, tasks w !! i = Some (TFir3 pc) /\ holds_gate pc = true).
Proof.
  intros Hexec. destruct (boot_gates evs w tr Hexec) as [Hfir Hfir3].
  split; [| split; [| split]].
  - intros i j pc pc' Hi Hj Hpc Hpc'.
    apply (holders_unique fir_holder (tasks w) i j (TFir pc) (TFir pc')); try assumption.
    rewrite Hfir. destruct (fir_lock (cog w)); lia.
  - intros i j pc pc' Hi Hj Hpc Hpc'.
    apply (holders_unique fir3_holder (tasks w) i j (TFir3 pc) (TFir3 pc')); try assumption.
    rewrite Hfir3. destruct (fir3_lock (cog w)); lia.
  - intros Hlock. rewrite Hlock in Hfir.
    destruct (holders_exists fir_holder (tasks w)) as (i & t & Hi & Ht); [lia |].
    destruct t as [pc | pc | pc | pc]; try discriminate Ht. now exists i, pc.
  - intros Hlock. rewrite Hlock in Hfir3.
    destruct (holders_exists fir3_holder (tasks w)) as (i & t & Hi & Ht); [lia |].
    destruct t as [pc | pc | pc | pc]; try discriminate Ht. now exists i, pc.
Qed.




End EveryRun.

(** ** The index check, apart from its report *)

Lemma concat_map_nil {A B} (l : list A) : concat (map (fun _ : A => @nil B) l) = [].
Proof. induction l as [|x l IH]; [reflexivity | exact IH]. Qed.

Lemma length_concat_map {A B} (f : A -> list B) (n : nat) (l : list A) :
  (forall x, length (f x) = n) ->
  length (concat (map f l)) = (length l * n)%nat.
Proof.
  intros Hf. induction l as [|x l IH]; [reflexivity |].
  cbn. rewrite length_app, Hf, IH. lia.
Qed.

Section IndexCheckEdges.
Context `{ChatFormatting}.

(** X6. As long as the self-tests and the sends do not raise,
    [check_index] fails only before it has sent anything, and only with an
    AttributeError (no database) or an IndexError (no prefix for the
    hint): without a database at its start it fails at once; with no issue
    at all it sends nothing and does not fail, even if the database is
    gone by the time the tests have run. *)
Theorem check_index_fails_before_sending (self self' : DBCog) (tests : list string)
    (config : Config) (bot : Bot) :
  (forall e,
      snd (DBCog.check_index self self' tests config bot) = Err e ->
      fst (DBCog.check_index self self' tests config bot) = []
      /\ (e = AttributeError \/ e = IndexError))
  /\ (database self = None ->
      DBCog.check_index self self' tests config bot = ([], Err AttributeError))
  /\ (forall db,
        database self = Some db ->
        graph_issues (graph db)
        ++ concat (map (fun kv => index_issues (snd kv)) (indexes self)) ++ tests = [] ->
        DBCog.check_index self self' tests config bot = ([], Ok tt)).
Proof.
  unfold DBCog.check_index, DBCog.check_index_issues.
  split; [| split].
  - intros e. destruct (database self) as [db|]; cbn.
    + destruct (Py.len _ =? 0); [discriminate |].
      destruct (database self') as [db'|]; cbn.
      * destruct (bool_decide _); [| discriminate].
        destruct (get_channel bot (indexlog config)); [discriminate |].
        destruct (omap (get_user bot) (owner_ids bot)); [discriminate |].
        destruct (get_valid_prefixes bot); [| discriminate].
        cbn. intros Heq. injection Heq as <-. split; [reflexivity | now right].
      * intros Heq. injection Heq as <-. split; [reflexivity | now left].
    + intros Heq. injection Heq as <-. split; [reflexivity | now left].
  - intros ->. reflexivity.
  - intros db -> Hnone. rewrite app_assoc in Hnone. rewrite Hnone. reflexivity.
Qed.

(** X7. With an issue to report on an unrestricted build and no channel
    found for the configured id, the check turns to the owners the bot can
    resolve: each of them first gets the hint to set a failure channel,
    then every page goes to every one of them, so that [n] owners and [p]
    pages make [n * (1 + p)] messages. When no owner can be resolved
    nothing is sent and nothing fails: the report is lost. When there are
    owners but the bot has no prefix, the check fails with nothing sent. *)
Theorem check_index_owner_fallback (self self' : DBCog) (tests : list string)
    (config : Config) (bot : Bot) (db db' : DgDatabase) :
  database self = Some db ->
  database self' = Some db' ->
  debug_monster_ids (graph db') = None ->
  get_channel bot (indexlog config) = None ->
  let issues :=
    graph_issues (graph db)
    ++ concat (map (fun kv => index_issues (snd kv)) (indexes self)) ++ tests in
  issues <> [] ->
  let owners := omap (get_user bot) (owner_ids bot) in
  let pages := pagify (DBCog.report_text issues) in
  (owners = [] -> DBCog.check_index self self' tests config bot = ([], Ok tt))
  /\ (forall prefix rest,
        get_valid_prefixes bot = prefix :: rest ->
        DBCog.check_index self self' tests config bot
        = (map (fun owner => (owner, DBCog.setfailurechannel_hint prefix)) owners
           ++ concat (map (fun page => map (fun owner => (owner, box page)) owners) pages),
           Ok tt)
        /\ length (fst (DBCog.check_index self self' tests config bot))
           = (length owners * (1 + length pages))%nat)
  /\ (owners <> [] -> get_valid_prefixes bot = [] ->
      DBCog.check_index self self' tests config bot = ([], Err IndexError)).
Proof.
  intros Hdb Hdb' Hfull Hchannel issues Hissues owners pages.
  assert (Hrun : DBCog.check_index self self' tests config bot
                 = match owners, get_valid_prefixes bot with
                   | [], _ =>
                       (concat (map (fun page => map (fun owner : Z => (owner, box page)) [])
                                    pages), Ok tt)
                   | _ :: _, [] => ([], Err IndexError)
                   | _ :: _, prefix :: _ =>
                       (map (fun owner => (owner, DBCog.setfailurechannel_hint prefix)) owners
                        ++ concat (map (fun page => map (fun owner => (owner, box page)) owners)
                                       pages), Ok tt)
                   end).
  { unfold DBCog.check_index, DBCog.check_index_issues. rewrite Hdb, Hdb', Hfull, Hchannel.
    rewrite <- app_assoc. fold issues.
    replace (Py.len issues =? 0) with false.
    2:{ symmetry. apply Z.eqb_neq. unfold Py.len.
        destruct issues; [congruence | cbn; lia]. }
    rewrite bool_decide_eq_true_2 by reflexivity. reflexivity. }
  split; [| split].
  - intros Hnone. rewrite Hrun. clear Hrun. clearbody owners. subst owners.
    cbn. now rewrite concat_map_nil.
  - intros prefix rest Hprefix. rewrite Hrun, Hprefix. clear Hrun.
    clearbody owners pages.
    assert (Hlen : length (map (fun owner => (owner, DBCog.setfailurechannel_hint prefix)) owners
                           ++ concat (map (fun page => map (fun owner : Z => (owner, box page))
                                                           owners) pages))
                   = (length owners * (1 + length pages))%nat).
    { rewrite length_app, length_map.
      rewrite (length_concat_map _ (length owners)) by (intros page; apply length_map).
      lia. }
    destruct owners as [|owner owners']; (split; [reflexivity | exact Hlen]).
  - intros Hsome Hnoprefix. rewrite Hrun, Hnoprefix. clear Hrun. clearbody owners.
    now destruct owners.
Qed.

End IndexCheckEdges.

(** ** A refresh that runs without interruption *)

Lemma dict_get_setitem {V} (k k' : Server) (v : V) (d : list (Server * V)) :
  PyList.dict_get k (dict_setitem k' v d)
  = if String.eqb k k' then Some v else PyList.dict_get k d.
Proof.
  induction d as [|[k0 v0] d IH]; cbn; [reflexivity |].
  destruct (String.eqb k' k0) eqn:Hk0; cbn.
  - apply String.eqb_eq in Hk0. subst k0. now destruct (String.eqb k k').
  - rewrite IH. destruct (String.eqb k k0) eqn:Hkk0; [| reflexivity].
    apply String.eqb_eq in Hkk0. subst k0. rewrite String.eqb_sym, Hk0. reflexivity.
Qed.

Lemma dict_get_app {V} (k : Server) (d d' : list (Server * V)) :
  PyList.dict_get k (d ++ d')
  = match PyList.dict_get k d with
    | Some v => Some v
    | None => PyList.dict_get k d'
    end.
Proof.
  induction d as [|[k0 v0] d IH]; cbn; [reflexivity |].
  now destruct (String.eqb k k0).
Qed.

Section RefreshRuns.
Context `{EnumTypes}.

(** The newest index stored for a server is the one found. *)
Lemma dict_get_store (k : Server) (built indexes : list (Server * MonsterIndex)) :
  PyList.dict_get k (Refresh.store_indexes indexes built)
  = match PyList.dict_get k (rev built) with
    | Some index => Some index
    | None => PyList.dict_get k indexes
    end.
Proof.
  revert indexes. induction built as [|[server index] built IH]; intros indexes; cbn;
    [reflexivity |].
  rewrite IH, dict_get_app, dict_get_setitem. cbn.
  destruct (PyList.dict_get k (rev built)); [reflexivity |].
  now destruct (String.eqb k server).
Qed.

Lemma run_no_obs (self : DBCog) (pc : RefreshPc) (answers : list Answer) :
  match Refresh.run self pc answers with
  | Some (self', obs, flow) => Some (self', [] ++ obs, flow)
  | None => None
  end = Refresh.run self pc answers.
Proof. now destruct (Refresh.run self pc answers) as [[[? ?] ?] |]. Qed.

(** One turn of the loop of [create_index] with a server to go. *)
Lemma run_index_step (self : DBCog) (db : DgDatabase) (server : Server)
    (index : MonsterIndex) (next : Server) (rest : list Server) (answers : list Answer) :
  database self = Some db ->
  Refresh.run self (RIndex server (next :: rest)) (ReturnedIndex index :: answers)
  = Refresh.run (set_indexes (dict_setitem server index (indexes self)) self)
                (RIndex next rest) answers.
Proof.
  intros Hdb. cbn [Refresh.run]. cbn -[Refresh.run]. rewrite Hdb. cbn -[Refresh.run].
  apply run_no_obs.
Qed.

(** The loop of [create_index] over the servers of [built], with more
    servers to go after them. *)
Lemma run_index_loop_on (built : list (Server * MonsterIndex)) :
  forall self db server index next rest answers,
    database self = Some db ->
    Refresh.run self (RIndex server (map fst built ++ next :: rest))
      (ReturnedIndex index :: map (fun b => ReturnedIndex (snd b)) built ++ answers)
    = Refresh.run
        (set_indexes (Refresh.store_indexes (indexes self) ((server, index) :: built)) self)
        (RIndex next rest) answers.
Proof.
  induction built as [|[s1 ix1] built IH]; intros self db server index next rest answers Hdb.
  - cbn [map app]. now rewrite (run_index_step self db).
  - cbn [map fst snd app]. rewrite (run_index_step self db) by exact Hdb.
    rewrite (IH _ db s1 ix1 next rest answers) by exact Hdb. reflexivity.
Qed.

(** The same with [built] the last servers of the loop. *)
Lemma run_index_loop_end (built : list (Server * MonsterIndex)) :
  forall self db server index,
    database self = Some db ->
    Refresh.run self (RIndex server (map fst built))
      (ReturnedIndex index :: map (fun b => ReturnedIndex (snd b)) built)
    = Some (set_mon_finder (Some {| finder_flags := fm_flags_default self |})
              (set_indexes (Refresh.store_indexes (indexes self) ((server, index) :: built))
                           self),
            [ObsIndexPublished; ObsCheckIndexTask; ObsLogInfo "Done refreshing dg data"],
            Finished).
Proof.
  induction built as [|[s1 ix1] built IH]; intros self db server index Hdb.
  - reflexivity.
  - cbn [map fst snd app]. rewrite (run_index_step self db) by exact Hdb.
    rewrite (IH _ db s1 ix1) by exact Hdb. reflexivity.
Qed.

Lemma dict_get_rev {V : Type} (k : Server) (built : list (Server * V)) :
  match PyList.dict_get k (rev built) with
  | Some v => In (k, v) built
  | None => ~ In k (map fst built)
  end.
Proof.
  induction built as [|[s1 v1] built IH] using rev_ind; [cbn; tauto |].
  rewrite rev_app_distr. cbn. destruct (String.eqb k s1) eqn:Hk.
  - apply String.eqb_eq in Hk. subst s1. apply in_or_app. right. now left.
  - apply String.eqb_neq in Hk. rewrite map_app. cbn.
    destruct (PyList.dict_get k (rev built)).
    + apply in_or_app. now left.
    + intros Hin. apply in_app_or in Hin.
      destruct Hin as [Hin | [Heq | []]]; [now apply IH | congruence].
Qed.

Lemma run_fetch (self : DBCog) (answers : list Answer) :
  Refresh.run self RFetch (Returned :: answers)
  = match Refresh.run self RLoad answers with
    | Some (self', obs, flow) => Some (self', ObsLogInfo "Loading dg database" :: obs, flow)
    | None => None
    end.
Proof. reflexivity. Qed.

Lemma run_load (self : DBCog) (db : DgDatabase) (built : list (Server * MonsterIndex))
    (rest : list Server) (answers : list Answer) :
  map fst built ++ rest = SERVERS ->
  Refresh.run self RLoad
    (ReturnedDatabase db :: map (fun b => ReturnedIndex (snd b)) built ++ answers)
  = match rest, built with
    | [], [] =>
        match answers with
        | [] =>
            Some (set_mon_finder (Some {| finder_flags := fm_flags_default self |})
                    (set_database (Some db) self),
                  [ObsDatabaseLoaded; ObsLogInfo "Building dg monster index";
                   ObsIndexPublished; ObsCheckIndexTask;
                   ObsLogInfo "Done refreshing dg data"], Finished)
        | _ :: _ => None
        end
    | _, _ =>
        match hd_error SERVERS with
        | Some server =>
            match Refresh.run (set_database (Some db) self) (RIndex server (tl SERVERS))
                    (map (fun b => ReturnedIndex (snd b)) built ++ answers) with
            | Some (self', obs, flow) =>
                Some (self', ObsDatabaseLoaded :: ObsLogInfo "Building dg monster index" :: obs,
                      flow)
            | None => None
            end
        | None => None
        end
    end.
Proof.
  intros Hservers. cbn [Refresh.run Coroutines.download_and_refresh_nicknames].
  unfold Coroutines.create_index. rewrite <- Hservers.
  destruct built as [|[s1 ix1] built]; [destruct rest as [|next rest] |]; cbn -[Refresh.run].
  - now destruct answers.
  - reflexivity.
  - now destruct rest.
Qed.

(** X8. A refresh that runs through: the file is fetched, the database
    [db] loaded, and an index built for each server of SERVERS in turn.
    It ends with [db] as the database, with the finder of [mon_finder]
    rebuilt from the plain default flags, and with the event and the locks
    untouched. In [indexes] each server of SERVERS has an index, the one
    built for it (the last one if a server is listed twice), and a server
    that is not in SERVERS keeps the entry it had: nothing is taken out. *)
Theorem refresh_run_completes (self : DBCog) (db : DgDatabase)
    (built : list (Server * MonsterIndex)) :
  map fst built = SERVERS ->
  let self' :=
    set_mon_finder (Some {| finder_flags := fm_flags_default self |})
      (set_indexes (Refresh.store_indexes (indexes self) built)
         (set_database (Some db) self)) in
  (exists obs,
      Refresh.run self RFetch
        (Returned :: ReturnedDatabase db :: map (fun b => ReturnedIndex (snd b)) built)
      = Some (self', obs, Finished)
      /\ In ObsDatabaseLoaded obs /\ In ObsIndexPublished obs)
  /\ (forall k,
        PyList.dict_get k (indexes self')
        = match PyList.dict_get k (rev built) with
          | Some index => Some index
          | None => PyList.dict_get k (indexes self)
          end)
  /\ (forall server, In server SERVERS -> exists index,
        PyList.dict_get server (indexes self') = Some index /\ In (server, index) built)
  /\ (forall k, ~ In k SERVERS ->
        PyList.dict_get k (indexes self') = PyList.dict_get k (indexes self))
  /\ (_is_ready self', fir_lock self', fir3_lock self')
     = (_is_ready self, fir_lock self, fir3_lock self).
Proof.
  intros Hservers self'.
  assert (Hget : forall k,
             PyList.dict_get k (indexes self')
             = match PyList.dict_get k (rev built) with
               | Some index => Some index
               | None => PyList.dict_get k (indexes self)
               end).
  { intros k. cbn. apply dict_get_store. }
  assert (Hrev := fun k => dict_get_rev k built).
  split; [| split; [exact Hget | split; [| split; [| reflexivity]]]].
  - rewrite run_fetch.
    rewrite <- (app_nil_r (map (fun b => ReturnedIndex (snd b)) built)).
    rewrite (run_load self db built [] []) by now rewrite app_nil_r.
    destruct built as [|[s1 ix1] built].
    + eexists. split; [reflexivity |]. cbn. tauto.
    + rewrite <- Hservers. cbn [map fst snd hd_error tl app]. rewrite app_nil_r.
      rewrite (run_index_loop_end built _ db) by reflexivity.
      eexists. split; [reflexivity |]. cbn. tauto.
  - intros server Hserver. rewrite Hget. specialize (Hrev server).
    rewrite <- Hservers in Hserver.
    revert Hrev. destruct (PyList.dict_get server (rev built)) as [index|]; intros Hrev.
    + exists index. split; [reflexivity | exact Hrev].
    + exfalso. exact (Hrev Hserver).
  - intros k Hk. rewrite Hget. specialize (Hrev k).
    revert Hrev. destruct (PyList.dict_get k (rev built)) as [index|]; intros Hrev;
      [| reflexivity].
    exfalso. apply Hk. rewrite <- Hservers.
    change k with (fst (k, index)). now apply in_map.
Qed.

(** X9. A refresh that fails while the index of a server is built (the
    servers before it are done, [e] is raised by the one after): the
    exception leaves [download_and_refresh_nicknames], which has by then
    replaced the database and stored the indexes already built, and has
    neither rebuilt the finder of [mon_finder] nor started [check_index]:
    the cog is left with the new database, the old finder and indexes of
    both generations. *)
Theorem refresh_run_fails_at_index (self : DBCog) (db : DgDatabase)
    (built : list (Server * MonsterIndex)) (failing : Server) (rest : list Server)
    (e : PyExc) :
  map fst built ++ failing :: rest = SERVERS ->
  let self' :=
    set_indexes (Refresh.store_indexes (indexes self) built) (set_database (Some db) self) in
  Refresh.run self RFetch
    (Returned :: ReturnedDatabase db :: map (fun b => ReturnedIndex (snd b)) built
       ++ [Raised e])
  = Some (self',
          [ObsLogInfo "Loading dg database"; ObsDatabaseLoaded;
           ObsLogInfo "Building dg monster index"],
          Throw e)
  /\ database self' = Some db
  /\ mon_finder self' = mon_finder self
  /\ (forall k, ~ In k (map fst built) ->
        PyList.dict_get k (indexes self') = PyList.dict_get k (indexes self)).
Proof.
  intros Hservers self'. split; [| split; [reflexivity | split; [reflexivity |]]].
  - rewrite run_fetch.
    rewrite (run_load self db built (failing :: rest) [Raised e]) by exact Hservers.
    rewrite <- Hservers. subst self'.
    destruct built as [|[s1 ix1] built].
    + reflexivity.
    + cbn [map fst snd hd_error tl app].
      rewrite (run_index_loop_on built _ db) by reflexivity. reflexivity.
  - intros k Hk. subst self'. cbn. rewrite dict_get_store.
    assert (Hrev := dict_get_rev k built). revert Hrev.
    destruct (PyList.dict_get k (rev built)) as [index|]; intros Hrev; [| reflexivity].
    exfalso. apply Hk. change k with (fst (k, index)). now apply in_map.
Qed.

(** X10. Whatever way a run of [download_and_refresh_nicknames] goes and
    wherever it stops, as long as [load_database] has not returned the cog
    is as it was: a refresh that fails at the download or at the load
    changes nothing. *)
Theorem refresh_run_unchanged_before_load (self self' : DBCog) (answers : list Answer)
    (obs : list Obs) (flow : Flow RefreshPc) :
  Refresh.run self RFetch answers = Some (self', obs, flow) ->
  ~ In ObsDatabaseLoaded obs ->
  self' = self.
Proof.
  intros Hrun Hobs.
  destruct answers as [|a answers]; [cbn in Hrun; congruence |].
  destruct a as [| db0 | ix0 | e0]; try (cbn in Hrun; discriminate).
  - rewrite run_fetch in Hrun.
    destruct answers as [|a answers]; [cbn in Hrun; congruence |].
    cbn [Refresh.run Coroutines.download_and_refresh_nicknames] in Hrun.
    destruct a as [| db | ix | e]; try discriminate.
    + exfalso. apply Hobs. clear Hobs.
      destruct (Coroutines.create_index (set_database (Some db) self))
        as [[self1 obs1] [pc1 | | e1]]; cbn -[Refresh.run] in Hrun.
      * destruct (Refresh.run self1 pc1 answers) as [[[self2 obs2] flow2] |];
          [| discriminate].
        injection Hrun as _ <- _. right. now left.
      * destruct answers; [| discriminate]. injection Hrun as _ <- _. right. now left.
      * destruct answers; [| discriminate]. injection Hrun as _ <- _. right. now left.
    + destruct answers; [| discriminate]. congruence.
  - cbn in Hrun. destruct answers; [| discriminate]. congruence.
Qed.

End RefreshRuns.

(** ** [wait_until_ready_verbose] *)

Lemma verbose_step_so_far (self : DBCog) (pc pc' : VerbosePc) (ev : VerboseEvent)
    (obs obs' : list VerboseObs) :
  Verbose.step self pc ev = Some (obs', pc') ->
  verbose_so_far pc obs -> verbose_so_far pc' (obs ++ obs').
Proof.
  intros Hstep Hpc.
  destruct ev as [a |]; cbn in Hstep.
  - destruct pc; cbn in Hstep, Hpc; try discriminate.
    + destruct (_is_ready self); injection Hstep as <- <-; subst obs; cbn; auto.
    + destruct a; try discriminate.
      * destruct (_is_ready self); injection Hstep as <- <-; subst obs; cbn; auto.
      * injection Hstep as <- <-. subst obs. cbn. auto.
    + destruct a; try discriminate. injection Hstep as <- <-. subst obs. reflexivity.
    + destruct a; try discriminate.
      * injection Hstep as <- <-. subst obs. cbn. auto.
      * destruct (Verbose.is_Forbidden e) eqn:He; injection Hstep as <- <-; subst obs;
          cbn; auto.
  - destruct pc; injection Hstep as <- <-; rewrite app_nil_r; exact Hpc.
Qed.

Lemma verbose_run_so_far (evs : list (DBCog * VerboseEvent)) :
  forall pc pc' obs obs',
    Verbose.run pc evs = Some (obs', pc') ->
    verbose_so_far pc obs -> verbose_so_far pc' (obs ++ obs').
Proof.
  induction evs as [|[self ev] evs IH]; intros pc pc' obs obs' Hrun Hpc.
  - injection Hrun as <- <-. now rewrite app_nil_r.
  - cbn [Verbose.run] in Hrun.
    destruct (Verbose.step self pc ev) as [[obs1 pc1] |] eqn:Hstep; [| discriminate].
    destruct (Verbose.run pc1 evs) as [[obs2 pc2] |] eqn:Hrest; [| discriminate].
    injection Hrun as <- <-. rewrite app_assoc.
    apply (IH pc1 pc2 _ obs2 Hrest). exact (verbose_step_so_far _ _ _ _ _ _ Hstep Hpc).
Qed.

(** X11. A call of [wait_until_ready_verbose], whatever happens to the
    event and to the cog meanwhile and wherever the call stands: it has sent
    the notice at most once, and deleted it only after sending it, and only
    once. When it has returned it has sent nothing at all or has sent and
    then deleted the notice. When it has raised, either the sending raised,
    or the deleting did with an exception that is not [discord.Forbidden]:
    a [Forbidden] of the deletion never reaches the caller. *)
Theorem verbose_wait_notice_protocol (evs : list (DBCog * VerboseEvent))
    (obs : list VerboseObs) (pc : VerbosePc) :
  Verbose.run VEntry evs = Some (obs, pc) ->
  (obs = [] \/ obs = [SendNotice] \/ obs = [SendNotice; DeleteNotice])
  /\ (pc = VReturned -> obs = [] \/ obs = [SendNotice; DeleteNotice])
  /\ (forall e, pc = VRaised e ->
        obs = [SendNotice]
        \/ (obs = [SendNotice; DeleteNotice] /\ Verbose.is_Forbidden e = false)).
Proof.
  intros Hrun.
  assert (Hpc : verbose_so_far pc obs).
  { exact (verbose_run_so_far evs VEntry pc [] obs Hrun eq_refl). }
  split; [| split].
  - destruct pc; cbn in Hpc; tauto.
  - intros ->. exact Hpc.
  - intros e ->. exact Hpc.
Qed.

(** ** The awakening rows of any monster *)

Section RowsOfAnyMonster.
Context `{EmojiMap} `{MonsterEq}.

(** X12. The two awakening rows of any monster, whatever its
    super-awakening count: they cut the awakening list in two at one
    place, the normal row showing what comes before it and the super row,
    after the question mark, what comes after it, so that every awakening
    is shown once and in order. With a count of zero or less everything is
    in the normal row and there is no super row. With a count above the
    length the cut is [2 * len - count] awakenings from the start, as
    Python's negative slice bound has it, and from twice the length on
    everything is in the super row. *)
Theorem awakening_rows_of_any_monster (m : MonsterModel) :
  let len := Py.len (awakenings m) in
  let count := superawakening_count m in
  let cut :=
    Z.to_nat (if count <=? len then Z.min (len - count) len
              else Z.max 0 (2 * len - count)) in
  IdView.normal_awakenings_row m = Box (map shown (take cut (awakenings m))) (Some " ")
  /\ IdView.super_awakenings_row m
     = match drop cut (awakenings m) with
       | [] => None
       | supers =>
           Some (Box (Some (Text (get_emoji "sa_questionmark")) :: map shown supers)
                     (Some " "))
       end
  /\ take cut (awakenings m) ++ drop cut (awakenings m) = awakenings m
  /\ (count <= 0 ->
      take cut (awakenings m) = awakenings m /\ IdView.super_awakenings_row m = None)
  /\ (2 * len <= count ->
      take cut (awakenings m) = [] /\ drop cut (awakenings m) = awakenings m).
Proof.
  intros len count cut.
  assert (Hcut : Py.slice_bound len (len - count) = cut).
  { unfold Py.slice_bound, cut. f_equal.
    destruct (Z.ltb_spec (len - count) 0), (Z.leb_spec count len); lia. }
  assert (Hsuper : IdView.super_awakenings_row m
                   = match drop cut (awakenings m) with
                     | [] => None
                     | supers =>
                         Some (Box (Some (Text (get_emoji "sa_questionmark"))
                                      :: map shown supers) (Some " "))
                     end).
  { unfold IdView.super_awakenings_row, Py.slice_from. fold len. fold count.
    rewrite Hcut. destruct (drop cut (awakenings m)) as [|a rest]; [reflexivity |].
    rewrite map_map.
    replace (0 <? Py.len (map _get_awakening_text (a :: rest))) with true
      by (symmetry; apply Z.ltb_lt; unfold Py.len; simpl; lia).
    reflexivity. }
  split; [| split; [exact Hsuper | split; [apply take_drop | split]]].
  - unfold IdView.normal_awakenings_row, Py.slice_to. fold len. fold count.
    rewrite Hcut. now rewrite map_map.
  - intros Hcount.
    assert (Hall : (length (awakenings m) <= cut)%nat).
    { unfold cut. unfold len, Py.len in *.
      destruct (Z.leb_spec count (Z.of_nat (length (awakenings m)))); lia. }
    split; [now apply take_ge |]. rewrite Hsuper. now rewrite drop_ge.
  - intros Hcount.
    assert (Hnone : cut = 0%nat).
    { unfold cut. unfold len, Py.len in *.
      destruct (Z.leb_spec count (Z.of_nat (length (awakenings m)))); lia. }
    rewrite Hnone. split; [apply take_0 | apply drop_0].
Qed.

(** X13. With an [__eq__] that holds between the transform base and
    itself, [all_awakenings_row] calls itself once at most: a recursion
    depth of two always gives the row, and a deeper limit gives the same
    one. *)
Theorem all_awakenings_row_depth (m transform_base : MonsterModel) (fuel : nat) :
  monster_eq transform_base transform_base = true ->
  is_Some (IdView.all_awakenings_row 2 m transform_base)
  /\ IdView.all_awakenings_row (S (S fuel)) m transform_base
     = IdView.all_awakenings_row 2 m transform_base.
Proof.
  intros Hrefl.
  assert (Hbase : forall n,
             IdView.all_awakenings_row (S n) transform_base transform_base
             = IdView.all_awakenings_row 1 transform_base transform_base).
  { intros n. cbn. rewrite Hrefl. reflexivity. }
  assert (Hsome : is_Some (IdView.all_awakenings_row 1 transform_base transform_base)).
  { cbn. rewrite Hrefl. cbn. destruct (Py.len (awakenings transform_base) =? 0); eauto. }
  split.
  - change (IdView.all_awakenings_row 2 m transform_base)
      with (if Py.len (awakenings m) =? 0
            then Some (Box [Some (Text "No Awakenings")] None)
            else
              if negb (monster_eq m transform_base)
              then
                match IdView.all_awakenings_row 1 transform_base transform_base with
                | None => None
                | Some base_row =>
                    Some (Box [Some (Box [Some (Str (if negb (monster_eq m transform_base)
                                                     then "🔺" else ""));
                                          Some (IdView.normal_awakenings_row m)] (Some " "));
                               Some (Box [Some (Str "🔻"); Some base_row] (Some " "));
                               IdView.super_awakenings_row m] None)
                end
              else
                Some (Box [Some (Box [Some (Str (if negb (monster_eq m transform_base)
                                                 then "🔺" else ""));
                                      Some (IdView.normal_awakenings_row m)] (Some " "));
                           None; IdView.super_awakenings_row m] None)).
    destruct Hsome as [base_row ->].
    destruct (Py.len (awakenings m) =? 0), (negb (monster_eq m transform_base)); eauto.
  - change (IdView.all_awakenings_row (S (S fuel)) m transform_base)
      with (if Py.len (awakenings m) =? 0
            then Some (Box [Some (Text "No Awakenings")] None)
            else
              if negb (monster_eq m transform_base)
              then
                match IdView.all_awakenings_row (S fuel) transform_base transform_base with
                | None => None
                | Some base_row =>
                    Some (Box [Some (Box [Some (Str (if negb (monster_eq m transform_base)
                                                     then "🔺" else ""));
                                          Some (IdView.normal_awakenings_row m)] (Some " "));
                               Some (Box [Some (Str "🔻"); Some base_row] (Some " "));
                               IdView.super_awakenings_row m] None)
                end
              else
                Some (Box [Some (Box [Some (Str (if negb (monster_eq m transform_base)
                                                 then "🔺" else ""));
                                      Some (IdView.normal_awakenings_row m)] (Some " "));
                           None; IdView.super_awakenings_row m] None)).
    now rewrite Hbase.
Qed.

End RowsOfAnyMonster.

(** ** The highlighted link and the legend of the evolution list *)

Lemma first_index_none {A} (p : A -> bool) (l : list A) :
  Py.first_index p l = None <-> forall x, In x l -> p x = false.
Proof.
  induction l as [|y l IH]; cbn.
  - split; [intros _ x [] | reflexivity].
  - destruct (p y) eqn:Hy.
    + split; [discriminate |]. intros Hall. rewrite (Hall y) in Hy by now left.
      discriminate.
    + destruct (Py.first_index p l) as [i|]; cbn.
      * split; [discriminate |]. intros Hall. exfalso.
        assert (Hnone : Some i = None) by (apply IH; intros x Hx; apply Hall; now right).
        discriminate Hnone.
      * split; [| reflexivity]. intros _ x [<- | Hx]; [exact Hy |]. now apply IH.
Qed.

Lemma first_index_some {A} (p : A -> bool) (l : list A) (i : nat) :
  Py.first_index p l = Some i ->
  (exists x, l !! i = Some x /\ p x = true)
  /\ (forall j x, (j < i)%nat -> l !! j = Some x -> p x = false).
Proof.
  revert i. induction l as [|y l IH]; intros i Hi; cbn in Hi; [discriminate |].
  destruct (p y) eqn:Hy.
  - injection Hi as <-. split; [now exists y |]. intros j x Hj. lia.
  - destruct (Py.first_index p l) as [i'|]; [| discriminate]. injection Hi as <-.
    destruct (IH i' eq_refl) as [Hat Hbefore]. split; [exact Hat |].
    intros [|j] x Hj Hx; cbn in Hx.
    + now injection Hx as <-.
    + apply (Hbefore j); [lia | exact Hx].
Qed.

Lemma has_equip_spec (alts : list MonsterEvolution) :
  has_equip alts = true <-> exists me, In me alts /\ is_equip (me_monster me) = true.
Proof. unfold has_equip. apply existsb_exists. Qed.

Section EvolutionField.
Context `{ExternalLinks}.

(** X14. [evos_embed_field] stops with the StopIteration of its [next]
    exactly when no alternative has the id of the shown monster. When it
    returns, the highlighted position is that of the first alternative
    with that id, it lies within the links, and the links are one per
    alternative, in order, each with the link of its monster. *)
Theorem evolution_list_highlight (state : ViewStateBaseId) :
  (evos_embed_field state = None
   <-> forall me, In me (vs_alt_monsters state) ->
         monster_id (me_monster me) <> monster_id (vs_monster state))
  /\ (forall field, evos_embed_field state = Some field ->
        let i := highlighted (field_value field) in
        (exists me, vs_alt_monsters state !! i = Some me
                    /\ monster_id (me_monster me) = monster_id (vs_monster state))
        /\ (forall j me, (j < i)%nat -> vs_alt_monsters state !! j = Some me ->
              monster_id (me_monster me) <> monster_id (vs_monster state))
        /\ (i < length (links (field_value field)))%nat
        /\ map link_url (links (field_value field))
           = map (fun me => puzzledragonx (me_monster me)) (vs_alt_monsters state)).
Proof.
  unfold evos_embed_field.
  destruct (Py.first_index
              (fun me => monster_id (vs_monster state) =? monster_id (me_monster me))
              (vs_alt_monsters state)) as [i|] eqn:Hfirst.
  - split.
    + split; [discriminate |]. intros Hnone. exfalso.
      destruct (first_index_some _ _ _ Hfirst) as [(me & Hme & Hid) _].
      apply Z.eqb_eq in Hid. apply (Hnone me); [| congruence].
      apply list_elem_of_In. now apply list_elem_of_lookup_2 with i.
    + intros field Hfield. injection Hfield as <-. cbn.
      destruct (first_index_some _ _ _ Hfirst) as [(me & Hme & Hid) Hbefore].
      split; [| split; [| split]].
      * exists me. split; [exact Hme |]. apply Z.eqb_eq in Hid. congruence.
      * intros j me' Hj Hme'. specialize (Hbefore j me' Hj Hme').
        apply Z.eqb_neq in Hbefore. congruence.
      * rewrite length_map. now apply lookup_lt_Some with me.
      * rewrite map_map. reflexivity.
  - split; [| discriminate]. split; [| reflexivity]. intros _ me Hme.
    apply first_index_none with (x := me) in Hfirst; [| exact Hme].
    apply Z.eqb_neq in Hfirst. congruence.
Qed.

(** X15. The legend of the evolution list holds the Equip entry exactly
    when some listed alternative is an equip, and it comes after the
    Irreversible entry when both are there. The name of the field is the
    bare title when the legend is empty, and the title followed by the
    entries of the legend otherwise. *)
Theorem evolution_legend_equip (state : ViewStateBaseId) :
  (In "⌈Equip⌉" (evos_legend_parts state)
   <-> exists me, In me (vs_alt_monsters state) /\ is_equip (me_monster me) = true)
  /\ (evos_legend_parts state = []
      <-> forall me, In me (vs_alt_monsters state) ->
            is_equip (me_monster me) = false /\ ~ irreversible me)
  /\ (forall field, evos_embed_field state = Some field ->
        field_name field
        = match evos_legend_parts state with
          | [] => "**Evos**"
          | [part] => "**Evos** – Help: " +:+ part
          | _ => "**Evos** – Help: ⌊Irreversible⌋ ⌈Equip⌉"
          end).
Proof.
  split; [| split].
  - rewrite <- has_equip_spec. unfold evos_legend_parts.
    destruct (has_irreversible (vs_alt_monsters state)),
             (has_equip (vs_alt_monsters state)); cbn; split; intros Hin;
      try reflexivity; try discriminate; try tauto.
    destruct Hin as [Hin | []]. discriminate Hin.
  - unfold evos_legend_parts.
    destruct (has_irreversible (vs_alt_monsters state)) eqn:Hirr,
             (has_equip (vs_alt_monsters state)) eqn:Hequip; cbn.
    + split; [discriminate |]. intros Hall. exfalso.
      apply has_equip_spec in Hequip. destruct Hequip as (me & Hme & Heq).
      destruct (Hall me Hme) as [Hno _]. congruence.
    + split; [discriminate |]. intros Hall. exfalso.
      apply has_irreversible_spec in Hirr. destruct Hirr as (me & Hme & Hirr).
      destruct (Hall me Hme) as [_ Hno]. contradiction.
    + split; [discriminate |]. intros Hall. exfalso.
      apply has_equip_spec in Hequip. destruct Hequip as (me & Hme & Heq).
      destruct (Hall me Hme) as [Hno _]. congruence.
    + split; [| reflexivity]. intros _ me Hme. split.
      * destruct (is_equip (me_monster me)) eqn:Heq; [| reflexivity].
        assert (Hex : has_equip (vs_alt_monsters state) = true)
          by (apply has_equip_spec; eauto).
        congruence.
      * intros Hme'.
        assert (Hex : has_irreversible (vs_alt_monsters state) = true)
          by (apply has_irreversible_spec; eauto).
        congruence.
  - intros field Hfield. unfold evos_embed_field in Hfield.
    destruct (Py.first_index _ _) as [i|]; [| discriminate].
    injection Hfield as <-. cbn [field_name]. unfold evos_legend_parts.
    destruct (has_irreversible (vs_alt_monsters state)),
             (has_equip (vs_alt_monsters state)); reflexivity.
Qed.

End EvolutionField.

(** ** The message of the NA difference view *)

Section NaDiff.
Context `{MonsterServers} `{ViewCommon}.

(** X16. [get_na_diff_invalid_message] has no message exactly for a
    monster that is on both servers or on neither and is buffed in JP.
    Otherwise the message is [invalid_monster_text] of the query and the
    monster with one of three endings: only in NA, only in JP, or the same
    in both, the last one also for a monster that is on neither server.
    [set_na_diff_invalid_message] answers whether there is a message, puts
    it under ['message'] of [ims] when there is one, and leaves every
    other key, and the whole dict when there is none, as it was. *)
Theorem na_diff_invalid_message (self : IdViewState) (ims : gmap string ImsValue) :
  let monster := vs_monster (state_base self) in
  let text := fun ending => invalid_monster_text (query self) monster ending true in
  (IdViewState.get_na_diff_invalid_message self = None
   <-> on_na monster = on_jp monster /\ is_jp_buffed self = true)
  /\ (on_na monster = true -> on_jp monster = false ->
      IdViewState.get_na_diff_invalid_message self
      = Some (text ", which is only in NA"))
  /\ (on_na monster = false -> on_jp monster = true ->
      IdViewState.get_na_diff_invalid_message self
      = Some (text ", which is only in JP"))
  /\ (on_na monster = on_jp monster -> is_jp_buffed self = false ->
      IdViewState.get_na_diff_invalid_message self
      = Some (text ", which is the same in NA & JP"))
  /\ (let (ims', changed) := IdViewState.set_na_diff_invalid_message self ims in
      (forall k, k <> "message" -> ims' !! k = ims !! k)
      /\ match IdViewState.get_na_diff_invalid_message self with
         | Some message => changed = true /\ ims' !! "message" = Some (ImsStr message)
         | None => changed = false /\ ims' = ims
         end).
Proof.
  intros monster text.
  unfold IdViewState.set_na_diff_invalid_message, IdViewState.get_na_diff_invalid_message.
  fold monster.
  split; [| split; [| split; [| split]]].
  - destruct (on_na monster), (on_jp monster), (is_jp_buffed self); cbn;
      split; try discriminate; try tauto; intros [? ?]; discriminate.
  - intros -> ->. reflexivity.
  - intros -> ->. reflexivity.
  - intros -> ->. now destruct (on_jp monster).
  - destruct (on_na monster), (on_jp monster), (is_jp_buffed self); cbn;
      (split; [intros k Hk; try reflexivity; now apply lookup_insert_ne
              | try (split; [reflexivity | apply lookup_insert_eq]);
                try (split; reflexivity)]).
Qed.

End NaDiff.

(** ** [forceindexreload3] works on the database in place *)

Section RebuildInPlace.
Context `{EnumTypes}.

Lemma create_index_loop_in_place (self : DBCog) (todo : list Server)
    (self' : DBCog) (obs : list Obs) (flow : Flow RefreshPc) :
  Coroutines.create_index_loop self todo = (self', obs, flow) ->
  database self' = database self
  /\ indexes self' = indexes self
  /\ (forall o, In o obs -> o = ObsIndexPublished \/ o = ObsCheckIndexTask)
  /\ (forall r, flow = Continue r -> database self <> None)
  /\ (forall e, flow = Throw e ->
        e = AttributeError /\ database self = None /\ todo <> [] /\ obs = []).
Proof.
  intros Hloop. unfold Coroutines.create_index_loop in Hloop.
  destruct todo as [|server rest].
  - injection Hloop as <- <- <-. cbn.
    split; [reflexivity | split; [reflexivity | split; [| split; discriminate]]].
    intros o [<- | [<- | []]]; auto.
  - destruct (database self) as [db|] eqn:Hdb; injection Hloop as <- <- <-.
    + rewrite Hdb.
      split; [reflexivity | split; [reflexivity | split; [intros o [] | split]]];
        discriminate.
    + rewrite Hdb.
      split; [reflexivity | split; [reflexivity | split; [intros o [] | split]]].
      * discriminate.
      * intros e He. injection He as <-. repeat split; discriminate.
Qed.

(** X17. [forceindexreload3] never fetches or loads anything: no step of
    it changes the database of the cog or logs, all it issues are its
    replies and, at the end of the rebuild, the publication of the index
    with the start of [check_index]. It waits for an index to be built
    only while the cog has a database; a step that finds none with a
    server still to build ends the command with the AttributeError of
    [self.database.graph], its lock released. *)
Theorem rebuild_leaves_database (self : DBCog) (pc : CmdPc) (a : Answer)
    (self' : DBCog) (obs : list Obs) (pc' : CmdPc) :
  Coroutines.forceindexreload3 self pc a = Some (self', obs, pc') ->
  database self' = database self
  /\ (forall o, In o obs ->
        (exists msg, o = ObsSend msg) \/ o = ObsIndexPublished \/ o = ObsCheckIndexTask)
  /\ (forall r, pc' = CmdWork r -> database self <> None)
  /\ (forall next rest,
        database self = None ->
        (pc = CmdWoken /\ SERVERS = next :: rest
         \/ exists server, pc = CmdWork (RIndex server (next :: rest))
                           /\ exists index, a = ReturnedIndex index) ->
        pc' = CmdRaised AttributeError /\ fir3_lock self' = false /\ obs = []).
Proof.
  intros Hstep.
  assert (Hwork : forall self0 todo self1 obs1 pc1,
             database self0 = database self ->
             match Coroutines.create_index_loop self0 todo with
             | (s, o, Continue r) => (s, o, CmdWork r)
             | (s, o, Finished) => (s, o ++ [ObsSend ReloadFinished], CmdFinishReply)
             | (s, o, Throw e) => (set_fir3_lock false s, o, CmdRaised e)
             end = (self1, obs1, pc1) ->
             database self1 = database self
             /\ (forall o, In o obs1 ->
                   (exists msg, o = ObsSend msg) \/ o = ObsIndexPublished
                   \/ o = ObsCheckIndexTask)
             /\ (forall r, pc1 = CmdWork r -> database self <> None)
             /\ (database self = None -> todo <> [] ->
                 pc1 = CmdRaised AttributeError /\ fir3_lock self1 = false /\ obs1 = [])).
  { intros self0 todo self1 obs1 pc1 Hdb Hrun.
    destruct (Coroutines.create_index_loop self0 todo) as [[s o] flow] eqn:Hloop.
    destruct (create_index_loop_in_place _ _ _ _ _ Hloop)
      as (Hdb' & _ & Hobs & Hcont & Hthrow).
    destruct flow as [r | | e]; injection Hrun as <- <- <-.
    - split; [congruence |]. split; [intros o0 Ho0; right; now apply Hobs |].
      split; [intros r0 _; rewrite <- Hdb; now apply (Hcont r) |].
      intros Hnone _. exfalso. apply (Hcont r eq_refl). congruence.
    - split; [congruence |]. split.
      + intros o0 Ho0. apply in_app_or in Ho0.
        destruct Ho0 as [Ho0 | [<- | []]]; [right; now apply Hobs | left; eauto].
      + split; [discriminate |]. intros Hnone Htodo. exfalso.
        unfold Coroutines.create_index_loop in Hloop.
        destruct todo as [|server rest]; [congruence |].
        rewrite Hdb, Hnone in Hloop. discriminate Hloop.
    - destruct (Hthrow e eq_refl) as (-> & _ & _ & ->).
      split; [cbn; congruence |]. split; [intros o0 [] |].
      split; [discriminate |]. intros _ _. repeat split. }
  assert (Hquiet : forall msgs,
             (forall o, In o msgs -> exists msg, o = ObsSend msg) ->
             forall o, In o msgs ->
               (exists msg, o = ObsSend msg) \/ o = ObsIndexPublished
               \/ o = ObsCheckIndexTask).
  { intros msgs Hall o Ho. left. now apply Hall. }
  unfold Coroutines.forceindexreload3 in Hstep.
  destruct pc as [| | | | | | | r | | | raised]; try discriminate Hstep.
  - destruct (fir3_lock self); injection Hstep as <- <- <-;
      (split; [reflexivity |]; split; [| split; [discriminate |]]).
    + intros o [<- | []]. left. eauto.
    + intros next rest _ [[Hpc _] | (server & Hpc & _)]; discriminate Hpc.
    + intros o [].
    + intros next rest _ [[Hpc _] | (server & Hpc & _)]; discriminate Hpc.
  - destruct a; try discriminate Hstep; injection Hstep as <- <- <-;
      (split; [reflexivity |]; split; [intros o [] | split; [discriminate |]]);
      intros next rest _ [[Hpc _] | (server & Hpc & _)]; discriminate Hpc.
  - destruct a; try discriminate Hstep.
    + unfold Coroutines.forceindexreload3_acquire, Coroutines.forceindexreload3_work,
        Coroutines.create_index in Hstep.
      destruct (fir3_lock self).
      * injection Hstep as <- <- <-.
        split; [reflexivity |]; split; [intros o [] | split; [discriminate |]].
        intros next rest _ [[Hpc _] | (server & Hpc & _)]; discriminate Hpc.
      * destruct (_is_ready (set_fir3_lock true self)).
        -- injection Hstep as Hrun.
           destruct (Hwork (set_fir3_lock true self) SERVERS self' obs pc' eq_refl Hrun)
             as (Hdb & Hobs & Hcont & _).
           split; [exact Hdb |]. split; [exact Hobs |]. split; [exact Hcont |].
           intros next rest _ [[Hpc _] | (server & Hpc & _)]; discriminate Hpc.
        -- injection Hstep as <- <- <-.
           split; [reflexivity |]; split; [intros o [] | split; [discriminate |]].
           intros next rest _ [[Hpc _] | (server & Hpc & _)]; discriminate Hpc.
    + injection Hstep as <- <- <-.
      split; [reflexivity |]; split; [intros o [] | split; [discriminate |]].
      intros next rest _ [[Hpc _] | (server & Hpc & _)]; discriminate Hpc.
  - destruct a; try discriminate Hstep.
    destruct (fir3_lock self) eqn:Hlock; [discriminate |].
    unfold Coroutines.forceindexreload3_acquire, Coroutines.forceindexreload3_work,
      Coroutines.create_index in Hstep.
    rewrite Hlock in Hstep.
    destruct (_is_ready (set_fir3_lock true self)).
    + injection Hstep as Hrun.
      destruct (Hwork (set_fir3_lock true self) SERVERS self' obs pc' eq_refl Hrun)
        as (Hdb & Hobs & Hcont & _).
      split; [exact Hdb |]. split; [exact Hobs |]. split; [exact Hcont |].
      intros next rest _ [[Hpc _] | (server & Hpc & _)]; discriminate Hpc.
    + injection Hstep as <- <- <-.
      split; [reflexivity |]; split; [intros o [] | split; [discriminate |]].
      intros next rest _ [[Hpc _] | (server & Hpc & _)]; discriminate Hpc.
  - destruct a; try discriminate Hstep.
    unfold Coroutines.forceindexreload3_work, Coroutines.create_index in Hstep.
    injection Hstep as Hrun.
    destruct (Hwork self SERVERS self' obs pc' eq_refl Hrun)
      as (Hdb & Hobs & Hcont & Hnone).
    split; [exact Hdb |]. split; [exact Hobs |]. split; [exact Hcont |].
    intros next rest Hno [[_ Hservers] | (server & Hpc & _)]; [| discriminate Hpc].
    apply Hnone; [exact Hno | rewrite Hservers; discriminate].
  - unfold Coroutines.create_index_resume in Hstep.
    destruct r as [| | server todo]; [destruct a; discriminate Hstep
                                      | destruct a; discriminate Hstep |].
    destruct a as [| db | index | e]; try discriminate Hstep.
    + cbn -[Coroutines.create_index_loop] in Hstep.
      assert (Hrun : match Coroutines.create_index_loop
                             (set_indexes (dict_setitem server index (indexes self)) self)
                             todo with
                     | (s, o, Continue r) => (s, o, CmdWork r)
                     | (s, o, Finished) =>
                         (s, o ++ [ObsSend ReloadFinished], CmdFinishReply)
                     | (s, o, Throw e) => (set_fir3_lock false s, o, CmdRaised e)
                     end = (self', obs, pc')).
      { destruct (Coroutines.create_index_loop _ todo) as [[s o] [r | | e]];
          now injection Hstep as <- <- <-. }
      destruct (Hwork (set_indexes (dict_setitem server index (indexes self)) self)
                  todo self' obs pc' eq_refl Hrun) as (Hdb & Hobs & Hcont & Hnone).
      split; [exact Hdb |]. split; [exact Hobs |]. split; [exact Hcont |].
      intros next rest Hno [[Hpc _] | (server' & Hpc & _)]; [discriminate Hpc |].
      injection Hpc as _ ->. apply Hnone; [exact Hno | discriminate].
    + injection Hstep as <- <- <-.
      split; [reflexivity |]; split; [intros o [] | split; [discriminate |]].
      intros next rest _ [[Hpc _] | (server' & _ & index & Ha)]; discriminate.
  - destruct a; try discriminate Hstep; injection Hstep as <- <- <-;
      (split; [reflexivity |]; split; [intros o [] | split; [discriminate |]]);
      intros next rest _ [[Hpc _] | (server & Hpc & _)]; discriminate Hpc.
Qed.

End RebuildInPlace.

(** ** The properties of this part on the sample data *)

Lemma debug_monsters_add_then_rm_witness :
  debug_mode_monsters
    (fst (Settings.debug_monsters_rm
            (fst (Settings.debug_monsters_add Sample.config [1; 2])) [1; 2]))
  = [3260].
Proof.
  apply (debug_monsters_add_then_rm Sample.config [1; 2]).
  - cbn. constructor; [intros [] | constructor].
  - cbn. intros x [<- | [<- | []]] [Heq | []]; discriminate Heq.
Defined.

Lemma reload_blocks_exclusive_witness :
  match @Loop.exec Sample.enum_types (@Loop.boot Sample.enum_types) Sample.early_reload with
  | Some (w, _) =>
      fir_lock (cog w) = true
      /\ exists i pc, tasks w !! i = Some (TFir pc) /\ holds_gate pc = true
  | None => False
  end.
Proof.
  destruct (@Loop.exec Sample.enum_types (@Loop.boot Sample.enum_types)
              Sample.early_reload) as [[w tr] |] eqn:Hrun;
    [| vm_compute in Hrun; discriminate Hrun].
  destruct (@reload_blocks_exclusive Sample.enum_types _ w tr Hrun) as (_ & _ & Hheld & _).
  assert (Hlock : fir_lock (cog w) = true).
  { vm_compute in Hrun. injection Hrun as <- _. reflexivity. }
  split; [exact Hlock | exact (Hheld Hlock)].
Defined.

Lemma check_index_owner_fallback_witness :
  @DBCog.check_index Sample.chat_formatting
     (Sample.cog_with Sample.full_graph) (Sample.cog_with Sample.full_graph)
     ["test failed"] (set_indexlog 5 Sample.config) Sample.bot
  = ([(1, DBCog.setfailurechannel_hint "^");
      (1, @box Sample.chat_formatting
            (DBCog.report_text
               ["graph issue"; "combined issue"; "na issue"; "test failed"]))],
     Ok tt).
Proof.
  assert (Hfallback :=
            @check_index_owner_fallback Sample.chat_formatting
              (Sample.cog_with Sample.full_graph) (Sample.cog_with Sample.full_graph)
              ["test failed"] (set_indexlog 5 Sample.config) Sample.bot
              {| graph := Sample.full_graph |} {| graph := Sample.full_graph |}
              eq_refl eq_refl eq_refl eq_refl).
  cbv zeta in Hfallback.
  assert (Hissues : graph_issues (graph {| graph := Sample.full_graph |})
                    ++ concat (map (fun kv => index_issues (snd kv))
                                 (indexes (Sample.cog_with Sample.full_graph)))
                    ++ ["test failed"] <> []) by discriminate.
  destruct (Hfallback Hissues) as (_ & Hsend & _).
  destruct (Hsend "^" [] eq_refl) as [Hrun _]. rewrite Hrun. reflexivity.
Defined.

Lemma refresh_run_completes_witness :
  exists obs,
    @Refresh.run Sample.enum_types (@DBCog.__init__ Sample.enum_types) RFetch
      (Returned :: ReturnedDatabase {| graph := Sample.full_graph |}
         :: map (fun b => ReturnedIndex (snd b))
              [("COMBINED", Sample.index_combined); ("NA", Sample.index_na)])
    = Some (set_mon_finder
              (Some {| finder_flags :=
                         fm_flags_default (@DBCog.__init__ Sample.enum_types) |})
              (set_indexes
                 (Refresh.store_indexes (indexes (@DBCog.__init__ Sample.enum_types))
                    [("COMBINED", Sample.index_combined); ("NA", Sample.index_na)])
                 (set_database (Some {| graph := Sample.full_graph |})
                    (@DBCog.__init__ Sample.enum_types))),
            obs, Finished)
    /\ In ObsDatabaseLoaded obs /\ In ObsIndexPublished obs.
Proof.
  exact (proj1 (@refresh_run_completes Sample.enum_types
                  (@DBCog.__init__ Sample.enum_types) {| graph := Sample.full_graph |}
                  [("COMBINED", Sample.index_combined); ("NA", Sample.index_na)]
                  eq_refl)).
Defined.

Lemma refresh_run_fails_at_index_witness :
  @Refresh.run Sample.enum_types (Sample.cog_with Sample.debug_graph) RFetch
    (Returned :: ReturnedDatabase {| graph := Sample.full_graph |}
       :: map (fun b => ReturnedIndex (snd b)) [("COMBINED", Sample.index_na)]
       ++ [Raised Sample.OSError])
  = Some (set_indexes
            (Refresh.store_indexes (indexes (Sample.cog_with Sample.debug_graph))
               [("COMBINED", Sample.index_na)])
            (set_database (Some {| graph := Sample.full_graph |})
               (Sample.cog_with Sample.debug_graph)),
          [ObsLogInfo "Loading dg database"; ObsDatabaseLoaded;
           ObsLogInfo "Building dg monster index"],
          Throw Sample.OSError).
Proof.
  exact (proj1 (@refresh_run_fails_at_index Sample.enum_types
                  (Sample.cog_with Sample.debug_graph) {| graph := Sample.full_graph |}
                  [("COMBINED", Sample.index_na)] "NA" [] Sample.OSError eq_refl)).
Defined.

Lemma refresh_run_unchanged_before_load_witness :
  match @Refresh.run Sample.enum_types (Sample.cog_with Sample.full_graph) RFetch
          [Returned; Raised Sample.OSError] with
  | Some (self', _, flow) =>
      self' = Sample.cog_with Sample.full_graph /\ flow = Throw Sample.OSError
  | None => False
  end.
Proof.
  destruct (@Refresh.run Sample.enum_types (Sample.cog_with Sample.full_graph) RFetch
              [Returned; Raised Sample.OSError]) as [[[self' obs] flow] |] eqn:Hrun;
    [| cbn in Hrun; discriminate Hrun].
  split.
  - apply (@refresh_run_unchanged_before_load Sample.enum_types _ self' _ obs flow Hrun).
    cbn in Hrun. injection Hrun as _ <- _. intros [Heq | []]. discriminate Heq.
  - cbn in Hrun. now injection Hrun as _ _ <-.
Defined.

Lemma verbose_wait_notice_protocol_witness :
  let cog := @DBCog.__init__ Sample.enum_types in
  match Verbose.run VEntry
          [(cog, VResume Returned);              (* the call: the notice is sent *)
           (cog, VResume Returned);              (* suspended on the event *)
           (set_is_ready true cog, VSet);
           (set_is_ready true cog, VResume Returned);
           (set_is_ready true cog, VResume (Raised Forbidden))] with
  | Some (obs, pc) => pc = VReturned /\ obs = [SendNotice; DeleteNotice]
  | None => False
  end.
Proof.
  intros cog.
  destruct (Verbose.run VEntry
              [(cog, VResume Returned); (cog, VResume Returned);
               (set_is_ready true cog, VSet);
               (set_is_ready true cog, VResume Returned);
               (set_is_ready true cog, VResume (Raised Forbidden))])
    as [[obs pc] |] eqn:Hrun; [| cbn in Hrun; discriminate Hrun].
  destruct (verbose_wait_notice_protocol _ obs pc Hrun) as (_ & Hreturned & _).
  assert (Hpc : pc = VReturned) by (cbn in Hrun; now injection Hrun as _ <-).
  split; [exact Hpc |].
  destruct (Hreturned Hpc) as [Hnone | Hboth]; [| exact Hboth].
  cbn in Hrun. injection Hrun as <- _. discriminate Hnone.
Defined.

Lemma all_awakenings_row_depth_witness :
  @IdView.all_awakenings_row Sample.emoji Sample.by_id 5 Sample.transformed Sample.base_form
  = @IdView.all_awakenings_row Sample.emoji Sample.by_id 2 Sample.transformed
      Sample.base_form.
Proof.
  exact (proj2 (@all_awakenings_row_depth Sample.emoji Sample.by_id
                  Sample.transformed Sample.base_form 3 eq_refl)).
Defined.

Lemma rebuild_leaves_database_witness :
  match @Coroutines.forceindexreload3 Sample.enum_types
          (set_fir3_lock true (@DBCog.__init__ Sample.enum_types)) CmdWoken Returned with
  | Some (self', obs, pc') =>
      database self' = None /\ pc' = CmdRaised AttributeError
      /\ fir3_lock self' = false /\ obs = []
  | None => False
  end.
Proof.
  destruct (@Coroutines.forceindexreload3 Sample.enum_types
              (set_fir3_lock true (@DBCog.__init__ Sample.enum_types)) CmdWoken Returned)
    as [[[self' obs] pc'] |] eqn:Hstep; [| cbn in Hstep; discriminate Hstep].
  destruct (@rebuild_leaves_database Sample.enum_types _ _ _ self' obs pc' Hstep)
    as (Hdb & _ & _ & Hnone).
  split; [exact Hdb |].
  exact (Hnone "COMBINED" ["NA"] eq_refl (or_introl (conj eq_refl eq_refl))).
Defined.
